(** * RabhateksDPP: filename normalisation and dashboard link maintenance

    A shallow embedding of the three scripts of the repository that change
    files ([fix_dpp_filenames.py], [dpp_cleanup.py],
    [auto_fix_dashboard_mapping.py]) and the properties their design
    document states about them.  The fourth script,
    [check_dashboard_links.py], only reads and prints and is not part of
    the development.

    Python strings are sequences of Unicode code points, so a [str] is a
    [list N].  The pieces of the Python runtime the scripts call but do not
    define (Unicode normalisation, case mapping, the whitespace class, the
    UTF-8 codec, the iteration order of a [set]) are the fields of a
    [runtime] record; what the proofs need to know about them is stated in
    [runtime_laws]. *)

From Stdlib Require Import List NArith Bool Lia String Ascii Arith.
From Stdlib Require Import DecimalString DecimalNat.
Import ListNotations.

(** ** Strings *)

Definition str := list N.
Definition bytes := list N.

Definition lit (s : string) : str := map N_of_ascii (list_ascii_of_string s).

Fixpoint str_eqb (a b : str) : bool :=
  match a, b with
  | [], [] => true
  | x :: a', y :: b' => N.eqb x y && str_eqb a' b'
  | _, _ => false
  end.

Definition mem (x : str) (l : list str) : bool := existsb (str_eqb x) l.

Fixpoint dropwhile (p : N -> bool) (s : str) : str :=
  match s with
  | [] => []
  | c :: t => if p c then dropwhile p t else s
  end.

(** [s.lstrip(chars)], [s.rstrip(chars)] and [s.strip(chars)], with the
    stripped class given as a predicate. *)
Definition lstrip (p : N -> bool) (s : str) : str := dropwhile p s.
Definition rstrip (p : N -> bool) (s : str) : str := rev (dropwhile p (rev s)).
Definition strip (p : N -> bool) (s : str) : str := rstrip p (lstrip p s).

(** [s.replace(k, v)] for a one-character [k]. *)
Definition str_replace (k : N) (v : str) (s : str) : str :=
  flat_map (fun c => if N.eqb c k then v else [c]) s.

(** [re.sub(X+, r, s)] for a character class [X]: every maximal run of
    characters of the class becomes one copy of [r].  [in_run] records
    that the previous character belonged to the run being replaced. *)
Fixpoint re_sub_plus_from (p : N -> bool) (r : str) (in_run : bool) (s : str) : str :=
  match s with
  | [] => []
  | c :: t =>
      if p c
      then (if in_run then [] else r) ++ re_sub_plus_from p r true t
      else c :: re_sub_plus_from p r false t
  end.

Definition re_sub_plus (p : N -> bool) (r : str) (s : str) : str :=
  re_sub_plus_from p r false s.

Fixpoint startswith (pre s : str) : bool :=
  match pre, s with
  | [], _ => true
  | x :: pre', y :: s' => N.eqb x y && startswith pre' s'
  | _ :: _, [] => false
  end.

Definition endswith (suf s : str) : bool := startswith (rev suf) (rev s).

(** ** Characters *)

Definition ch_dot : N := 46.
Definition ch_slash : N := 47.
Definition ch_hyphen : N := 45.
Definition ch_squote : N := 39.
Definition ch_dquote : N := 34.

Definition is_hyphen (c : N) : bool := N.eqb c ch_hyphen.
Definition is_hyphen_or_dot (c : N) : bool := N.eqb c ch_hyphen || N.eqb c ch_dot.
Definition is_lower_az (c : N) : bool := N.leb 97 c && N.leb c 122.
Definition is_digit (c : N) : bool := N.leb 48 c && N.leb c 57.

(** The complement of the class [[^a-z0-9\-.]]. *)
Definition allowed (c : N) : bool :=
  is_lower_az c || is_digit c || N.eqb c ch_hyphen || N.eqb c ch_dot.

(** ** The Python runtime *)

Record runtime := {
  (** [unicodedata.normalize("NFKC", s)] *)
  uni_normalize_NFKC : str -> str;
  (** [s.lower()] *)
  str_lower : str -> str;
  (** [c.isspace()], which is also the class [\s] of [re] on [str] patterns
      and the class removed by [s.strip()] *)
  isspace : N -> bool;
  (** the order in which [for x in set(l)] visits the elements *)
  set_iter : list str -> list str;
  (** reading a file opened with [encoding="utf-8"]; [None] is
      [UnicodeDecodeError] *)
  decode_utf8 : bytes -> option str;
  (** writing to a file opened with [encoding="utf-8"] *)
  encode_utf8 : str -> bytes
}.

(** *** What CPython does on Basic Latin text

    A code point is [inert] when it is ASCII or one of the seven
    punctuation marks of General Punctuation that occur in the
    substitution table below; none of them has a decomposition, a case
    mapping or the White_Space property. *)

Definition ascii_lower (c : N) : N :=
  if N.leb 65 c && N.leb c 90 then (c + 32)%N else c.

Definition ascii_isspace (c : N) : bool :=
  (N.leb 9 c && N.leb c 13) || (N.leb 28 c && N.leb c 32).

Definition inert (c : N) : bool :=
  N.ltb c 128 ||
  existsb (N.eqb c) [8212; 8211; 8210; 8213; 8217; 8220; 8221]%N.

Definition is_dot_or_slash (c : N) : bool := N.eqb c ch_dot || N.eqb c ch_slash.

Record runtime_laws (U : runtime) : Prop := {
  nfkc_inert : forall s, forallb inert s = true -> uni_normalize_NFKC U s = s;
  lower_inert : forall s, forallb inert s = true -> str_lower U s = map ascii_lower s;
  isspace_inert : forall c, inert c = true -> isspace U c = ascii_isspace c;
  lower_idem : forall s, str_lower U (str_lower U s) = str_lower U s;
  (** case mapping neither creates nor removes [.] and [/] ... *)
  lower_separators : forall s,
      filter is_dot_or_slash (str_lower U s) = filter is_dot_or_slash s;
  (** ... and leaves a leading [.] in place *)
  lower_leading_dot : forall s, exists r, str_lower U (ch_dot :: s) = ch_dot :: r
}.

(** The runtime restricted to inert text: the identity for NFKC and for
    the codec, ASCII case folding and the ASCII whitespace class.  A set
    is iterated in order of first insertion.  The codec of this instance
    is meant for ASCII bytes without carriage return only (text mode
    would translate the line ends of other files); it answers [None] on
    everything else. *)
Fixpoint dedup (l : list str) : list str :=
  match l with
  | [] => []
  | x :: t => x :: filter (fun y => negb (str_eqb x y)) (dedup t)
  end.

Definition py_latin : runtime := {|
  uni_normalize_NFKC := fun s => s;
  str_lower := map ascii_lower;
  isspace := ascii_isspace;
  set_iter := dedup;
  decode_utf8 := fun b => if forallb (fun c => N.ltb c 128 && negb (N.eqb c 13)) b
                          then Some b else None;
  encode_utf8 := fun s => s
|}.

(** ** [os.path.splitext] (posixpath) *)

(** [s.rfind(c)]; [None] stands for [-1]. *)
Fixpoint rfind (c : N) (s : str) : option nat :=
  match s with
  | [] => None
  | x :: t =>
      match rfind c t with
      | Some i => Some (S i)
      | None => if N.eqb x c then Some 0 else None
      end
  end.

(** [genericpath._splitext(p, "/", None, ".")]: the extension starts at the
    last dot, provided that dot comes after the last separator and some
    character between the separator and the dot is not a dot. *)
Definition splitext (p : str) : str * str :=
  let sepIndex := rfind ch_slash p in
  let dotIndex := rfind ch_dot p in
  match dotIndex with
  | None => (p, [])
  | Some d =>
      let filenameIndex := match sepIndex with None => 0 | Some i => S i end in
      if Nat.ltb d filenameIndex then (p, [])
      else if existsb (fun c => negb (N.eqb c ch_dot))
                (firstn (d - filenameIndex) (skipn filenameIndex p))
      then (firstn d p, skipn d p)
      else (p, [])
  end.

(** ** [slugify_filename] *)

Definition replacements : list (N * str) :=
  [ (38, lit " and "); (8212, lit "-"); (8211, lit "-"); (8210, lit "-");
    (8213, lit "-"); (95, lit "-"); (47, lit "-"); (58, lit "-");
    (59, lit "-"); (44, lit "-"); (43, lit "-"); (35, lit "-");
    (64, lit "-"); (33, []); (63, []); (39, []); (34, []);
    (8217, []); (8220, []); (8221, []);
    (40, lit "-"); (41, lit "-"); (91, lit "-"); (93, lit "-");
    (123, lit "-"); (125, lit "-"); (124, lit "-"); (92, lit "-") ]%N.

Definition apply_replacements (s : str) : str :=
  fold_left (fun s kv => str_replace (fst kv) (snd kv) s) replacements s.

Arguments apply_replacements s : simpl never.

Section Slugify.
Variable U : runtime.

Definition is_html_ext (ext : str) : bool :=
  mem (str_lower U ext) [lit ".html"; lit ".htm"].

(** [ext = ".html" if ext.lower() in (".html", ".htm") else ext.lower()] *)
Definition norm_ext (ext : str) : str :=
  if is_html_ext ext then lit ".html" else str_lower U ext.

(** The statements of [slugify_filename] between the split and the final
    concatenation. *)
Definition clean_base (base : str) : str :=
  let s := uni_normalize_NFKC U base in
  let s := str_lower U (strip (isspace U) s) in
  let s := apply_replacements s in
  let s := re_sub_plus (isspace U) (lit "-") s in
  let s := filter allowed s in
  let s := re_sub_plus is_hyphen (lit "-") s in
  let s := strip is_hyphen_or_dot s in
  match s with [] => lit "file" | _ => s end.

Definition slugify_filename (name : str) : str :=
  let (base, ext) := splitext name in
  clean_base base ++ norm_ext ext.

End Slugify.

Arguments clean_base U base : simpl never.
Arguments slugify_filename U name : simpl never.

(** ** The shape of a cleaned base *)

(** No two adjacent characters of the class [p]. *)
Fixpoint no_double (p : N -> bool) (s : str) : bool :=
  match s with
  | [] => true
  | a :: t =>
      match t with
      | [] => true
      | b :: _ => negb (p a && p b) && no_double p t
      end
  end.

(** Non-empty, over [[a-z0-9.-]], neither starting nor ending with a hyphen
    or a dot, and without two hyphens in a row. *)
Definition valid_base (s : str) : bool :=
  match s with [] => false | _ => true end
  && forallb allowed s
  && negb (is_hyphen_or_dot (hd 0%N s))
  && negb (is_hyphen_or_dot (last s 0%N))
  && no_double is_hyphen s.

(** The retail document of the design's scenario A; the dash is U+2014. *)
Definition scenario_a : str :=
  lit "Rabateks DPP " ++ [8212%N] ++ lit " Retail/Distribution Management.html".

(** The Slug of the design document: lowercase ASCII letters, digits and
    hyphens with at most one dot, which separates a non-empty base from
    the extension; neither end is a hyphen or a dot and no two hyphens
    are adjacent. *)
Definition count_char (c : N) (s : str) : nat :=
  List.length (filter (N.eqb c) s).

Fixpoint before_dot (s : str) : str :=
  match s with
  | [] => []
  | c :: t => if N.eqb c ch_dot then [] else c :: before_dot t
  end.

Definition valid_slug (s : str) : bool :=
  match s with [] => false | _ => true end
  && forallb allowed s
  && Nat.leb (count_char ch_dot s) 1
  && match before_dot s with [] => false | _ => true end
  && negb (is_hyphen_or_dot (hd 0%N s))
  && negb (is_hyphen_or_dot (last s 0%N))
  && no_double is_hyphen s.

(** ** Dictionaries

    A Python [dict] keeps its keys in insertion order, and the scripts
    iterate over [rename_map.items()], so a dictionary is an association
    list without repeated keys. *)

Definition dict := list (str * str).

Fixpoint dict_find (d : dict) (k : str) : option str :=
  match d with
  | [] => None
  | (k', v) :: d' => if str_eqb k k' then Some v else dict_find d' k
  end.

(** [d.get(k, default)] *)
Definition dict_get (d : dict) (k default : str) : str :=
  match dict_find d k with Some v => v | None => default end.

(** [k in d] *)
Definition dict_has (d : dict) (k : str) : bool :=
  match dict_find d k with Some _ => true | None => false end.

(** [d[k] = v]: an existing key keeps its position. *)
Fixpoint dict_set (d : dict) (k v : str) : dict :=
  match d with
  | [] => [(k, v)]
  | (k', v') :: d' =>
      if str_eqb k k' then (k, v) :: d' else (k', v') :: dict_set d' k v
  end.

Definition dict_keys (d : dict) : list str := map fst d.
Definition dict_values (d : dict) : list str := map snd d.

(** ** The string-literal pattern

    [string_val]: a quote character of either kind (group [q]), the
    lazy group [val] of one or more characters that are not quote
    characters, and a back-reference to [q].
    A match starts at a quote character; [val] may hold no quote
    character of either kind, so the lazy quantifier can only stop at the
    first quote character after the opening one, which has to be the
    opening one again, with at least one character in between. *)

Definition is_quote (c : N) : bool := N.eqb c ch_squote || N.eqb c ch_dquote.

(** The longest prefix without quote characters, and what follows it. *)
Fixpoint span_unquoted (s : str) : str * str :=
  match s with
  | [] => ([], [])
  | c :: t =>
      if is_quote c then ([], s)
      else let (v, r) := span_unquoted t in (c :: v, r)
  end.

(** A match of the pattern at the very beginning of [s]: the quote
    character and the content. *)
Definition match_string_val (s : str) : option (N * str) :=
  match s with
  | [] => None
  | q :: t =>
      if is_quote q then
        match span_unquoted t with
        | ((_ :: _) as val, q' :: _) => if N.eqb q' q then Some (q, val) else None
        | _ => None
        end
      else None
  end.

(** What the scanner of [re] makes of a text: the matches, found from
    left to right without overlap, and the characters between them. *)
Inductive token :=
| Ch (c : N)
| Lit (q : N) (val : str).

(** [skip] counts the characters of the current match that are still to
    be passed over. *)
Fixpoint scan_from (skip : nat) (s : str) : list token :=
  match s with
  | [] => []
  | c :: t =>
      match skip with
      | S k => scan_from k t
      | O =>
          match match_string_val s with
          | Some (q, val) => Lit q val :: scan_from (S (List.length val)) t
          | None => Ch c :: scan_from 0 t
          end
      end
  end.

Definition scan (s : str) : list token := scan_from 0 s.

Definition token_text (t : token) : str :=
  match t with
  | Ch c => [c]
  | Lit q val => q :: val ++ [q]
  end.

(** [[m.group("val") for m in string_val.finditer(s)]] *)
Definition finditer_vals (s : str) : list str :=
  flat_map (fun t => match t with Lit _ val => [val] | Ch _ => [] end) (scan s).

(** ** [replace_urls_in_block] *)

(** The callback [repl]: [f"{quote}{new_val}{quote}"] with
    [new_val = rename_map.get(val, val)]. *)
Definition repl (rename_map : dict) (t : token) : str :=
  match t with
  | Ch c => [c]
  | Lit quote val => quote :: dict_get rename_map val val ++ [quote]
  end.

(** [string_val.sub(repl, block_text)] *)
Definition replace_urls_in_block (block_text : str) (rename_map : dict) : str :=
  flat_map (repl rename_map) (scan block_text).

(** ** [find_dpp_urls_block]

    [re.compile(r"const\s+dppUrls\s*=\s*\{(?P<body>.*?)\}\s*;", re.DOTALL)].
    None of the literal characters that follow [\s+] and [\s*] is
    whitespace, so a greedy run of whitespace never has to give
    characters back. *)

Definition strip_prefix (pre s : str) : option str :=
  if startswith pre s then Some (skipn (List.length pre) s) else None.

Section Locator.
Variable U : runtime.

(** [\}\s*;] at the beginning of [s] *)
Definition closes_here (s : str) : bool :=
  match s with
  | c :: t => N.eqb c 125 && startswith (lit ";") (dropwhile (isspace U) t)
  | [] => false
  end.

(** The length of the shortest [body] after which [\}\s*;] matches. *)
Fixpoint body_length (s : str) : option nat :=
  match s with
  | [] => None
  | _ :: t => if closes_here s then Some 0 else option_map S (body_length t)
  end.

(** A match of the whole pattern at the beginning of [s]: the offsets
    of the two ends of [body], counted from the beginning of [s]. *)
Definition match_declaration (s : str) : option (nat * nat) :=
  match strip_prefix (lit "const") s with
  | None => None
  | Some s1 =>
      match s1 with
      | [] => None
      | c :: _ =>
          if isspace U c then
            match strip_prefix (lit "dppUrls") (dropwhile (isspace U) s1) with
            | None => None
            | Some s2 =>
                match strip_prefix (lit "=") (dropwhile (isspace U) s2) with
                | None => None
                | Some s3 =>
                    match strip_prefix (lit "{") (dropwhile (isspace U) s3) with
                    | None => None
                    | Some s4 =>
                        match body_length s4 with
                        | None => None
                        | Some n =>
                            let start := List.length s - List.length s4 in
                            Some (start, start + n)
                        end
                    end
                end
            end
          else None
      end
  end.

(** [pattern.search]: the leftmost position at which the pattern
    matches; [i] is the offset of [s] in the whole text. *)
Fixpoint search_declaration (i : nat) (s : str) : option (nat * nat) :=
  match match_declaration s with
  | Some (a, b) => Some (i + a, i + b)
  | None =>
      match s with
      | [] => None
      | _ :: t => search_declaration (S i) t
      end
  end.

(** [(m.start("body"), m.end("body"), m.group("body"))], or [None] for
    the triple [(None, None, None)]. *)
Definition find_dpp_urls_block (html_text : str) : option (nat * nat * str) :=
  match search_declaration 0 html_text with
  | None => None
  | Some (a, b) => Some (a, b, firstn (b - a) (skipn a html_text))
  end.

End Locator.

(** *** What the design document asks of the rewriter *)

Definition unquoted (s : str) : bool := forallb (fun c => negb (is_quote c)) s.

(** A quoted string literal at the beginning of a text: a quote
    character, a non-empty content free of quote characters, and the same
    quote character again. *)
Definition literal_at (s : str) (q : N) (val : str) : Prop :=
  is_quote q = true /\ val <> [] /\ unquoted val = true /\
  exists rest, s = q :: val ++ q :: rest.

(** The plan applied to one token: the content of a literal that is a
    key of the plan becomes the plan's target, between the same quote
    characters; anything else stays as it is. *)
Definition retarget (plan : dict) (t : token) : token :=
  match t with
  | Ch c => Ch c
  | Lit q val =>
      match dict_find plan val with
      | Some target => Lit q target
      | None => Lit q val
      end
  end.

(** ** Paths *)

(** [f"{i}"] for a non-negative [int]. *)
Definition str_of_nat (i : nat) : str :=
  lit (NilEmpty.string_of_uint (Nat.to_uint i)).

Definition is_slash (c : N) : bool := N.eqb c ch_slash.

(** [posixpath.join(a, b)] *)
Definition os_path_join (a b : str) : str :=
  if startswith (lit "/") b then b
  else match a with
       | [] => b
       | _ => if endswith (lit "/") a then a ++ b else a ++ lit "/" ++ b
       end.

(** [posixpath.basename(p)]: what follows the last separator. *)
Definition os_path_basename (p : str) : str :=
  match rfind ch_slash p with
  | None => p
  | Some i => skipn (S i) p
  end.

(** [p.split("/")] *)
Fixpoint split_slash (p : str) : list str :=
  match p with
  | [] => [[]]
  | c :: t =>
      if is_slash c then [] :: split_slash t
      else match split_slash t with
           | h :: r => (c :: h) :: r
           | [] => [[c]]
           end
  end.

(** A path component that names an entry of its directory: not empty,
    not [.] and not [..]. *)
Definition proper (c : str) : bool :=
  negb (str_eqb c []) && negb (str_eqb c (lit ".")) && negb (str_eqb c (lit "..")).

(** ** The file system

    The working directory is a tree of regular files and directories
    (no links).  A path is followed in that tree when it is relative, or
    absolute and spelt with the prefix [os.getcwd()], and all its
    components are [proper]; [os.path.exists] on any other spelling
    (through [.], [..], doubled separators, other absolute paths) is
    answered by [elsewhere], which a run does not change. *)

#[warnings="-register-all"]
Inductive node :=
| File (data : bytes)
| Dir (entries : list (str * node)).

Definition directory := list (str * node).

Record filesystem := {
  cwd : str;
  here : directory;
  elsewhere : str -> bool
}.

Fixpoint lookup (name : str) (d : directory) : option node :=
  match d with
  | [] => None
  | (n, x) :: d' => if str_eqb name n then Some x else lookup name d'
  end.

Definition remove (name : str) (d : directory) : directory :=
  filter (fun e => negb (str_eqb name (fst e))) d.

(** Set the entry [name]: in place when it exists, as a new entry
    otherwise. *)
Fixpoint bind_entry (name : str) (x : node) (d : directory) : directory :=
  match d with
  | [] => [(name, x)]
  | (n, y) :: d' =>
      if str_eqb name n then (n, x) :: d' else (n, y) :: bind_entry name x d'
  end.

Definition place := list str.

Definition resolve (fsys : filesystem) (p : str) : option place :=
  if str_eqb p (cwd fsys) then Some []
  else
    let rel := if startswith (lit "/") p
               then strip_prefix (os_path_join (cwd fsys) []) p
               else Some p in
    match rel with
    | None => None
    | Some r =>
        let comps := split_slash r in
        if forallb proper comps then Some comps else None
    end.

Fixpoint get_at (d : directory) (pl : place) : option node :=
  match pl with
  | [] => Some (Dir d)
  | c :: rest =>
      match lookup c d with
      | None => None
      | Some x =>
          match rest with
          | [] => Some x
          | _ :: _ =>
              match x with
              | Dir d' => get_at d' rest
              | File _ => None
              end
          end
      end
  end.

(** Set ([Some]) or delete ([None]) the entry at a place; [None] when
    its parent is not an existing directory. *)
Fixpoint put_at (d : directory) (pl : place) (v : option node) : option directory :=
  match pl with
  | [] => None
  | c :: rest =>
      match rest with
      | [] => Some (match v with
                    | Some x => bind_entry c x d
                    | None => remove c d
                    end)
      | _ :: _ =>
          match lookup c d with
          | Some (Dir d') =>
              match put_at d' rest v with
              | Some d'' => Some (bind_entry c (Dir d'') d)
              | None => None
              end
          | _ => None
          end
      end
  end.

(** [mkdir -p] below a directory; [None] when a component is a regular
    file. *)
Fixpoint makedirs_at (d : directory) (pl : place) : option directory :=
  match pl with
  | [] => Some d
  | c :: rest =>
      match lookup c d with
      | None =>
          match makedirs_at [] rest with
          | Some d' => Some (bind_entry c (Dir d') d)
          | None => None
          end
      | Some (Dir d') =>
          match makedirs_at d' rest with
          | Some d'' => Some (bind_entry c (Dir d'') d)
          | None => None
          end
      | Some (File _) => None
      end
  end.

Definition node_at (fsys : filesystem) (p : str) : option (option node) :=
  match resolve fsys p with
  | Some pl => Some (get_at (here fsys) pl)
  | None => None
  end.

(** [os.path.exists(p)], [os.path.isfile(p)], [os.path.isdir(p)] *)
Definition os_path_exists (fsys : filesystem) (p : str) : bool :=
  match node_at fsys p with
  | Some (Some _) => true
  | Some None => false
  | None => elsewhere fsys p
  end.

Definition os_path_isfile (fsys : filesystem) (p : str) : bool :=
  match node_at fsys p with
  | Some (Some (File _)) => true
  | _ => false
  end.

Definition os_path_isdir (fsys : filesystem) (p : str) : bool :=
  match node_at fsys p with
  | Some (Some (Dir _)) => true
  | _ => false
  end.

Definition with_here (fsys : filesystem) (d : directory) : filesystem :=
  {| cwd := cwd fsys; here := d; elsewhere := elsewhere fsys |}.

(** ** Runs

    A run threads the file system and what has been printed, and ends
    normally or is stopped: by [sys.exit], by an exception that nothing
    catches, by a [return] in the middle of [main], because a call
    addressed a path the model does not follow, or because a search for a
    free name was not finished within the fuel given. *)

Inductive exn :=
| FileNotFoundError
| FileExistsError
| IsADirectoryError
| NotADirectoryError
| DirectoryNotEmpty
| SameFileError
| ShutilError
| UnicodeDecodeError.

Inductive stop :=
| SysExit (code : nat)
| Raised (e : exn)
| Returned
| OutsideModel
| OutOfFuel.

Record world := {
  fs : filesystem;
  stdout : list str
}.

Inductive result (A : Type) :=
| Ok (a : A)
| Stop (s : stop).

Arguments Ok {A} a.
Arguments Stop {A} s.

Definition M (A : Type) : Type := world -> result A * world.

Definition ret {A : Type} (a : A) : M A := fun w => (Ok a, w).

Definition bind {A B : Type} (m : M A) (k : A -> M B) : M B :=
  fun w =>
    match m w with
    | (Ok a, w') => k a w'
    | (Stop s, w') => (Stop s, w')
    end.

Notation "x <- m ;; k" := (bind m (fun x => k))
  (at level 61, m at next level, right associativity).
Notation "m ;; k" := (bind m (fun _ => k))
  (at level 61, right associativity).

Definition halt {A : Type} (s : stop) : M A := fun w => (Stop s, w).

Definition get_fs : M filesystem := fun w => (Ok (fs w), w).

Definition set_here (d : directory) : M unit :=
  fun w => (Ok tt, {| fs := with_here (fs w) d; stdout := stdout w |}).

(** [print(line)] *)
Definition print (line : str) : M unit :=
  fun w => (Ok tt, {| fs := fs w; stdout := stdout w ++ [line] |}).

(** [for x in l: body(x)] *)
Fixpoint for_each {A : Type} (l : list A) (body : A -> M unit) : M unit :=
  match l with
  | [] => ret tt
  | x :: l' => body x ;; for_each l' body
  end.

Definition place_eqb (a b : place) : bool :=
  Nat.eqb (List.length a) (List.length b) && forallb (fun xy => str_eqb (fst xy) (snd xy)) (combine a b).

(** [os.listdir(p)] *)
Definition os_listdir (p : str) : M (list str) :=
  fsys <- get_fs ;;
  match node_at fsys p with
  | None => halt OutsideModel
  | Some None => halt (Raised FileNotFoundError)
  | Some (Some (File _)) => halt (Raised NotADirectoryError)
  | Some (Some (Dir d)) => ret (map fst d)
  end.

(** [os.rename(src, dst)] on one POSIX file system. *)
Definition os_rename (src dst : str) : M unit :=
  fsys <- get_fs ;;
  match resolve fsys src, resolve fsys dst with
  | Some ps, Some pd =>
      match get_at (here fsys) ps with
      | None => halt (Raised FileNotFoundError)
      | Some x =>
          if place_eqb ps pd then ret tt
          else
            match x, get_at (here fsys) pd with
            | File _, Some (Dir _) => halt (Raised IsADirectoryError)
            | Dir _, Some (File _) => halt (Raised NotADirectoryError)
            | Dir _, Some (Dir (_ :: _)) => halt (Raised DirectoryNotEmpty)
            | _, _ =>
                match put_at (here fsys) ps None with
                | None => halt (Raised FileNotFoundError)
                | Some d1 =>
                    match put_at d1 pd (Some x) with
                    | None => halt (Raised FileNotFoundError)
                    | Some d2 => set_here d2
                    end
                end
            end
      end
  | _, _ => halt OutsideModel
  end.

(** [os.makedirs(p, exist_ok=True)] *)
Definition os_makedirs (p : str) : M unit :=
  fsys <- get_fs ;;
  match resolve fsys p with
  | None => halt OutsideModel
  | Some pl =>
      match makedirs_at (here fsys) pl with
      | None => halt (Raised FileExistsError)
      | Some d => set_here d
      end
  end.

(** [shutil.move(src, dst)].  An existing directory [dst] receives the
    entry under its own name.  The copy that replaces a failed
    [os.rename] is for moves across devices; on one file system it fails
    as the rename did. *)
Definition shutil_move (src dst : str) : M unit :=
  fsys <- get_fs ;;
  if os_path_isdir fsys dst then
    let real_dst := os_path_join dst (os_path_basename (rstrip is_slash src)) in
    if os_path_exists fsys real_dst then halt (Raised ShutilError)
    else os_rename src real_dst
  else os_rename src dst.

(** [open(p, "rb").read()] *)
Definition read_bytes (p : str) : M bytes :=
  fsys <- get_fs ;;
  match node_at fsys p with
  | None => halt OutsideModel
  | Some None => halt (Raised FileNotFoundError)
  | Some (Some (Dir _)) => halt (Raised IsADirectoryError)
  | Some (Some (File b)) => ret b
  end.

(** [open(p, "wb").write(b)] *)
Definition write_bytes (p : str) (b : bytes) : M unit :=
  fsys <- get_fs ;;
  match resolve fsys p with
  | None => halt OutsideModel
  | Some pl =>
      match get_at (here fsys) pl with
      | Some (Dir _) => halt (Raised IsADirectoryError)
      | _ =>
          match put_at (here fsys) pl (Some (File b)) with
          | None => halt (Raised FileNotFoundError)
          | Some d => set_here d
          end
      end
  end.

(** [shutil.copy2(src, dst)]: the bytes of [src] (file times and
    permissions are not part of the model). *)
Definition shutil_copy2 (src dst : str) : M unit :=
  fsys <- get_fs ;;
  let dst := if os_path_isdir fsys dst
             then os_path_join dst (os_path_basename src) else dst in
  match resolve fsys src, resolve fsys dst with
  | Some ps, Some pd =>
      if place_eqb ps pd && os_path_exists fsys src
      then halt (Raised SameFileError)
      else b <- read_bytes src ;; write_bytes dst b
  | _, _ => halt OutsideModel
  end.

Section TextFiles.
Variable U : runtime.

(** [with open(p, "r", encoding="utf-8") as f: f.read()] *)
Definition read_text (p : str) : M str :=
  b <- read_bytes p ;;
  match decode_utf8 U b with
  | None => halt (Raised UnicodeDecodeError)
  | Some s => ret s
  end.

(** [with open(p, "w", encoding="utf-8") as f: f.write(s)] *)
Definition write_text (p : str) (s : str) : M unit :=
  write_bytes p (encode_utf8 U s).

End TextFiles.

(** The search for a free name shared by the three loops of the form
    [i = 2; candidate = f"{base}-{i}{ext}"; while os.path.exists(candidate):
    i += 1; candidate = f"{base}-{i}{ext}"]. *)
Fixpoint next_free (taken : str -> bool) (base ext : str) (fuel i : nat)
  : option str :=
  match fuel with
  | O => None
  | S fuel' =>
      let candidate := base ++ lit "-" ++ str_of_nat i ++ ext in
      if taken candidate then next_free taken base ext fuel' (S i)
      else Some candidate
  end.

Definition DASHBOARD_FILE : str := lit "RabateksDPPDashboard.html".
Definition BACKUP_SUFFIX : str := lit ".backup".
Definition OLD_DIR : str := lit "OLD_FILES".
Definition TARGET_FILENAME : str :=
  lit "rabateks-dpp-retail-distribution-management.html".

Definition nl : str := [10%N].

(** ** The working set shared by [fix_dpp_filenames.py] and [dpp_cleanup.py] *)

Section WorkingSet.
Variable U : runtime.

(** [f.lower().endswith((".html", ".htm"))] *)
Definition is_html_name (f : str) : bool :=
  endswith (lit ".html") (str_lower U f) || endswith (lit ".htm") (str_lower U f).

(** [[f for f in names if os.path.isfile(f) and f.lower().endswith(...)]] *)
Definition html_files_of (fsys : filesystem) (names : list str) : list str :=
  filter (fun f => os_path_isfile fsys f && is_html_name f) names.

(** [[f for f in html_files if f != DASHBOARD_FILE]] *)
Definition targets_of (html_files : list str) : list str :=
  filter (fun f => negb (str_eqb f DASHBOARD_FILE)) html_files.

(** The loop over [referenced] that builds [mapping_for_block]: a
    reference that was renamed takes the planned name; one that exists on
    disk under a name that is not its own slug takes that slug. *)
Definition mapping_step (fsys : filesystem) (rename_map : dict)
    (mapping_for_block : dict) (ref : str) : dict :=
  if dict_has rename_map ref
  then dict_set mapping_for_block ref (dict_get rename_map ref ref)
  else if os_path_exists fsys ref
       then let norm := slugify_filename U ref in
            if negb (str_eqb norm ref)
            then dict_set mapping_for_block ref norm
            else mapping_for_block
       else mapping_for_block.

Definition mapping_for (fsys : filesystem) (rename_map : dict) (body : str) : dict :=
  let referenced := set_iter U (finditer_vals body) in
  fold_left (mapping_step fsys rename_map) referenced [].

Definition print_pairs (d : dict) : M unit :=
  for_each d (fun kv => print (lit "  " ++ fst kv ++ lit "  -->  " ++ snd kv)).

(** The last block of both [main]s: the backup, made only when none
    exists, then the rewritten text written over the dashboard. *)
Definition update_dashboard (dashboard_html : str) (start end_ : nat)
    (body : str) (mapping_for_block : dict) (done : str) : M unit :=
  let backup_path := DASHBOARD_FILE ++ BACKUP_SUFFIX in
  fsys <- get_fs ;;
  (if negb (os_path_exists fsys backup_path)
   then shutil_copy2 DASHBOARD_FILE backup_path ;;
        print (lit "Backup created: " ++ backup_path)
   else ret tt) ;;
  let new_body := replace_urls_in_block body mapping_for_block in
  let new_html := firstn start dashboard_html ++ new_body ++ skipn end_ dashboard_html in
  write_text U DASHBOARD_FILE new_html ;;
  print done.

End WorkingSet.

(** ** [fix_dpp_filenames.py] *)

Module fix_dpp_filenames.
Section Main.
Variable U : runtime.

(** One turn of the planning loop: the slug, and when it differs from
    the name and exists on disk, the first free numbered variant. *)
Definition plan_target (fsys : filesystem) (fuel : nat) (old : str) : option str :=
  let new := slugify_filename U old in
  if negb (str_eqb new old) && os_path_exists fsys new
  then let (base, ext) := splitext new in
       next_free (os_path_exists fsys) base ext fuel 2
  else Some new.

Fixpoint build_rename_map (fsys : filesystem) (fuel : nat) (targets : list str)
    (rename_map : dict) : option dict :=
  match targets with
  | [] => Some rename_map
  | old :: rest =>
      match plan_target fsys fuel old with
      | None => None
      | Some new =>
          build_rename_map fsys fuel rest
            (if negb (str_eqb new old) then dict_set rename_map old new
             else rename_map)
      end
  end.

(** [for old, new in rename_map.items(): print(...); os.rename(old, new)] *)
Definition perform_renames (rename_map : dict) : M unit :=
  for_each rename_map (fun kv =>
    print (lit "Renaming: " ++ fst kv ++ lit " -> " ++ snd kv) ;;
    os_rename (fst kv) (snd kv)).

Definition main (fuel : nat) (dry_run : bool) : M unit :=
  fsys <- get_fs ;;
  print (lit "Working directory: " ++ cwd fsys) ;;
  names <- os_listdir (cwd fsys) ;;
  let html_files := html_files_of U fsys names in
  if negb (mem DASHBOARD_FILE html_files) then
    print (lit "ERROR: Cannot find '" ++ DASHBOARD_FILE ++ lit "' in this folder.") ;;
    halt (SysExit 1)
  else
    match build_rename_map fsys fuel (targets_of html_files) [] with
    | None => halt OutOfFuel
    | Some rename_map =>
        match rename_map with
        | [] => print (lit "Nothing to rename. Filenames already look clean.")
        | _ :: _ => print (lit "Planned renames:") ;; print_pairs rename_map
        end ;;
        dashboard_html <- read_text U DASHBOARD_FILE ;;
        let found := find_dpp_urls_block U dashboard_html in
        let mapping_for_block :=
          match found with
          | None => []
          | Some (_, _, body) => mapping_for U fsys rename_map body
          end in
        match found with
        | None =>
            print (lit "WARNING: Could not find 'const dppUrls = { ... };' block in RabateksDPPDashboard.html") ;;
            print (lit "Dashboard links will NOT be auto-updated. You can still manually adjust them.")
        | Some _ =>
            match mapping_for_block with
            | _ :: _ => print (nl ++ lit "Dashboard link updates:") ;;
                        print_pairs mapping_for_block
            | [] => print (nl ++ lit "No dashboard mapping updates needed (or references not found).")
            end
        end ;;
        if dry_run then
          print (nl ++ lit "--dry-run set: no files changed.") ;;
          halt Returned
        else
          perform_renames rename_map ;;
          match found with
          | None => ret tt
          | Some (start, end_, body) =>
              update_dashboard U dashboard_html start end_ body mapping_for_block
                (lit "Updated RabateksDPPDashboard.html link mapping.")
          end ;;
          print (nl ++ lit "Done.") ;;
          print (lit "Tip: Serve locally for testing:") ;;
          print (lit "  python3 -m http.server 8000  && open http://localhost:8000/RabateksDPPDashboard.html")
    end.

End Main.
End fix_dpp_filenames.

(** ** [dpp_cleanup.py] *)

Module dpp_cleanup.
Section Main.
Variable U : runtime.

(** [for old in targets: new = slugify_filename(old);
    if new != old: rename_map[old] = new] *)
Definition build_rename_map (targets : list str) : dict :=
  fold_left (fun rename_map old =>
               let new := slugify_filename U old in
               if negb (str_eqb new old) then dict_set rename_map old new
               else rename_map)
            targets [].

(** [[v for k, v in rename_map.items() if os.path.exists(v)]] *)
Definition conflicts_of (fsys : filesystem) (rename_map : dict) : list str :=
  filter (os_path_exists fsys) (dict_values rename_map).

(** The body of the loop over [conflicts]. *)
Definition quarantine (fuel : nat) (c : str) : M unit :=
  fsys <- get_fs ;;
  let src := os_path_join (cwd fsys) c in
  let dst := os_path_join (os_path_join (cwd fsys) OLD_DIR) c in
  let (base, ext) := splitext dst in
  match (if os_path_exists fsys dst
         then next_free (os_path_exists fsys) base ext fuel 2
         else Some dst) with
  | None => halt OutOfFuel
  | Some dst =>
      print (lit "Moving: " ++ src ++ lit "  ->  " ++ dst) ;;
      shutil_move src dst
  end.

(** The body of the loop that performs the renames. *)
Definition rename_one (fuel : nat) (old new : str) : M unit :=
  if str_eqb old new then ret tt
  else
    print (lit "Renaming: " ++ old ++ lit " -> " ++ new) ;;
    fsys <- get_fs ;;
    if os_path_exists fsys new then
      let (base, ext) := splitext new in
      match next_free (os_path_exists fsys) base ext fuel 2 with
      | None => halt OutOfFuel
      | Some candidate =>
          print (lit "  Target existed; using: " ++ candidate) ;;
          os_rename old candidate
      end
    else os_rename old new.

(** [for old, new in rename_map.items(): ...] *)
Definition perform_renames (fuel : nat) (rename_map : dict) : M unit :=
  for_each rename_map (fun kv => rename_one fuel (fst kv) (snd kv)).

Definition main (fuel : nat) (dry : bool) : M unit :=
  fsys <- get_fs ;;
  print (lit "Working in: " ++ cwd fsys) ;;
  names <- os_listdir (cwd fsys) ;;
  let html_files := html_files_of U fsys names in
  if negb (mem DASHBOARD_FILE html_files) then
    print (lit "ERROR: '" ++ DASHBOARD_FILE ++ lit "' not found here.") ;;
    halt (SysExit 1)
  else
    let rename_map := build_rename_map (targets_of html_files) in
    let conflicts := conflicts_of fsys rename_map in
    match conflicts with
    | _ :: _ =>
        print (nl ++ lit "Conflicts to secure (will move existing clean-named files to OLD_FILES):") ;;
        for_each conflicts (fun c => print (lit "   " ++ c))
    | [] => print (nl ++ lit "No conflicts detected.")
    end ;;
    (if negb dry && match conflicts with [] => false | _ :: _ => true end
     then os_makedirs OLD_DIR ;; for_each conflicts (quarantine fuel)
     else ret tt) ;;
    match rename_map with
    | _ :: _ => print (nl ++ lit "Planned renames:") ;; print_pairs rename_map
    | [] => print (nl ++ lit "Nothing to rename. Filenames already look clean.")
    end ;;
    dashboard_html <- read_text U DASHBOARD_FILE ;;
    fsys1 <- get_fs ;;
    let found := find_dpp_urls_block U dashboard_html in
    let mapping_for_block :=
      match found with
      | None => []
      | Some (_, _, body) => mapping_for U fsys1 rename_map body
      end in
    match found with
    | None => print (nl ++ lit "WARNING: Could not find mapping block.")
    | Some _ =>
        match mapping_for_block with
        | _ :: _ => print (nl ++ lit "Dashboard link updates:") ;;
                    print_pairs mapping_for_block
        | [] => print (nl ++ lit "No dashboard mapping updates needed.")
        end
    end ;;
    if dry then
      print (nl ++ lit "--dry-run complete. No changes made.") ;;
      halt Returned
    else
      perform_renames fuel rename_map ;;
      match found with
      | None => ret tt
      | Some (start, end_, body) =>
          update_dashboard U dashboard_html start end_ body mapping_for_block
            (lit "Updated dashboard mapping.")
      end ;;
      print (nl ++ lit "Done.") ;;
      print (lit "Test with:") ;;
      print (lit "  python3 -m http.server 8000") ;;
      print (lit "  open http://localhost:8000/RabateksDPPDashboard.html").

End Main.
End dpp_cleanup.

(** ** [auto_fix_dashboard_mapping.py] *)

Module auto_fix_dashboard_mapping.

(** [needle in s] *)
Fixpoint str_contains (needle s : str) : bool :=
  startswith needle s ||
  match s with
  | [] => false
  | _ :: t => str_contains needle t
  end.

(** [s.replace(old, new)] for a non-empty [old]: the occurrences found
    from left to right without overlap; [skip] counts the characters of
    the current occurrence still to be passed over. *)
Fixpoint replace_from (old new : str) (skip : nat) (s : str) : str :=
  match s with
  | [] => []
  | c :: t =>
      match skip with
      | S k => replace_from old new k t
      | O =>
          if startswith old s
          then new ++ replace_from old new (List.length old - 1) t
          else c :: replace_from old new 0 t
      end
  end.

Definition str_replace_all (old new s : str) : str := replace_from old new 0 s.

Definition old_variants : list str :=
  [ lit "Rabateks DPP " ++ [8212%N] ++ lit " Retail/Distribution Management.html";
    lit "Rabateks DPP " ++ [8212%N] ++ lit " Retail:Distribution Management.html";
    lit "Rabateks DPP - Retail/Distribution Management.html";
    lit "Rabateks DPP - Retail:Distribution Management.html" ].

Section Main.
Variable U : runtime.

(** A match of the pattern of [main] at the beginning of [s]: a quote
    character of either kind, [retail], a quote character of either kind,
    [\s*:\s*] (group 1), then a string literal as in [string_val]
    (group 2 is its quote character).  The result is group 1, the quote
    of group 2 and [val]. *)
Definition match_retail (s : str) : option (str * N * str) :=
  match s with
  | [] => None
  | q1 :: s1 =>
      if is_quote q1 then
        match strip_prefix (lit "retail") s1 with
        | Some (q2 :: s2) =>
            if is_quote q2 then
              match strip_prefix (lit ":") (dropwhile (isspace U) s2) with
              | Some s4 =>
                  let s5 := dropwhile (isspace U) s4 in
                  match match_string_val s5 with
                  | Some (quote, val) =>
                      Some (firstn (List.length s - List.length s5) s, quote, val)
                  | None => None
                  end
              | None => None
              end
            else None
        | _ => None
        end
      else None
  end.

(** [pattern.sub(repl, html)] together with the flag [changed] that
    [repl] sets. *)
Fixpoint sub_retail_from (skip : nat) (s : str) : str * bool :=
  match s with
  | [] => ([], false)
  | c :: t =>
      match skip with
      | S k => sub_retail_from k t
      | O =>
          match match_retail s with
          | Some (prefix, quote, oldval) =>
              let (out, changed) :=
                sub_retail_from (List.length prefix + List.length oldval + 1) t in
              if negb (str_eqb oldval TARGET_FILENAME)
              then (prefix ++ [quote] ++ TARGET_FILENAME ++ [quote] ++ out, true)
              else (prefix ++ [quote] ++ oldval ++ [quote] ++ out, changed)
          | None =>
              let (out, changed) := sub_retail_from 0 t in (c :: out, changed)
          end
      end
  end.

(** [for ov in old_variants: if ov in new_html: ...] *)
Definition replace_variants (new_html : str) (changed : bool) : str * bool :=
  fold_left (fun st ov =>
               if str_contains ov (fst st)
               then (str_replace_all ov TARGET_FILENAME (fst st), true)
               else st)
            old_variants (new_html, changed).

Definition main : M unit :=
  fsys <- get_fs ;;
  if negb (os_path_exists fsys DASHBOARD_FILE) then
    print (lit "ERROR: " ++ DASHBOARD_FILE ++ lit " not found in current folder") ;;
    halt (SysExit 1)
  else
    html <- read_text U DASHBOARD_FILE ;;
    let backup_path := DASHBOARD_FILE ++ BACKUP_SUFFIX in
    (if negb (os_path_exists fsys backup_path)
     then shutil_copy2 DASHBOARD_FILE backup_path ;;
          print (lit "Backup created: " ++ backup_path)
     else ret tt) ;;
    let (new_html, changed) :=
      let (h, c) := sub_retail_from 0 html in replace_variants h c in
    if negb changed then
      print (lit "No changes made. Mapping already points to the clean filename or pattern not found.") ;;
      halt Returned
    else
      write_text U DASHBOARD_FILE new_html ;;
      print (lit "Updated 'retail' mapping to: " ++ TARGET_FILENAME) ;;
      print (lit "Done. You can re-run: python3 check_dashboard_links.py").

End Main.
End auto_fix_dashboard_mapping.

(** ** Vocabulary of the statements about runs *)

(** A computation that leaves the file system as it found it, however
    it ends. *)
Definition read_only {A : Type} (m : M A) : Prop :=
  forall w, fs (snd (m w)) = fs w.

(** A name that denotes an entry of the working directory itself. *)
Definition plain (n : str) : bool :=
  proper n && forallb (fun c => negb (is_slash c)) n.

(** [os.getcwd()] is absolute, and the entries have plain names. *)
Record well_formed (fsys : filesystem) : Prop := {
  cwd_absolute : startswith (lit "/") (cwd fsys) = true;
  names_plain : forallb plain (map fst (here fsys)) = true
}.

(** ** Sample directories *)

Definition sample_dashboard : bytes :=
  lit "<script>const dppUrls = { 'r': 'Report (final).html', 'x': 'y.html' };</script>".

(** A dashboard with its mapping block, two reports whose names differ
    in case only, and a text file. *)
Definition sample_fs : filesystem := {|
  cwd := lit "/home/u/dpp";
  here := [ (DASHBOARD_FILE, File sample_dashboard);
            (lit "Report (final).html", File (lit "one"));
            (lit "Report (FINAL).html", File (lit "two"));
            (lit "notes.txt", File (lit "n")) ];
  elsewhere := fun _ => false
|}.

(** A directory without dashboard. *)
Definition bare_fs : filesystem := {|
  cwd := lit "/home/u/dpp";
  here := [ (lit "Old Name.html", File (lit "one")) ];
  elsewhere := fun _ => false
|}.

Definition world_of (fsys : filesystem) : world := {| fs := fsys; stdout := [] |}.

(** Every target of a plan can stand between quotes: it is not empty
    and holds no quote character. *)
Definition quotable_targets (plan : dict) : Prop :=
  forall k v, In (k, v) plan -> v <> [] /\ unquoted v = true.

(** The first character is a lowercase ASCII letter or a digit. *)
Definition starts_alnum (s : str) : bool :=
  match s with
  | c :: _ => is_lower_az c || is_digit c
  | [] => false
  end.

(** What [os.rename(old, new)] does between two plain names of the
    working directory (the statement [os_rename_plain] below). *)
Definition rename_in (d : directory) (old new : str) : result unit * directory :=
  match lookup old d with
  | None => (Stop (Raised FileNotFoundError), d)
  | Some x =>
      if str_eqb old new then (Ok tt, d)
      else
        match x, lookup new d with
        | File _, Some (Dir _) => (Stop (Raised IsADirectoryError), d)
        | Dir _, Some (File _) => (Stop (Raised NotADirectoryError), d)
        | Dir _, Some (Dir (_ :: _)) => (Stop (Raised DirectoryNotEmpty), d)
        | _, _ => (Ok tt, bind_entry new x (remove old d))
        end
  end.

(** A property of the file system that a computation maintains, however
    it ends. *)
Definition keeps {A : Type} (I : filesystem -> Prop) (m : M A) : Prop :=
  forall w, I (fs w) -> I (fs (snd (m w))).

(** The entry [n] of a well-formed working directory is [x] ([None]: there
    is no such entry). *)
Definition entry_is (n : str) (x : option node) (fsys : filesystem) : Prop :=
  well_formed fsys /\ lookup n (here fsys) = x.

(** A computation that only prints. *)
Definition printing (m : M unit) : Prop :=
  forall w, exists out, m w = (Ok tt, {| fs := fs w; stdout := out |}).

(** The sample directory after an earlier run left a backup. *)
Definition sample_fs_with_backup : filesystem := {|
  cwd := lit "/home/u/dpp";
  here := here sample_fs ++ [(DASHBOARD_FILE ++ BACKUP_SUFFIX, File (lit "older"))];
  elsewhere := fun _ => false
|}.

(** A computation whose outcome and effect on the files depend on the
    files alone, not on what has been printed. *)
Definition fs_only {A : Type} (m : M A) : Prop :=
  forall w w', fs w = fs w' ->
    fst (m w) = fst (m w') /\ fs (snd (m w)) = fs (snd (m w')).

(** A directory whose dashboard has no mapping block. *)
Definition blockless_fs : filesystem := {|
  cwd := lit "/home/u/dpp";
  here := [ (DASHBOARD_FILE, File (lit "<html><body>no mapping</body></html>"));
            (lit "Old Name.html", File (lit "one")) ];
  elsewhere := fun _ => false
|}.

(** The two rewriting steps of [auto_fix_dashboard_mapping.main] on the
    text read: the new text and the flag [changed]. *)
Definition rewritten (U : runtime) (html : str) : str * bool :=
  let (h, c) := auto_fix_dashboard_mapping.sub_retail_from U 0 html in
  auto_fix_dashboard_mapping.replace_variants h c.

(** A dashboard whose [retail] entry has an old value. *)
Definition retail_fs : filesystem := {|
  cwd := lit "/home/u/dpp";
  here := [ (DASHBOARD_FILE, File (lit "const dppUrls = { 'retail': 'Retail Old.html' };"));
            (lit "notes.txt", File (lit "n")) ];
  elsewhere := fun _ => false
|}.

(** A directory in which the dashboard's name is taken by a directory. *)
Definition dashboard_dir_fs : filesystem := {|
  cwd := lit "/home/u/dpp";
  here := [ (DASHBOARD_FILE, Dir [(lit "index.html", File (lit "x"))]) ];
  elsewhere := fun _ => false
|}.

(** The working directory with its final separator, and the path of the
    name [n] inside the quarantine directory. *)
Definition cwd_slash (fsys : filesystem) : str := os_path_join (cwd fsys) [].

Definition quarantined (fsys : filesystem) (n : str) : str :=
  cwd_slash fsys ++ OLD_DIR ++ lit "/" ++ n.

(** The destination the quarantine loop settles on for the conflict [c]. *)
Definition quarantine_target (fsys : filesystem) (fuel : nat) (c : str) : option str :=
  let dst := quarantined fsys c in
  if os_path_exists fsys dst
  then next_free (os_path_exists fsys) (fst (splitext dst)) (snd (splitext dst)) fuel 2
  else Some dst.

(** A directory with a conflict: the clean name of [Report.html] is in
    use, and an earlier run has already quarantined a file of that
    name. *)
Definition conflict_fs : filesystem := {|
  cwd := lit "/home/u/dpp";
  here := [ (DASHBOARD_FILE, File sample_dashboard);
            (lit "Report.html", File (lit "new"));
            (lit "report.html", File (lit "old"));
            (OLD_DIR, Dir [(lit "report.html", File (lit "older"))]) ];
  elsewhere := fun _ => false
|}.

(** The file with bytes [b] is in safe keeping: it is an entry of the
    working directory other than the dashboard, or an entry of
    [OLD_FILES]. *)
Definition kept (b : bytes) (fsys : filesystem) : Prop :=
  well_formed fsys /\
  ((exists n, n <> DASHBOARD_FILE /\ lookup n (here fsys) = Some (File b)) \/
   (exists od n, lookup OLD_DIR (here fsys) = Some (Dir od) /\
                 lookup n od = Some (File b))).

(** The conflict directory with a text file and an older backup. *)
Definition conflict_fs_with_backup : filesystem := {|
  cwd := lit "/home/u/dpp";
  here := here conflict_fs
          ++ [(lit "notes.txt", File (lit "n"));
              (DASHBOARD_FILE ++ BACKUP_SUFFIX, File (lit "older"))];
  elsewhere := fun _ => false
|}.

(** A computation that, on a well-formed directory, leaves it well formed
    and addresses only paths the model follows. *)
Definition stays_inside {A : Type} (m : M A) : Prop :=
  forall w, well_formed (fs w) ->
    well_formed (fs (snd (m w))) /\ fst (m w) <> Stop OutsideModel.

(** ** Facts about strings *)

Lemma str_eqb_eq (a b : str) : str_eqb a b = true <-> a = b.
Proof.
  revert b; induction a as [|x a IH]; intros [|y b]; simpl; split;
    try congruence; try reflexivity.
  - intros H. apply andb_true_iff in H as [H1 H2].
    apply N.eqb_eq in H1. apply IH in H2. congruence.
  - intros H. injection H as -> ->. rewrite N.eqb_refl. simpl. now apply IH.
Qed.

Lemma str_eqb_refl (a : str) : str_eqb a a = true.
Proof. now apply str_eqb_eq. Qed.

Lemma str_eqb_neq (a b : str) : str_eqb a b = false <-> a <> b.
Proof.
  split.
  - intros H E. apply str_eqb_eq in E. congruence.
  - intros H. destruct (str_eqb a b) eqn:E; [|reflexivity].
    apply str_eqb_eq in E. contradiction.
Qed.

Lemma mem_In (x : str) (l : list str) : mem x l = true <-> In x l.
Proof.
  unfold mem. rewrite existsb_exists. split.
  - intros (y & Hy & E). apply str_eqb_eq in E. now subst.
  - intros H. exists x. split; [assumption | apply str_eqb_refl].
Qed.

Lemma dropwhile_split (p : N -> bool) (s : str) :
  exists pre, s = pre ++ dropwhile p s /\ forallb p pre = true.
Proof.
  induction s as [|c t (pre & E & F)]; simpl.
  - exists []. now split.
  - destruct (p c) eqn:Hc.
    + exists (c :: pre). simpl. rewrite Hc, F. split; [now f_equal | reflexivity].
    + exists []. now split.
Qed.

Lemma dropwhile_head (p : N -> bool) (s : str) (c : N) (t : str) :
  dropwhile p s = c :: t -> p c = false.
Proof.
  induction s as [|x s IH]; simpl; [discriminate|].
  destruct (p x) eqn:Hx; [exact IH|]. intros H. injection H as -> _. exact Hx.
Qed.

Lemma dropwhile_id (p : N -> bool) (s : str) :
  p (hd 0%N s) = false \/ s = [] -> dropwhile p s = s.
Proof.
  destruct s as [|c t]; simpl; [reflexivity|].
  intros [H | H]; [now rewrite H | discriminate].
Qed.

Lemma rstrip_split (p : N -> bool) (s : str) :
  exists suf, s = rstrip p s ++ suf /\ forallb p suf = true.
Proof.
  unfold rstrip. destruct (dropwhile_split p (rev s)) as (pre & E & F).
  exists (rev pre). split.
  - rewrite <- rev_app_distr, <- E. symmetry. apply rev_involutive.
  - rewrite forallb_forall in *. intros x Hx. apply F. now apply in_rev.
Qed.

Lemma strip_split (p : N -> bool) (s : str) :
  exists pre suf, s = pre ++ strip p s ++ suf.
Proof.
  unfold strip, lstrip.
  destruct (dropwhile_split p s) as (pre & E & _).
  destruct (rstrip_split p (dropwhile p s)) as (suf & E' & _).
  exists pre, suf. now rewrite <- E'.
Qed.

Lemma last_rev_hd (s : str) (d : N) : last (rev s) d = hd d s.
Proof.
  destruct s as [|c t]; simpl; [reflexivity|]. apply last_last.
Qed.

Lemma hd_rev_last (s : str) (d : N) : hd d (rev s) = last s d.
Proof. rewrite <- (rev_involutive s) at 2. symmetry. apply last_rev_hd. Qed.

Lemma rstrip_last (p : N -> bool) (s : str) :
  rstrip p s <> [] -> p (last (rstrip p s) 0%N) = false.
Proof.
  unfold rstrip. intros H. rewrite last_rev_hd.
  destruct (dropwhile p (rev s)) as [|c t] eqn:E; [now elim H|].
  simpl. eapply dropwhile_head; eassumption.
Qed.

Lemma rstrip_hd (p : N -> bool) (s : str) :
  rstrip p s <> [] -> hd 0%N (rstrip p s) = hd 0%N s.
Proof.
  intros H. destruct (rstrip_split p s) as (suf & E & _).
  rewrite E at 2. destruct (rstrip p s); [now elim H | reflexivity].
Qed.

Lemma strip_ends (p : N -> bool) (s : str) :
  strip p s <> [] ->
  p (hd 0%N (strip p s)) = false /\ p (last (strip p s) 0%N) = false.
Proof.
  unfold strip, lstrip. intros H. split.
  - rewrite rstrip_hd by assumption.
    destruct (dropwhile p s) as [|c t] eqn:E.
    + now elim H.
    + simpl. eapply dropwhile_head; eassumption.
  - now apply rstrip_last.
Qed.

Lemma strip_id (p : N -> bool) (s : str) :
  p (hd 0%N s) = false -> p (last s 0%N) = false -> strip p s = s.
Proof.
  intros Hh Hl. unfold strip, lstrip, rstrip.
  rewrite (dropwhile_id p s) by (now left).
  rewrite (dropwhile_id p (rev s)).
  - apply rev_involutive.
  - left. now rewrite hd_rev_last.
Qed.

Lemma strip_none (p : N -> bool) (s : str) :
  forallb (fun c => negb (p c)) s = true -> strip p s = s.
Proof.
  intros H. destruct s as [|c t]; [reflexivity|].
  rewrite forallb_forall in H.
  apply strip_id.
  - simpl. specialize (H c (or_introl eq_refl)). now apply negb_true_iff in H.
  - assert (In (last (c :: t) 0%N) (c :: t)) as Hin.
    { destruct (exists_last (l := c :: t)) as (l' & a & E); [discriminate|].
      rewrite E, last_last. apply in_or_app. right. now left. }
    specialize (H _ Hin). now apply negb_true_iff in H.
Qed.

Lemma forallb_app_inv {A : Type} (f : A -> bool) (a b : list A) :
  forallb f (a ++ b) = true -> forallb f a = true /\ forallb f b = true.
Proof. rewrite forallb_app. apply andb_true_iff. Qed.

Lemma strip_forallb (q p : N -> bool) (s : str) :
  forallb q s = true -> forallb q (strip p s) = true.
Proof.
  destruct (strip_split p s) as (pre & suf & E). intros H. rewrite E in H.
  apply forallb_app_inv in H as [_ H]. now apply forallb_app_inv in H as [H _].
Qed.

Lemma str_replace_absent (k : N) (v s : str) :
  forallb (fun c => negb (N.eqb c k)) s = true -> str_replace k v s = s.
Proof.
  induction s as [|c t IH]; simpl; [reflexivity|].
  intros H. apply andb_true_iff in H as [H1 H2].
  apply negb_true_iff in H1. rewrite H1. simpl. f_equal. now apply IH.
Qed.

Lemma re_sub_plus_from_none (p : N -> bool) (r : str) (b : bool) (s : str) :
  forallb (fun c => negb (p c)) s = true -> re_sub_plus_from p r b s = s.
Proof.
  revert b; induction s as [|c t IH]; intros b; simpl; [reflexivity|].
  intros H. apply andb_true_iff in H as [H1 H2].
  apply negb_true_iff in H1. rewrite H1. f_equal. now apply IH.
Qed.

Lemma filter_id {A : Type} (f : A -> bool) (l : list A) :
  forallb f l = true -> filter f l = l.
Proof.
  induction l as [|a l IH]; simpl; [reflexivity|].
  intros H. apply andb_true_iff in H as [H1 H2]. rewrite H1. f_equal. auto.
Qed.

Lemma forallb_filter {A : Type} (f : A -> bool) (l : list A) :
  forallb f (filter f l) = true.
Proof.
  induction l as [|a l IH]; simpl; [reflexivity|].
  destruct (f a) eqn:E; simpl; [now rewrite E|assumption].
Qed.

Lemma forallb_impl {A : Type} (f g : A -> bool) (l : list A) :
  (forall a, f a = true -> g a = true) -> forallb f l = true -> forallb g l = true.
Proof.
  intros H. rewrite !forallb_forall. auto.
Qed.

Lemma no_double_app (p : N -> bool) (a b : str) :
  no_double p (a ++ b) = true -> no_double p a = true /\ no_double p b = true.
Proof.
  induction a as [|x a IH]; simpl; [auto|].
  destruct a as [|y a]; simpl in *.
  - destruct b as [|z b]; [auto|].
    intros H. apply andb_true_iff in H as [_ H]. auto.
  - intros H. apply andb_true_iff in H as [H1 H2].
    destruct (IH H2) as [Ha Hb]. rewrite H1, Ha. auto.
Qed.

Lemma strip_no_double (p q : N -> bool) (s : str) :
  no_double p s = true -> no_double p (strip q s) = true.
Proof.
  destruct (strip_split q s) as (pre & suf & E). intros H. rewrite E in H.
  apply no_double_app in H as [_ H]. now apply no_double_app in H as [H _].
Qed.

Lemma squeeze_hyphens_forallb (q : N -> bool) (b : bool) (s : str) :
  q ch_hyphen = true -> forallb q s = true ->
  forallb q (re_sub_plus_from is_hyphen (lit "-") b s) = true.
Proof.
  change (lit "-") with [ch_hyphen].
  intros Hq. revert b. induction s as [|c t IH]; intros b; simpl; [reflexivity|].
  intros H. apply andb_true_iff in H as [H1 H2].
  destruct (is_hyphen c).
  - rewrite forallb_app, (IH true H2), andb_true_r.
    destruct b; simpl; [reflexivity | now rewrite Hq].
  - simpl. now rewrite H1, IH.
Qed.

Lemma squeeze_hyphens_shape (b : bool) (s : str) :
  no_double is_hyphen (re_sub_plus_from is_hyphen (lit "-") b s) = true /\
  (b = true -> is_hyphen (hd 0%N (re_sub_plus_from is_hyphen (lit "-") b s)) = false).
Proof.
  change (lit "-") with [ch_hyphen].
  revert b. induction s as [|c t IH]; intros b; simpl; [now split|].
  destruct (is_hyphen c) eqn:Hc.
  - destruct (IH true) as [Hn Hh]. specialize (Hh eq_refl).
    destruct b; simpl.
    + split; [assumption | now intros _].
    + split; [|discriminate].
      destruct (re_sub_plus_from is_hyphen [ch_hyphen] true t) as [|y r] eqn:E;
        [reflexivity|].
      simpl in Hh. rewrite Hh. simpl. exact Hn.
  - destruct (IH false) as [Hn _]. split; [|now intros _; simpl].
    destruct (re_sub_plus_from is_hyphen [ch_hyphen] false t) as [|y r] eqn:E;
      [reflexivity|].
    cbn [no_double]. rewrite Hc. simpl. exact Hn.
Qed.

Lemma squeeze_hyphens_id (b : bool) (s : str) :
  no_double is_hyphen s = true ->
  (b = true -> is_hyphen (hd 0%N s) = false) ->
  re_sub_plus_from is_hyphen (lit "-") b s = s.
Proof.
  change (lit "-") with [ch_hyphen].
  revert b. induction s as [|c t IH]; intros b Hn Hb; [reflexivity|].
  cbn [re_sub_plus_from].
  assert (no_double is_hyphen t = true) as Hn'.
  { apply (no_double_app is_hyphen [c] t Hn). }
  destruct (is_hyphen c) eqn:Hc.
  - destruct b; [simpl in Hb; specialize (Hb eq_refl); congruence|].
    apply N.eqb_eq in Hc as ->. simpl. f_equal. apply IH; [assumption|].
    intros _. destruct t as [|y t]; [reflexivity|].
    simpl in Hn. apply andb_true_iff in Hn as [Hn _].
    simpl. now destruct (is_hyphen y).
  - f_equal. apply IH; [assumption | discriminate].
Qed.

(** ** Facts about [splitext] *)

Lemma rfind_None (c : N) (s : str) : rfind c s = None -> ~ In c s.
Proof.
  induction s as [|x t IH]; simpl; [tauto|].
  destruct (rfind c t); [discriminate|].
  destruct (N.eqb x c) eqn:E; [discriminate|].
  apply N.eqb_neq in E. intros _ [H | H]; [congruence | now apply IH].
Qed.

Lemma rfind_absent (c : N) (s : str) : ~ In c s -> rfind c s = None.
Proof.
  induction s as [|x t IH]; simpl; [reflexivity|].
  intros H. rewrite IH by tauto.
  destruct (N.eqb x c) eqn:E; [|reflexivity].
  apply N.eqb_eq in E. tauto.
Qed.

Lemma rfind_Some (c : N) (s : str) (i : nat) :
  rfind c s = Some i ->
  skipn i s = c :: skipn (S i) s /\ ~ In c (skipn (S i) s).
Proof.
  revert i. induction s as [|x t IH]; intros i; simpl; [discriminate|].
  destruct (rfind c t) as [j|] eqn:E.
  - intros H. injection H as <-. apply (IH j eq_refl).
  - destruct (N.eqb x c) eqn:Ex; [|discriminate].
    intros H. injection H as <-. apply N.eqb_eq in Ex as ->.
    split; [reflexivity | now apply rfind_None].
Qed.

Lemma rfind_app_last (c : N) (s r : str) :
  ~ In c r -> rfind c (s ++ c :: r) = Some (List.length s).
Proof.
  intros H. induction s as [|x t IH]; simpl.
  - rewrite (rfind_absent c r H). now rewrite N.eqb_refl.
  - now rewrite IH.
Qed.

Lemma skipn_In (s : str) (n m : nat) (c : N) :
  n <= m -> In c (skipn m s) -> In c (skipn n s).
Proof.
  intros Hle. replace m with ((m - n) + n) by lia.
  rewrite <- skipn_skipn. revert c.
  generalize (skipn n s) as l, (m - n) as k. intros l k. revert l.
  induction k as [|k IH]; intros [|y l] c; simpl; auto.
Qed.

(** The two parts concatenate to the path, and a non-empty extension is a
    dot followed by characters that are neither a dot nor a separator. *)
Lemma splitext_spec (p b e : str) :
  splitext p = (b, e) ->
  p = b ++ e /\
  (e = [] \/ exists r, e = ch_dot :: r /\ ~ In ch_dot r /\ ~ In ch_slash r).
Proof.
  unfold splitext.
  destruct (rfind ch_dot p) as [d|] eqn:Ed.
  2:{ intros H. injection H as <- <-. rewrite app_nil_r. auto. }
  destruct (rfind ch_slash p) as [i|] eqn:Es; cbv zeta.
  - destruct (Nat.ltb d (S i)) eqn:Hlt.
    { intros H. injection H as <- <-. rewrite app_nil_r. auto. }
    apply Nat.ltb_ge in Hlt.
    destruct (existsb _ _).
    2:{ intros H. injection H as <- <-. rewrite app_nil_r. auto. }
    intros H. injection H as <- <-. split; [symmetry; apply firstn_skipn|].
    right. destruct (rfind_Some _ _ _ Ed) as [E1 N1].
    destruct (rfind_Some _ _ _ Es) as [_ N2].
    exists (skipn (S d) p). repeat split; try assumption.
    intros Hin. apply N2. apply (skipn_In p (S i) (S d)); [lia | assumption].
  - destruct (existsb _ _).
    2:{ intros H. destruct (Nat.ltb d 0); injection H as <- <-;
        rewrite app_nil_r; auto. }
    destruct (Nat.ltb d 0) eqn:Hlt; [apply Nat.ltb_lt in Hlt; lia|].
    intros H. injection H as <- <-. split; [symmetry; apply firstn_skipn|].
    right. destruct (rfind_Some _ _ _ Ed) as [E1 N1].
    exists (skipn (S d) p). repeat split; try assumption.
    intros Hin. apply (rfind_None _ _ Es).
    apply (skipn_In p 0 (S d)); [lia | assumption].
Qed.

(** A name without a separator whose first character is not a dot splits
    at its last dot. *)
Lemma splitext_stable (s r : str) :
  s <> [] -> N.eqb (hd 0%N s) ch_dot = false -> ~ In ch_slash s ->
  ~ In ch_dot r -> ~ In ch_slash r ->
  splitext (s ++ ch_dot :: r) = (s, ch_dot :: r).
Proof.
  intros Hne Hhd Hs Hd Hr. unfold splitext.
  rewrite (rfind_app_last ch_dot s r Hd).
  rewrite (rfind_absent ch_slash (s ++ ch_dot :: r)).
  2:{ intros H. apply in_app_or in H as [H | [H | H]]; try tauto. discriminate. }
  cbv zeta. replace (Nat.ltb (List.length s) 0) with false
    by (symmetry; apply Nat.ltb_ge; lia).
  rewrite Nat.sub_0_r. simpl skipn.
  rewrite firstn_app, Nat.sub_diag, firstn_all. simpl firstn. rewrite app_nil_r.
  destruct s as [|c t]; [now elim Hne|]. simpl in Hhd.
  cbn [existsb]. rewrite Hhd. simpl negb. cbn [orb].
  rewrite skipn_app, skipn_all, Nat.sub_diag. reflexivity.
Qed.

Lemma splitext_no_dot (s : str) : ~ In ch_dot s -> splitext s = (s, []).
Proof. intros H. unfold splitext. now rewrite (rfind_absent ch_dot s H). Qed.

(** ** The slugifier *)

Lemma allowed_inert (c : N) : allowed c = true -> inert c = true.
Proof.
  unfold allowed, inert, is_lower_az, is_digit, ch_hyphen, ch_dot.
  intros H. apply orb_true_iff. left. apply N.ltb_lt.
  repeat (apply orb_true_iff in H as [H | H]);
    try (apply andb_true_iff in H as [H1 H2]; apply N.leb_le in H1, H2; lia);
    apply N.eqb_eq in H; lia.
Qed.

Lemma allowed_not_space (c : N) : allowed c = true -> ascii_isspace c = false.
Proof.
  unfold allowed, ascii_isspace, is_lower_az, is_digit, ch_hyphen, ch_dot.
  intros H.
  assert (32 < c)%N as Hc.
  { repeat (apply orb_true_iff in H as [H | H]);
      try (apply andb_true_iff in H as [H1 H2]; apply N.leb_le in H1, H2; lia);
      apply N.eqb_eq in H; lia. }
  apply orb_false_iff. split; apply andb_false_iff; right; apply N.leb_gt; lia.
Qed.

Lemma allowed_lower (c : N) : allowed c = true -> ascii_lower c = c.
Proof.
  unfold allowed, ascii_lower, is_lower_az, is_digit, ch_hyphen, ch_dot.
  intros H.
  assert (c < 65 \/ 90 < c)%N as Hc.
  { repeat (apply orb_true_iff in H as [H | H]);
      try (apply andb_true_iff in H as [H1 H2]; apply N.leb_le in H1, H2; lia);
      apply N.eqb_eq in H; lia. }
  destruct (N.leb 65 c) eqn:E1; [|reflexivity].
  destruct (N.leb c 90) eqn:E2; [|reflexivity].
  apply N.leb_le in E1, E2. lia.
Qed.

Lemma allowed_not_slash (s : str) : forallb allowed s = true -> ~ In ch_slash s.
Proof.
  intros H Hin. rewrite forallb_forall in H. specialize (H _ Hin). discriminate.
Qed.

Lemma apply_replacements_allowed (s : str) :
  forallb allowed s = true -> apply_replacements s = s.
Proof.
  intros H. unfold apply_replacements.
  assert (forallb (fun kv => negb (allowed (fst kv))) replacements = true) as Hk
    by (vm_compute; reflexivity).
  induction replacements as [|[k v] l IH]; simpl; [reflexivity|].
  simpl in Hk. apply andb_true_iff in Hk as [Hk1 Hk2].
  rewrite str_replace_absent; [now apply IH|].
  apply forallb_impl with (f := allowed); [|assumption].
  intros c Hc. apply negb_true_iff. apply N.eqb_neq. intros ->.
  rewrite Hc in Hk1. discriminate.
Qed.

Lemma valid_base_parts (s : str) :
  valid_base s = true ->
  s <> [] /\ forallb allowed s = true /\
  is_hyphen_or_dot (hd 0%N s) = false /\
  is_hyphen_or_dot (last s 0%N) = false /\
  no_double is_hyphen s = true.
Proof.
  unfold valid_base. intros H.
  repeat (apply andb_true_iff in H as [H ?]).
  repeat match goal with
         | X : negb _ = true |- _ => apply negb_true_iff in X
         end.
  repeat split; try assumption. intros ->. discriminate.
Qed.

(** The cleaned base always has the shape [valid_base], whatever the
    runtime does on exotic text: the last four statements of the function
    enforce it. *)
Lemma clean_base_valid (U : runtime) (base : str) :
  valid_base (clean_base U base) = true.
Proof.
  unfold clean_base.
  set (s := filter allowed _).
  assert (forallb allowed s = true) as Hs by apply forallb_filter.
  set (h := re_sub_plus is_hyphen (lit "-") s).
  assert (forallb allowed h = true) as Hh
    by (apply squeeze_hyphens_forallb; [reflexivity | assumption]).
  assert (no_double is_hyphen h = true) as Hn
    by apply (squeeze_hyphens_shape false s).
  destruct (strip is_hyphen_or_dot h) as [|c t] eqn:E; [reflexivity|].
  rewrite <- E. unfold valid_base.
  destruct (strip_ends is_hyphen_or_dot h) as [E1 E2]; [rewrite E; discriminate|].
  rewrite E1, E2, strip_forallb, strip_no_double by assumption.
  rewrite E. reflexivity.
Qed.

(** A string of that shape is a fixed point of the cleaning. *)
Lemma clean_base_fixed (U : runtime) (s : str) :
  runtime_laws U -> valid_base s = true -> clean_base U s = s.
Proof.
  intros L H. destruct (valid_base_parts s H) as (Hne & Ha & Hh & Hl & Hn).
  assert (forallb inert s = true) as Hi
    by (apply forallb_impl with (f := allowed); [apply allowed_inert | assumption]).
  assert (forallb (fun c => negb (isspace U c)) s = true) as Hsp.
  { apply forallb_impl with (f := allowed); [|assumption].
    intros c Hc. rewrite (isspace_inert U L) by now apply allowed_inert.
    now rewrite allowed_not_space. }
  unfold clean_base.
  rewrite (nfkc_inert U L) by assumption.
  rewrite (strip_none (isspace U) s) by assumption.
  rewrite (lower_inert U L) by assumption.
  assert (map ascii_lower s = s) as ->.
  { clear -Ha. induction s as [|c t IH]; [reflexivity|].
    simpl in *. apply andb_true_iff in Ha as [H1 H2].
    now rewrite allowed_lower, IH. }
  rewrite apply_replacements_allowed by assumption.
  unfold re_sub_plus. rewrite (re_sub_plus_from_none (isspace U)) by assumption.
  rewrite filter_id by assumption.
  rewrite squeeze_hyphens_id by (assumption || discriminate).
  rewrite strip_id by assumption.
  destruct s; [now elim Hne | reflexivity].
Qed.

Lemma no_double_app_clean (p : N -> bool) (a b : str) :
  no_double p a = true -> forallb (fun c => negb (p c)) b = true ->
  no_double p (a ++ b) = true.
Proof.
  intros Ha Hb.
  assert (no_double p b = true) as Hnb.
  { clear Ha. induction b as [|x b IH]; [reflexivity|].
    simpl in Hb. apply andb_true_iff in Hb as [H1 H2].
    destruct b as [|y b]; [reflexivity|]. cbn [no_double].
    apply negb_true_iff in H1. rewrite H1. simpl. auto. }
  induction a as [|x a IH]; [exact Hnb|].
  destruct a as [|y a].
  - simpl. destruct b as [|z b]; [reflexivity|].
    simpl in Hb. apply andb_true_iff in Hb as [H1 _].
    apply negb_true_iff in H1. rewrite H1, andb_false_r. simpl. exact Hnb.
  - cbn [no_double] in Ha. apply andb_true_iff in Ha as [H1 H2].
    change ((x :: y :: a) ++ b) with (x :: y :: (a ++ b)).
    cbn [no_double]. rewrite H1. simpl. apply (IH H2).
Qed.

Lemma py_latin_laws : runtime_laws py_latin.
Proof.
  assert (forall c, ascii_lower (ascii_lower c) = ascii_lower c) as Hidem.
  { intros c. unfold ascii_lower.
    destruct (N.leb 65 c && N.leb c 90) eqn:E; [|now rewrite E].
    apply andb_true_iff in E as [E1 E2]. apply N.leb_le in E1, E2.
    replace (N.leb (c + 32) 90) with false; [now rewrite andb_false_r|].
    symmetry. apply N.leb_gt. lia. }
  assert (forall c, is_dot_or_slash (ascii_lower c) = is_dot_or_slash c /\
                    (is_dot_or_slash c = true -> ascii_lower c = c)) as Hsep.
  { intros c. unfold ascii_lower, is_dot_or_slash, ch_dot, ch_slash.
    destruct (N.leb 65 c && N.leb c 90) eqn:E; [|now split].
    apply andb_true_iff in E as [E1 E2]. apply N.leb_le in E1, E2.
    assert (N.eqb c 46 = false) as -> by (apply N.eqb_neq; lia).
    assert (N.eqb c 47 = false) as -> by (apply N.eqb_neq; lia).
    assert (N.eqb (c + 32) 46 = false) as -> by (apply N.eqb_neq; lia).
    assert (N.eqb (c + 32) 47 = false) as -> by (apply N.eqb_neq; lia).
    split; [reflexivity | discriminate]. }
  constructor; simpl.
  - reflexivity.
  - reflexivity.
  - reflexivity.
  - intros s. rewrite map_map. apply map_ext. exact Hidem.
  - intros s. induction s as [|c t IH]; [reflexivity|]. simpl.
    destruct (Hsep c) as [E1 E2]. rewrite E1.
    destruct (is_dot_or_slash c); [|exact IH].
    rewrite E2 by reflexivity. now rewrite IH.
  - intros s. exists (map ascii_lower s). reflexivity.
Qed.

(** *** Every lawful runtime agrees with [py_latin] on inert names *)

Lemma dropwhile_ext (p q : N -> bool) (s : str) :
  (forall c, In c s -> p c = q c) -> dropwhile p s = dropwhile q s.
Proof.
  induction s as [|c t IH]; intros H; simpl; [reflexivity|].
  rewrite <- (H c (or_introl eq_refl)).
  destruct (p c); [|reflexivity]. apply IH. intros x Hx. apply H. now right.
Qed.

Lemma dropwhile_In (p : N -> bool) (s : str) (c : N) :
  In c (dropwhile p s) -> In c s.
Proof.
  destruct (dropwhile_split p s) as (pre & E & _). intros H.
  rewrite E. apply in_or_app. now right.
Qed.

Lemma strip_ext (p q : N -> bool) (s : str) :
  (forall c, In c s -> p c = q c) -> strip p s = strip q s.
Proof.
  intros H. unfold strip, lstrip, rstrip.
  rewrite (dropwhile_ext p q s H). f_equal. apply dropwhile_ext.
  intros c Hc. apply H. apply in_rev in Hc. now apply dropwhile_In in Hc.
Qed.

Lemma re_sub_plus_from_ext (p q : N -> bool) (r : str) (b : bool) (s : str) :
  (forall c, In c s -> p c = q c) ->
  re_sub_plus_from p r b s = re_sub_plus_from q r b s.
Proof.
  revert b. induction s as [|c t IH]; intros b H; simpl; [reflexivity|].
  rewrite <- (H c (or_introl eq_refl)).
  assert (forall b', re_sub_plus_from p r b' t = re_sub_plus_from q r b' t) as E
    by (intros b'; apply IH; intros x Hx; apply H; now right).
  now rewrite !E.
Qed.

Lemma inert_lower (c : N) : inert c = true -> inert (ascii_lower c) = true.
Proof.
  unfold ascii_lower. destruct (N.leb 65 c && N.leb c 90) eqn:E; [|auto].
  intros _. apply andb_true_iff in E as [E1 E2]. apply N.leb_le in E1, E2.
  unfold inert. apply orb_true_iff. left. apply N.ltb_lt. lia.
Qed.

Lemma str_replace_forallb (q : N -> bool) (k : N) (v s : str) :
  forallb q v = true -> forallb q s = true -> forallb q (str_replace k v s) = true.
Proof.
  intros Hv. induction s as [|c t IH]; simpl; [reflexivity|].
  intros H. apply andb_true_iff in H as [H1 H2]. rewrite forallb_app.
  rewrite (IH H2), andb_true_r. destruct (N.eqb c k); [assumption|].
  simpl. now rewrite H1.
Qed.

Lemma apply_replacements_inert (s : str) :
  forallb inert s = true -> forallb inert (apply_replacements s) = true.
Proof.
  unfold apply_replacements.
  assert (forallb (fun kv => forallb inert (snd kv)) replacements = true) as Hv
    by (vm_compute; reflexivity).
  revert s. induction replacements as [|[k v] l IH]; intros s H; simpl; [assumption|].
  simpl in Hv. apply andb_true_iff in Hv as [Hv1 Hv2].
  apply IH; [assumption|]. now apply str_replace_forallb.
Qed.

Lemma clean_base_agree (U : runtime) (b : str) :
  runtime_laws U -> forallb inert b = true ->
  clean_base U b = clean_base py_latin b.
Proof.
  intros L Hb. unfold clean_base. cbn [uni_normalize_NFKC str_lower isspace py_latin].
  rewrite (nfkc_inert U L) by assumption.
  assert (forall s, forallb inert s = true ->
                    forall c, In c s -> isspace U c = ascii_isspace c) as Hsp.
  { intros s Hs c Hc. apply (isspace_inert U L).
    rewrite forallb_forall in Hs. auto. }
  rewrite (strip_ext (isspace U) ascii_isspace b (Hsp b Hb)).
  set (s1 := strip ascii_isspace b).
  assert (forallb inert s1 = true) as H1 by now apply strip_forallb.
  rewrite (lower_inert U L) by assumption.
  set (s2 := apply_replacements (map ascii_lower s1)).
  assert (forallb inert s2 = true) as H2.
  { apply apply_replacements_inert. rewrite forallb_forall in *.
    intros c Hc. apply in_map_iff in Hc as (x & <- & Hx). apply inert_lower. auto. }
  unfold re_sub_plus.
  now rewrite (re_sub_plus_from_ext (isspace U) ascii_isspace _ _ s2 (Hsp s2 H2)).
Qed.

Lemma norm_ext_agree (U : runtime) (e : str) :
  runtime_laws U -> forallb inert e = true -> norm_ext U e = norm_ext py_latin e.
Proof.
  intros L He. unfold norm_ext, is_html_ext. simpl.
  now rewrite (lower_inert U L) by assumption.
Qed.

Lemma slugify_filename_agree (U : runtime) (name : str) :
  runtime_laws U -> forallb inert name = true ->
  slugify_filename U name = slugify_filename py_latin name.
Proof.
  intros L H. unfold slugify_filename.
  destruct (splitext name) as [b e] eqn:E.
  destruct (splitext_spec _ _ _ E) as [-> _].
  apply forallb_app_inv in H as [Hb He].
  now rewrite clean_base_agree, norm_ext_agree.
Qed.

(** C9.  On the retail document of the design's scenario A,
    ["Rabateks DPP — Retail/Distribution Management.html"], the slugifier
    returns exactly ["rabateks-dpp-retail-distribution-management.html"],
    the constant [TARGET_FILENAME] of [auto_fix_dashboard_mapping.py]. *)
Theorem slugify_scenario_a (U : runtime) :
  runtime_laws U ->
  slugify_filename U scenario_a =
  lit "rabateks-dpp-retail-distribution-management.html".
Proof.
  intros L. rewrite slugify_filename_agree by (assumption || reflexivity).
  vm_compute. reflexivity.
Qed.

Lemma slugify_scenario_a_witness :
  slugify_filename py_latin scenario_a =
  lit "rabateks-dpp-retail-distribution-management.html".
Proof. exact (slugify_scenario_a py_latin py_latin_laws). Defined.

(** *** Shape of the result *)

(** C4, as stated, fails: an extension other than [.html]/[.htm] is only
    lowercased, so ["Annex.B C"] becomes ["annex.b c"], which contains a
    space. *)
Lemma slug_validity_counterexample :
  slugify_filename py_latin (lit "Annex.B C") = lit "annex.b c" /\
  valid_slug (slugify_filename py_latin (lit "Annex.B C")) = false.
Proof. split; vm_compute; reflexivity. Qed.

(** Dots of the base survive too: an HTML name can have more than one. *)
Example slug_with_two_dots :
  slugify_filename py_latin (lit "v1.2 Notes.html") = lit "v1.2-notes.html" /\
  valid_slug (lit "v1.2-notes.html") = false.
Proof. split; vm_compute; reflexivity. Qed.

(** C4, amended.  For every input, [slugify_filename] returns a base
    followed by an extension.  The base is non-empty, consists of lowercase
    ASCII letters, digits, hyphens and dots, neither starts nor ends with a
    hyphen or a dot and has no two hyphens in a row.  The extension is
    [".html"] when the input's extension is [.html] or [.htm] in any case,
    and then the whole result is over [[a-z0-9.-]], does not start with a
    hyphen or a dot and has no two hyphens in a row; otherwise it is the
    input's extension lowercased. *)
Theorem slugify_filename_shape (U : runtime) (name : str) :
  exists b e,
    slugify_filename U name = b ++ e /\
    valid_base b = true /\
    if is_html_ext U (snd (splitext name))
    then e = lit ".html" /\
         forallb allowed (b ++ e) = true /\
         is_hyphen_or_dot (hd 0%N (b ++ e)) = false /\
         no_double is_hyphen (b ++ e) = true
    else e = str_lower U (snd (splitext name)).
Proof.
  unfold slugify_filename. destruct (splitext name) as [base ext]. simpl snd.
  exists (clean_base U base), (norm_ext U ext).
  pose proof (clean_base_valid U base) as V.
  destruct (valid_base_parts _ V) as (Hne & Ha & Hh & _ & Hn).
  split; [reflexivity|]. split; [assumption|].
  unfold norm_ext. destruct (is_html_ext U ext); [|reflexivity].
  split; [reflexivity|]. split; [|split].
  - rewrite forallb_app, Ha. reflexivity.
  - destruct (clean_base U base); [now elim Hne | exact Hh].
  - apply no_double_app_clean; [assumption | reflexivity].
Qed.

(** *** Idempotence *)

(** C3, as stated, fails on a name without extension whose base keeps a
    dot: ["a-.b/c"] becomes ["a-.b-c"], which splits at its dot the second
    time and becomes ["a.b-c"]. *)
Lemma slugify_not_idempotent :
  slugify_filename py_latin (lit "a-.b/c") = lit "a-.b-c" /\
  slugify_filename py_latin (slugify_filename py_latin (lit "a-.b/c")) = lit "a.b-c" /\
  slugify_filename py_latin (slugify_filename py_latin (lit "a-.b/c"))
    <> slugify_filename py_latin (lit "a-.b/c").
Proof. split; [|split]; vm_compute; [reflexivity | reflexivity | discriminate]. Qed.

(** The same on every lawful runtime. *)
Lemma slugify_twice_differs (U : runtime) :
  runtime_laws U ->
  slugify_filename U (slugify_filename U (lit "a-.b/c"))
    <> slugify_filename U (lit "a-.b/c").
Proof.
  intros L.
  rewrite (slugify_filename_agree U (lit "a-.b/c") L) by reflexivity.
  assert (slugify_filename py_latin (lit "a-.b/c") = lit "a-.b-c") as E
    by (vm_compute; reflexivity).
  rewrite E. rewrite (slugify_filename_agree U _ L) by reflexivity.
  vm_compute. discriminate.
Qed.

Lemma filter_nil_forall {A : Type} (f : A -> bool) (l : list A) :
  filter f l = [] -> forall x, In x l -> f x = false.
Proof.
  induction l as [|a l IH]; simpl; [tauto|].
  destruct (f a) eqn:E; [discriminate|].
  intros H x [<- | Hx]; auto.
Qed.

Lemma filter_absent {A : Type} (f : A -> bool) (l : list A) :
  (forall x, In x l -> f x = false) -> filter f l = [].
Proof.
  induction l as [|a l IH]; simpl; [reflexivity|].
  intros H. rewrite (H a (or_introl eq_refl)). apply IH. auto.
Qed.

Lemma norm_ext_idem (U : runtime) (e : str) :
  runtime_laws U -> norm_ext U (norm_ext U e) = norm_ext U e.
Proof.
  intros L. unfold norm_ext. destruct (is_html_ext U e) eqn:E.
  - unfold is_html_ext. rewrite (lower_inert U L) by reflexivity. reflexivity.
  - unfold is_html_ext in *. rewrite (lower_idem U L), E. reflexivity.
Qed.

(** The normalised extension of a real extension is again a dot followed
    by characters that are neither dots nor separators. *)
Lemma norm_ext_shape (U : runtime) (r : str) :
  runtime_laws U -> ~ In ch_dot r -> ~ In ch_slash r ->
  exists r', norm_ext U (ch_dot :: r) = ch_dot :: r' /\
             ~ In ch_dot r' /\ ~ In ch_slash r'.
Proof.
  intros L Hd Hs. unfold norm_ext. destruct (is_html_ext U (ch_dot :: r)).
  - exists (lit "html"). split; [reflexivity|].
    split; intros H; simpl in H; repeat destruct H as [H | H]; discriminate || assumption.
  - destruct (lower_leading_dot U L r) as (r' & E). exists r'. split; [assumption|].
    pose proof (lower_separators U L (ch_dot :: r)) as F. rewrite E in F.
    simpl in F. rewrite (filter_absent is_dot_or_slash r) in F.
    2:{ intros x Hx. unfold is_dot_or_slash. apply orb_false_iff.
        split; apply N.eqb_neq; intros ->; tauto. }
    injection F as F. pose proof (filter_nil_forall _ _ F) as G.
    split; intros H; apply G in H; discriminate.
Qed.

(** C3, amended.  Assume the laws [runtime_laws] of the runtime: on text
    made of ASCII characters and the seven punctuation marks of the
    substitution table, NFKC is the identity, [lower] is ASCII lowercasing
    and [isspace] is the ASCII whitespace test; and on every string,
    [lower] is idempotent, keeps the sequence of dots and slashes as it is,
    and keeps a leading dot.  Then [slugify_filename] is idempotent on
    every name whose extension in the sense of [os.path.splitext] is not
    empty, and on every name whose cleaned base contains no dot. *)
Theorem slugify_idempotent (U : runtime) (name : str) :
  runtime_laws U ->
  snd (splitext name) <> [] \/
    ~ In ch_dot (clean_base U (fst (splitext name))) ->
  slugify_filename U (slugify_filename U name) = slugify_filename U name.
Proof.
  intros L Hcase. unfold slugify_filename at 2 3.
  destruct (splitext name) as [b e] eqn:Esp. cbn [fst snd] in Hcase.
  pose proof (clean_base_valid U b) as V.
  destruct (valid_base_parts _ V) as (Hne & Ha & Hh & _ & _).
  destruct (splitext_spec _ _ _ Esp) as [_ [-> | (r & -> & Hd & Hs)]].
  - destruct Hcase as [Hcase | Hcase]; [now elim Hcase|].
    assert (norm_ext U [] = []) as En.
    { unfold norm_ext, is_html_ext.
      now rewrite (lower_inert U L) by reflexivity. }
    rewrite En, app_nil_r. unfold slugify_filename.
    rewrite (splitext_no_dot _ Hcase), En, app_nil_r.
    now apply clean_base_fixed.
  - destruct (norm_ext_shape U r L Hd Hs) as (r' & E & Hd' & Hs').
    unfold slugify_filename. rewrite E.
    rewrite splitext_stable; try assumption.
    + rewrite <- E, norm_ext_idem by assumption.
      now rewrite clean_base_fixed.
    + apply orb_false_iff in Hh. apply Hh.
    + now apply allowed_not_slash.
Qed.

Lemma slugify_idempotent_witness :
  slugify_filename py_latin (slugify_filename py_latin (lit "Report (FINAL).HTM"))
  = slugify_filename py_latin (lit "Report (FINAL).HTM").
Proof.
  apply (slugify_idempotent py_latin (lit "Report (FINAL).HTM") py_latin_laws).
  left. vm_compute. discriminate.
Defined.

Example find_block_example :
  find_dpp_urls_block py_latin (lit "<script>const  dppUrls={ 'a': 'B c.html' } ;</script>")
  = Some (24, 41, lit " 'a': 'B c.html' ").
Proof. vm_compute. reflexivity. Qed.

(** ** The mapping rewriter *)

Lemma span_unquoted_spec (s v r : str) :
  span_unquoted s = (v, r) ->
  s = v ++ r /\ unquoted v = true /\
  match r with [] => True | c :: _ => is_quote c = true end.
Proof.
  revert v r. induction s as [|c t IH]; intros v r; simpl.
  - intros H. injection H as <- <-. auto.
  - destruct (is_quote c) eqn:Hc.
    + intros H. injection H as <- <-. auto.
    + destruct (span_unquoted t) as [v' r'] eqn:E.
      intros H. injection H as <- <-.
      destruct (IH v' r' eq_refl) as (-> & Hv & Hr).
      repeat split; [|assumption]. unfold unquoted. simpl.
      now rewrite Hc.
Qed.

Lemma span_unquoted_app (v : str) (q : N) (rest : str) :
  unquoted v = true -> is_quote q = true ->
  span_unquoted (v ++ q :: rest) = (v, q :: rest).
Proof.
  intros Hv Hq. induction v as [|c v IH]; simpl.
  - now rewrite Hq.
  - simpl in Hv. apply andb_true_iff in Hv as [H1 H2].
    apply negb_true_iff in H1. rewrite H1, (IH H2). reflexivity.
Qed.

Lemma match_string_val_sound (s : str) (q : N) (val : str) :
  match_string_val s = Some (q, val) -> literal_at s q val.
Proof.
  unfold match_string_val. destruct s as [|c t]; [discriminate|].
  destruct (is_quote c) eqn:Hc; [|discriminate].
  destruct (span_unquoted t) as [v r] eqn:E.
  destruct (span_unquoted_spec _ _ _ E) as (-> & Hv & _).
  destruct v as [|x v]; [discriminate|].
  destruct r as [|q' r]; [discriminate|].
  destruct (N.eqb q' c) eqn:Eq; [|discriminate].
  apply N.eqb_eq in Eq as ->.
  intros H. injection H as <- <-.
  repeat split; try assumption; [discriminate | now exists r].
Qed.

Lemma match_string_val_complete (s : str) (q : N) (val : str) :
  literal_at s q val -> match_string_val s = Some (q, val).
Proof.
  intros (Hq & Hne & Hv & rest & ->). unfold match_string_val.
  rewrite Hq, (span_unquoted_app val q rest Hv Hq).
  destruct val; [now elim Hne|]. now rewrite N.eqb_refl.
Qed.

Lemma scan_from_text (k : nat) (s : str) :
  flat_map token_text (scan_from k s) = skipn k s.
Proof.
  revert k. induction s as [|c t IH]; intros k.
  - now destruct k.
  - destruct k as [|k]; [|apply IH].
    cbn [scan_from]. destruct (match_string_val (c :: t)) as [[q val]|] eqn:E.
    + destruct (match_string_val_sound _ _ _ E) as (_ & _ & _ & rest & Es).
      injection Es as -> ->.
      cbn [flat_map token_text]. rewrite IH.
      rewrite skipn_app, Nat.sub_succ_l, Nat.sub_diag by lia.
      rewrite skipn_all2 by lia. simpl. now rewrite <- app_assoc.
    + simpl. f_equal. apply (IH 0).
Qed.

Lemma scan_text (s : str) : flat_map token_text (scan s) = s.
Proof. apply (scan_from_text 0). Qed.

Lemma scan_from_skipn (k : nat) (s : str) :
  scan_from k s = scan (skipn k s).
Proof.
  revert k. induction s as [|c t IH]; intros [|k]; try reflexivity.
  simpl. apply IH.
Qed.

(** The scanner's unfolding equations. *)
Lemma scan_literal (q : N) (val rest : str) :
  is_quote q = true -> val <> [] -> unquoted val = true ->
  scan (q :: val ++ q :: rest) = Lit q val :: scan rest.
Proof.
  intros Hq Hne Hv. unfold scan at 1. cbn [scan_from].
  rewrite (match_string_val_complete (q :: val ++ q :: rest) q val)
    by (repeat split; try assumption; now exists rest).
  f_equal. rewrite scan_from_skipn. f_equal.
  rewrite skipn_app, Nat.sub_succ_l, Nat.sub_diag by lia.
  now rewrite skipn_all2 by lia.
Qed.

Lemma scan_char (c : N) (t : str) :
  match_string_val (c :: t) = None -> scan (c :: t) = Ch c :: scan t.
Proof. intros H. unfold scan. cbn [scan_from]. now rewrite H. Qed.

(** What follows a token boundary is scanned as if the text began there. *)
Lemma scan_suffix (s : str) (pre post : list token) :
  scan s = pre ++ post -> post = scan (flat_map token_text post).
Proof.
  revert s. induction pre as [|tok pre IH]; intros s H.
  - simpl in H. subst post. now rewrite scan_text.
  - destruct s as [|c t]; [discriminate|].
    unfold scan in H. cbn [scan_from] in H.
    destruct (match_string_val (c :: t)) as [[q val]|].
    + injection H as _ H. rewrite scan_from_skipn in H. now apply IH in H.
    + injection H as _ H. now apply IH in H.
Qed.

(** *** What is rewritten, and what is not *)

(** C5, as stated, fails: what the rewriter replaces are the matches of
    its pattern, whose content may hold no quote character of either
    kind and may not be empty.  A double-quoted literal with an apostrophe
    in it is not a match, so its content, a key of the plan, stays; and an
    empty literal throws the scan out of step, so that the literal after
    it is not replaced either. *)
Lemma replace_misses_quoted_key :
  dict_find [(lit "Men's Wear.html", lit "mens-wear.html")] (lit "Men's Wear.html")
    = Some (lit "mens-wear.html") /\
  replace_urls_in_block
    ([ch_dquote] ++ lit "Men's Wear.html" ++ [ch_dquote])
    [(lit "Men's Wear.html", lit "mens-wear.html")]
  = [ch_dquote] ++ lit "Men's Wear.html" ++ [ch_dquote] /\
  replace_urls_in_block (lit "['', 'x.html']") [(lit "x.html", lit "y.html")]
  = lit "['', 'x.html']".
Proof. split; [|split]; vm_compute; reflexivity. Qed.

Lemma dict_find_first (p1 p2 : dict) (k v : str) :
  ~ In k (map fst p1) -> dict_find (p1 ++ (k, v) :: p2) k = Some v.
Proof.
  induction p1 as [|[k' v'] p1 IH]; intros H; cbn [app dict_find].
  - now rewrite str_eqb_refl.
  - assert (str_eqb k k' = false) as ->
      by (apply str_eqb_neq; intros ->; apply H; now left).
    apply IH. intros Hin. apply H. now right.
Qed.

Lemma dict_find_absent (d : dict) (k : str) :
  ~ In k (map fst d) -> dict_find d k = None.
Proof.
  induction d as [|[k' v'] d IH]; intros H; cbn [dict_find]; [reflexivity|].
  assert (str_eqb k k' = false) as ->
    by (apply str_eqb_neq; intros ->; apply H; now left).
  apply IH. intros Hin. apply H. now right.
Qed.

Lemma replace_unquoted_prefix (plan : dict) (pre s : str) :
  unquoted pre = true ->
  replace_urls_in_block (pre ++ s) plan = pre ++ replace_urls_in_block s plan.
Proof.
  unfold replace_urls_in_block.
  induction pre as [|c pre IH]; intros H; [reflexivity|].
  cbn [unquoted forallb] in H. apply andb_true_iff in H as [Hc H].
  apply negb_true_iff in Hc. cbn [app].
  rewrite scan_char by (unfold match_string_val; now rewrite Hc).
  cbn [flat_map repl app]. f_equal. now apply IH.
Qed.

(** C5, amended.  [replace_urls_in_block] rewrites the matches of its
    pattern, found from left to right: a quote character of either kind, a
    non-empty content that holds no quote character of either kind, and
    the same quote character again.  Text without quote characters is
    copied.  At the first quote character of a text, if no such match
    starts there, the quote character is copied and the rewriting goes on
    with what follows it; if a match starts there, the two quote
    characters are kept, the content is replaced by the target the plan
    binds it to (the first binding, if the content is a key) or copied (if
    it is not a key), and the rewriting goes on after the closing quote
    character. *)
Theorem replace_urls_in_block_spec (plan : dict) (pre : str) (q : N) (rest : str) :
  unquoted pre = true -> is_quote q = true ->
  replace_urls_in_block pre plan = pre /\
  ((forall val : str, ~ literal_at (q :: rest) q val) ->
   replace_urls_in_block (pre ++ q :: rest) plan
   = pre ++ q :: replace_urls_in_block rest plan) /\
  (forall val post : str,
     rest = val ++ q :: post -> val <> [] -> unquoted val = true ->
     exists val' : str,
       replace_urls_in_block (pre ++ q :: rest) plan
       = pre ++ q :: val' ++ q :: replace_urls_in_block post plan /\
       (forall (p1 : dict) (target : str) (p2 : dict),
          plan = p1 ++ (val, target) :: p2 -> ~ In val (map fst p1) ->
          val' = target) /\
       (~ In val (map fst plan) -> val' = val)).
Proof.
  intros Hpre Hq. split; [|split].
  - rewrite <- (app_nil_r pre) at 1.
    rewrite (replace_unquoted_prefix plan pre [] Hpre). apply app_nil_r.
  - intros Hno. rewrite (replace_unquoted_prefix plan pre _ Hpre). f_equal.
    unfold replace_urls_in_block. rewrite scan_char; [reflexivity|].
    destruct (match_string_val (q :: rest)) as [[q' val]|] eqn:M; [|reflexivity].
    pose proof (match_string_val_sound _ _ _ M) as Lit.
    assert (q' = q) as ->
      by (destruct Lit as (_ & _ & _ & r & E); now injection E).
    now elim (Hno val).
  - intros val post -> Hne Hv. exists (dict_get plan val val).
    split; [|split].
    + rewrite (replace_unquoted_prefix plan pre _ Hpre). f_equal.
      unfold replace_urls_in_block. rewrite (scan_literal q val post Hq Hne Hv).
      cbn [flat_map repl app]. now rewrite <- app_assoc.
    + intros p1 target p2 -> Hfirst. unfold dict_get.
      assert (dict_find (p1 ++ (val, target) :: p2) val = Some target) as ->
        by now apply dict_find_first.
      reflexivity.
    + intros Habs. unfold dict_get.
      assert (dict_find plan val = None) as -> by now apply dict_find_absent.
      reflexivity.
Qed.

Lemma replace_urls_in_block_spec_witness :
  replace_urls_in_block (lit " 'r': 'Report (final).html', 'x': 'y.html' ")
    [(lit "Report (final).html", lit "report-final.html")]
  = lit " 'r': 'report-final.html', 'x': 'y.html' ".
Proof.
  destruct (replace_urls_in_block_spec
              [(lit "Report (final).html", lit "report-final.html")]
              (lit " ") 39 (lit "r': 'Report (final).html', 'x': 'y.html' ")
              eq_refl eq_refl) as (_ & _ & H1).
  destruct (H1 (lit "r") (lit ": 'Report (final).html', 'x': 'y.html' ") eq_refl)
    as (v1 & E1 & _ & A1); [discriminate | reflexivity |].
  rewrite (A1 ltac:(vm_compute; intuition discriminate)) in E1.
  destruct (replace_urls_in_block_spec
              [(lit "Report (final).html", lit "report-final.html")]
              (lit ": ") 39 (lit "Report (final).html', 'x': 'y.html' ")
              eq_refl eq_refl) as (_ & _ & H2).
  destruct (H2 (lit "Report (final).html") (lit ", 'x': 'y.html' ") eq_refl)
    as (v2 & E2 & K2 & _); [discriminate | reflexivity |].
  rewrite (K2 [] (lit "report-final.html") [] eq_refl (fun H => H)) in E2.
  change (lit " 'r': 'Report (final).html', 'x': 'y.html' ")
    with (lit " " ++ 39%N :: lit "r': 'Report (final).html', 'x': 'y.html' ").
  rewrite E1.
  change (lit ": 'Report (final).html', 'x': 'y.html' ")
    with (lit ": " ++ 39%N :: lit "Report (final).html', 'x': 'y.html' ").
  rewrite E2. vm_compute. reflexivity.
Defined.

(** Both quote styles are kept, and a literal that is not a key is copied. *)
Example replace_urls_example :
  replace_urls_in_block
    (lit " 'a': 'B c.html', " ++ [ch_dquote] ++ lit "k" ++ [ch_dquote] ++ lit ": "
       ++ [ch_dquote] ++ lit "B c.html" ++ [ch_dquote] ++ lit ", 'x.html' ")
    [(lit "B c.html", lit "b-c.html")]
  = lit " 'a': 'b-c.html', " ++ [ch_dquote] ++ lit "k" ++ [ch_dquote] ++ lit ": "
       ++ [ch_dquote] ++ lit "b-c.html" ++ [ch_dquote] ++ lit ", 'x.html' ".
Proof. vm_compute. reflexivity. Qed.

(** ** Runs that only read *)

Lemma read_only_ret {A : Type} (a : A) : read_only (ret a).
Proof. intros w. reflexivity. Qed.

Lemma read_only_halt {A : Type} (s : stop) : read_only (@halt A s).
Proof. intros w. reflexivity. Qed.

Lemma read_only_print (line : str) : read_only (print line).
Proof. intros w. reflexivity. Qed.

Lemma read_only_get_fs : read_only get_fs.
Proof. intros w. reflexivity. Qed.

Lemma read_only_bind {A B : Type} (m : M A) (k : A -> M B) :
  read_only m -> (forall a, read_only (k a)) -> read_only (bind m k).
Proof.
  intros Hm Hk w. unfold bind. specialize (Hm w).
  destruct (m w) as [[a | s] w']; simpl in *.
  - now rewrite (Hk a w').
  - assumption.
Qed.

Lemma read_only_for_each {A : Type} (l : list A) (body : A -> M unit) :
  (forall x, read_only (body x)) -> read_only (for_each l body).
Proof.
  intros H. induction l as [|x l IH]; simpl.
  - apply read_only_ret.
  - apply read_only_bind; [apply H | intros _; apply IH].
Qed.

Lemma read_only_os_listdir (p : str) : read_only (os_listdir p).
Proof.
  unfold os_listdir. apply read_only_bind; [apply read_only_get_fs|].
  intros fsys. destruct (node_at fsys p) as [[[b | d]|]|];
    apply read_only_halt || apply read_only_ret.
Qed.

Lemma read_only_read_bytes (p : str) : read_only (read_bytes p).
Proof.
  unfold read_bytes. apply read_only_bind; [apply read_only_get_fs|].
  intros fsys. destruct (node_at fsys p) as [[[b | d]|]|];
    apply read_only_halt || apply read_only_ret.
Qed.

Lemma read_only_read_text (U : runtime) (p : str) : read_only (read_text U p).
Proof.
  unfold read_text. apply read_only_bind; [apply read_only_read_bytes|].
  intros b. destruct (decode_utf8 U b); apply read_only_halt || apply read_only_ret.
Qed.

Lemma read_only_print_pairs (d : dict) : read_only (print_pairs d).
Proof.
  unfold print_pairs. apply read_only_for_each. intros x. apply read_only_print.
Qed.

Create HintDb ro discriminated.
#[export] Hint Resolve read_only_ret read_only_halt read_only_print
  read_only_get_fs read_only_os_listdir read_only_read_bytes
  read_only_read_text read_only_print_pairs : ro.

(** Splits a sequence of statements into its steps and discharges the
    ones that only read or print. *)
Ltac read_only_steps :=
  repeat first
    [ progress auto with ro
    | apply read_only_bind; [|intros ?]
    | apply read_only_for_each; intros ?
    | match goal with
      | |- read_only (match ?x with _ => _ end) => destruct x
      | |- read_only (if ?x then _ else _) => destruct x
      | |- read_only (let (_, _) := ?x in _) => destruct x
      end ].

(** X1.  With [--dry-run], [fix_dpp_filenames.main] leaves the file
    system exactly as it found it, whatever the directory contains,
    whatever the fuel and however the run ends. *)
Theorem fix_dry_run_changes_nothing (U : runtime) (fuel : nat) (w : world) :
  fs (snd (fix_dpp_filenames.main U fuel true w)) = fs w.
Proof.
  revert w. change (read_only (fix_dpp_filenames.main U fuel true)).
  unfold fix_dpp_filenames.main. read_only_steps.
Qed.

(** X2.  With [--dry-run], [dpp_cleanup.main] leaves the file system
    exactly as it found it: no quarantine directory is made, nothing is
    moved or renamed and the dashboard is not written. *)
Theorem cleanup_dry_run_changes_nothing (U : runtime) (fuel : nat) (w : world) :
  fs (snd (dpp_cleanup.main U fuel true w)) = fs w.
Proof.
  revert w. change (read_only (dpp_cleanup.main U fuel true)).
  unfold dpp_cleanup.main. cbn [negb andb]. read_only_steps.
Qed.

(** ** The fatal precondition *)

Lemma os_listdir_cwd (fsys : filesystem) (out : list str) :
  os_listdir (cwd fsys) {| fs := fsys; stdout := out |}
  = (Ok (map fst (here fsys)), {| fs := fsys; stdout := out |}).
Proof.
  unfold os_listdir, bind, get_fs, node_at, resolve. cbn [fs].
  now rewrite str_eqb_refl.
Qed.

Lemma dashboard_not_listed (U : runtime) (fsys : filesystem) (names : list str) :
  os_path_isfile fsys DASHBOARD_FILE = false ->
  mem DASHBOARD_FILE (html_files_of U fsys names) = false.
Proof.
  intros H. destruct (mem DASHBOARD_FILE (html_files_of U fsys names)) eqn:E;
    [|reflexivity].
  apply mem_In in E. unfold html_files_of in E. apply filter_In in E as [_ E].
  rewrite H in E. discriminate.
Qed.

(** X3.  When the dashboard is not a regular file of the working
    directory, [fix_dpp_filenames.main] and [dpp_cleanup.main] print their
    error, end with [sys.exit(1)] and have changed nothing, with or
    without [--dry-run]. *)
Theorem missing_dashboard_is_fatal (U : runtime) (fuel : nat) (dry : bool) (w : world) :
  os_path_isfile (fs w) DASHBOARD_FILE = false ->
  fix_dpp_filenames.main U fuel dry w =
    (Stop (SysExit 1),
     {| fs := fs w;
        stdout := stdout w ++
          [lit "Working directory: " ++ cwd (fs w);
           lit "ERROR: Cannot find 'RabateksDPPDashboard.html' in this folder."] |})
  /\
  dpp_cleanup.main U fuel dry w =
    (Stop (SysExit 1),
     {| fs := fs w;
        stdout := stdout w ++
          [lit "Working in: " ++ cwd (fs w);
           lit "ERROR: 'RabateksDPPDashboard.html' not found here."] |}).
Proof.
  intros H.
  pose proof (dashboard_not_listed U (fs w) (map fst (here (fs w))) H) as E.
  split.
  - unfold fix_dpp_filenames.main, bind at 1 2 3. cbn [get_fs print fs stdout].
    rewrite os_listdir_cwd, E. cbn [negb]. unfold bind, print, halt.
    cbn [fs stdout]. now rewrite <- app_assoc.
  - unfold dpp_cleanup.main, bind at 1 2 3. cbn [get_fs print fs stdout].
    rewrite os_listdir_cwd, E. cbn [negb]. unfold bind, print, halt.
    cbn [fs stdout]. now rewrite <- app_assoc.
Qed.

Lemma missing_dashboard_is_fatal_witness :
  fst (fix_dpp_filenames.main py_latin 5 false (world_of bare_fs)) = Stop (SysExit 1)
  /\ fst (dpp_cleanup.main py_latin 5 false (world_of bare_fs)) = Stop (SysExit 1).
Proof.
  destruct (missing_dashboard_is_fatal py_latin 5 false (world_of bare_fs))
    as [E1 E2]; [vm_compute; reflexivity|].
  rewrite E1, E2. split; reflexivity.
Defined.

(** X4.  When no dashboard exists, [auto_fix_dashboard_mapping.main]
    prints its error and ends with [sys.exit(1)] before it makes the
    backup: nothing has changed. *)
Theorem auto_fix_missing_dashboard (U : runtime) (w : world) :
  os_path_exists (fs w) DASHBOARD_FILE = false ->
  auto_fix_dashboard_mapping.main U w =
    (Stop (SysExit 1),
     {| fs := fs w;
        stdout := stdout w ++
          [lit "ERROR: RabateksDPPDashboard.html not found in current folder"] |}).
Proof.
  intros H. unfold auto_fix_dashboard_mapping.main, bind at 1.
  cbn [get_fs]. rewrite H. reflexivity.
Qed.

Lemma auto_fix_missing_dashboard_witness :
  fst (auto_fix_dashboard_mapping.main py_latin (world_of bare_fs)) = Stop (SysExit 1).
Proof.
  rewrite (auto_fix_missing_dashboard py_latin (world_of bare_fs));
    [reflexivity | vm_compute; reflexivity].
Defined.

(** ** The mapping block locator *)

Lemma startswith_app (pre s : str) :
  startswith pre s = true -> s = pre ++ skipn (List.length pre) s.
Proof.
  revert s. induction pre as [|x pre IH]; intros [|y s]; simpl;
    try reflexivity; try discriminate.
  intros H. apply andb_true_iff in H as [H1 H2].
  apply N.eqb_eq in H1 as ->. f_equal. now apply IH.
Qed.

Lemma strip_prefix_app (pre s t : str) :
  strip_prefix pre s = Some t -> s = pre ++ t.
Proof.
  unfold strip_prefix. destruct (startswith pre s) eqn:E; [|discriminate].
  intros H. injection H as <-. now apply startswith_app.
Qed.

Lemma body_length_spec (U : runtime) (s : str) (n : nat) :
  body_length U s = Some n ->
  exists body post,
    s = body ++ post /\ List.length body = n /\ closes_here U post = true /\
    forall j, j < n -> closes_here U (skipn j s) = false.
Proof.
  revert n. induction s as [|c t IH]; intros n; [discriminate|].
  cbn [body_length]. destruct (closes_here U (c :: t)) eqn:E.
  - intros H. injection H as <-. exists [], (c :: t).
    repeat split; try assumption. intros j Hj. lia.
  - destruct (body_length U t) as [m|]; [|discriminate].
    intros H. injection H as <-.
    destruct (IH m eq_refl) as (body & post & -> & <- & Hc & Hs).
    exists (c :: body), post. repeat split; try assumption.
    intros [|j] Hj; [exact E|]. apply Hs. simpl in Hj. lia.
Qed.

Lemma dropwhile_spaces (p : N -> bool) (s : str) :
  exists ws, s = ws ++ dropwhile p s /\ forallb p ws = true /\
             (p (hd 0%N s) = true -> s <> [] -> ws <> []).
Proof.
  destruct (dropwhile_split p s) as (ws & E & F). exists ws.
  repeat split; try assumption. intros Hp Hne ->. simpl in E.
  destruct s as [|c t]; [now elim Hne|]. simpl in Hp.
  symmetry in E. apply dropwhile_head in E. congruence.
Qed.

Lemma match_declaration_spec (U : runtime) (s : str) (a b : nat) :
  match_declaration U s = Some (a, b) ->
  exists ws1 ws2 ws3 body post,
    s = lit "const" ++ ws1 ++ lit "dppUrls" ++ ws2 ++ lit "=" ++ ws3
          ++ lit "{" ++ body ++ post /\
    ws1 <> [] /\ forallb (isspace U) (ws1 ++ ws2 ++ ws3) = true /\
    closes_here U post = true /\
    (forall j, j < List.length body ->
               closes_here U (skipn j (body ++ post)) = false) /\
    a = List.length (lit "const" ++ ws1 ++ lit "dppUrls" ++ ws2 ++ lit "="
                       ++ ws3 ++ lit "{") /\
    b = a + List.length body.
Proof.
  unfold match_declaration.
  destruct (strip_prefix (lit "const") s) as [s1|] eqn:E1; [|discriminate].
  apply strip_prefix_app in E1.
  destruct s1 as [|c t] eqn:Es1; [discriminate|]. rewrite <- Es1 in *.
  destruct (isspace U c) eqn:Hc; [|discriminate].
  destruct (dropwhile_spaces (isspace U) s1) as (ws1 & D1 & F1 & N1).
  destruct (strip_prefix (lit "dppUrls") (dropwhile (isspace U) s1))
    as [s2|] eqn:E2; [|discriminate].
  apply strip_prefix_app in E2.
  destruct (dropwhile_spaces (isspace U) s2) as (ws2 & D2 & F2 & _).
  destruct (strip_prefix (lit "=") (dropwhile (isspace U) s2))
    as [s3|] eqn:E3; [|discriminate].
  apply strip_prefix_app in E3.
  destruct (dropwhile_spaces (isspace U) s3) as (ws3 & D3 & F3 & _).
  destruct (strip_prefix (lit "{") (dropwhile (isspace U) s3))
    as [s4|] eqn:E4; [|discriminate].
  apply strip_prefix_app in E4.
  destruct (body_length U s4) as [n|] eqn:E5; [|discriminate].
  destruct (body_length_spec U s4 n E5) as (body & post & E6 & L6 & C6 & S6).
  intros H. injection H as <- <-.
  exists ws1, ws2, ws3, body, post.
  assert (s = lit "const" ++ ws1 ++ lit "dppUrls" ++ ws2 ++ lit "=" ++ ws3
                ++ lit "{" ++ s4) as Es.
  { rewrite E1, D1, E2, D2, E3, D3, E4. reflexivity. }
  split; [now rewrite Es, E6|].
  split; [apply N1; [subst s1; exact Hc | subst s1; discriminate]|].
  split; [now rewrite !forallb_app, F1, F2, F3|].
  split; [assumption|].
  split; [now rewrite <- E6, L6|].
  split; [|now rewrite L6].
  replace s with ((lit "const" ++ ws1 ++ lit "dppUrls" ++ ws2 ++ lit "=" ++ ws3
                     ++ lit "{") ++ s4)
    by (rewrite Es; repeat rewrite <- app_assoc; reflexivity).
  rewrite (length_app _ s4). lia.
Qed.

Lemma search_declaration_spec (U : runtime) (s : str) (i a b : nat) :
  search_declaration U i s = Some (a, b) ->
  exists before a0 b0,
    match_declaration U (skipn (List.length before) s) = Some (a0, b0) /\
    s = before ++ skipn (List.length before) s /\
    a = i + List.length before + a0 /\ b = i + List.length before + b0.
Proof.
  revert i. induction s as [|c t IH]; intros i; cbn [search_declaration].
  - destruct (match_declaration U []) as [[a0 b0]|] eqn:E; [|discriminate].
    intros H. injection H as <- <-. exists [], a0, b0. simpl.
    repeat split; [assumption | lia | lia].
  - destruct (match_declaration U (c :: t)) as [[a0 b0]|] eqn:E.
    + intros H. injection H as <- <-. exists [], a0, b0. simpl.
      repeat split; [assumption | lia | lia].
    + intros H. destruct (IH (S i) H) as (before & a0 & b0 & M & Es & -> & ->).
      exists (c :: before), a0, b0. simpl.
      repeat split; [assumption | now f_equal | lia | lia].
Qed.

Lemma find_block_parts (U : runtime) (html_text : str)
    (start end_ : nat) (body : str) :
  find_dpp_urls_block U html_text = Some (start, end_, body) ->
  exists before ws1 ws2 ws3 after,
    html_text = before ++ lit "const" ++ ws1 ++ lit "dppUrls" ++ ws2
                  ++ lit "=" ++ ws3 ++ lit "{" ++ body ++ after /\
    ws1 <> [] /\ forallb (isspace U) (ws1 ++ ws2 ++ ws3) = true /\
    closes_here U after = true /\
    (forall j, j < List.length body ->
               closes_here U (skipn j (body ++ after)) = false) /\
    start = List.length (before ++ lit "const" ++ ws1 ++ lit "dppUrls" ++ ws2
                           ++ lit "=" ++ ws3 ++ lit "{") /\
    end_ = start + List.length body /\
    firstn start html_text ++ body ++ skipn end_ html_text = html_text.
Proof.
  unfold find_dpp_urls_block.
  destruct (search_declaration U 0 html_text) as [[a b]|] eqn:E; [|discriminate].
  intros H. injection H as <- <- <-.
  destruct (search_declaration_spec U html_text 0 _ _ E)
    as (before & a0 & b0 & M & Es & -> & ->).
  destruct (match_declaration_spec U _ _ _ M)
    as (ws1 & ws2 & ws3 & body & post & Em & N1 & F & C & S & -> & ->).
  set (head := lit "const" ++ ws1 ++ lit "dppUrls" ++ ws2 ++ lit "=" ++ ws3
                 ++ lit "{") in *.
  assert (html_text = (before ++ head) ++ body ++ post) as Eh.
  { rewrite Es at 1. rewrite Em. unfold head.
    rewrite <- !app_assoc. reflexivity. }
  assert (0 + List.length before + List.length head
          = List.length (before ++ head)) as El
    by (rewrite length_app; lia).
  assert (firstn (List.length (before ++ head)) html_text = before ++ head) as Ef.
  { rewrite Eh at 1. rewrite firstn_app, Nat.sub_diag, firstn_all. simpl.
    apply app_nil_r. }
  assert (skipn (List.length (before ++ head)) html_text = body ++ post) as Esk.
  { rewrite Eh at 1. rewrite skipn_app, Nat.sub_diag, skipn_all. reflexivity. }
  assert (firstn (0 + List.length before + (List.length head + List.length body)
                  - (0 + List.length before + List.length head))
            (skipn (0 + List.length before + List.length head) html_text)
          = body) as Eb.
  { rewrite El.
    replace (0 + List.length before + (List.length head + List.length body)
             - List.length (before ++ head)) with (List.length body)
      by (rewrite length_app; lia).
    rewrite Esk, firstn_app, Nat.sub_diag, firstn_all. simpl. apply app_nil_r. }
  rewrite Eb. exists before, ws1, ws2, ws3, post.
  split; [rewrite Eh; unfold head; rewrite <- !app_assoc; reflexivity|].
  repeat (split; [assumption|]).
  split; [lia|].
  rewrite El, Ef.
  replace (0 + List.length before + (List.length head + List.length body))
    with (List.length ((before ++ head) ++ body))
    by (rewrite !length_app; lia).
  assert (skipn (List.length ((before ++ head) ++ body)) html_text = post) as Ep.
  { rewrite Eh, app_assoc. now rewrite skipn_app, Nat.sub_diag, skipn_all. }
  rewrite Ep. symmetry. exact Eh.
Qed.


(** X5.  What [find_dpp_urls_block] returns is a declaration of the
    text: [const], whitespace, [dppUrls], [=] and an opening brace with
    optional whitespace between them, then the body, then a closing brace
    followed by optional whitespace and a semicolon.  The body is the
    shortest one possible, the two offsets are those of its ends, and the
    text is the part before [start], the body and the part from [end]. *)
Theorem find_dpp_urls_block_sound (U : runtime) (html_text : str)
    (start end_ : nat) (body : str) :
  find_dpp_urls_block U html_text = Some (start, end_, body) ->
  exists before ws1 ws2 ws3 after,
    html_text = before ++ lit "const" ++ ws1 ++ lit "dppUrls" ++ ws2
                  ++ lit "=" ++ ws3 ++ lit "{" ++ body ++ after /\
    ws1 <> [] /\ forallb (isspace U) (ws1 ++ ws2 ++ ws3) = true /\
    closes_here U after = true /\
    (forall j, j < List.length body ->
               closes_here U (skipn j (body ++ after)) = false) /\
    start = List.length (before ++ lit "const" ++ ws1 ++ lit "dppUrls" ++ ws2
                           ++ lit "=" ++ ws3 ++ lit "{") /\
    end_ = start + List.length body /\
    firstn start html_text ++ body ++ skipn end_ html_text = html_text.
Proof. apply find_block_parts. Qed.

Lemma find_dpp_urls_block_sound_witness :
  exists before after,
    lit "<script>const  dppUrls={ 'a': 'B c.html' } ;</script>"
    = before ++ lit " 'a': 'B c.html' " ++ after.
Proof.
  destruct (find_dpp_urls_block_sound py_latin
              (lit "<script>const  dppUrls={ 'a': 'B c.html' } ;</script>")
              24 41 (lit " 'a': 'B c.html' "))
    as (before & ws1 & ws2 & ws3 & after & E & _);
    [vm_compute; reflexivity|].
  exists (before ++ lit "const" ++ ws1 ++ lit "dppUrls" ++ ws2 ++ lit "="
            ++ ws3 ++ lit "{"), after.
  rewrite E at 1. now rewrite <- !app_assoc.
Defined.

Lemma dropwhile_app_stop (p : N -> bool) (ws : str) (c : N) (t : str) :
  forallb p ws = true -> p c = false -> dropwhile p (ws ++ c :: t) = c :: t.
Proof.
  intros F Hc. induction ws as [|x ws IH]; simpl.
  - now rewrite Hc.
  - simpl in F. apply andb_true_iff in F as [F1 F2]. rewrite F1. auto.
Qed.

Lemma strip_prefix_here (pre t : str) : strip_prefix pre (pre ++ t) = Some t.
Proof.
  unfold strip_prefix.
  assert (startswith pre (pre ++ t) = true) as ->.
  { induction pre as [|x pre IH]; simpl; [reflexivity|].
    now rewrite N.eqb_refl, IH. }
  now rewrite skipn_app, Nat.sub_diag, skipn_all.
Qed.

Lemma body_length_complete (U : runtime) (body post : str) :
  closes_here U post = true -> body_length U (body ++ post) <> None.
Proof.
  intros H. induction body as [|c body IH]; cbn [app].
  - destruct post as [|c t]; [discriminate|].
    cbn [body_length]. rewrite H. discriminate.
  - cbn [body_length].
    destruct (closes_here U (c :: body ++ post)); [discriminate|].
    destruct (body_length U (body ++ post)); [discriminate | now elim IH].
Qed.

Lemma search_declaration_complete (U : runtime) (before s : str) (i : nat) :
  match_declaration U s <> None ->
  search_declaration U i (before ++ s) <> None.
Proof.
  intros H. revert i. induction before as [|c before IH]; intros i.
  - simpl. destruct s as [|c t]; cbn [search_declaration];
      destruct (match_declaration U _) as [[a b]|]; (discriminate || now elim H).
  - simpl. cbn [search_declaration].
    destruct (match_declaration U (c :: before ++ s)) as [[a b]|];
      [discriminate | apply IH].
Qed.

(** X6.  A declaration that is there is found: whenever the text holds
    [const], at least one whitespace character, [dppUrls], [=], an opening
    brace, a body and a closing brace followed by a semicolon, with
    optional whitespace around [=] and before the semicolon,
    [find_dpp_urls_block] does not answer [(None, None, None)]. *)
Theorem find_dpp_urls_block_complete (U : runtime)
    (before ws1 ws2 ws3 body ws4 after : str) :
  runtime_laws U ->
  ws1 <> [] ->
  forallb (isspace U) (ws1 ++ ws2 ++ ws3 ++ ws4) = true ->
  find_dpp_urls_block U
    (before ++ lit "const" ++ ws1 ++ lit "dppUrls" ++ ws2 ++ lit "=" ++ ws3
       ++ lit "{" ++ body ++ lit "}" ++ ws4 ++ lit ";" ++ after) <> None.
Proof.
  intros L N1 F. rewrite !forallb_app in F.
  apply andb_true_iff in F as [F1 F]. apply andb_true_iff in F as [F2 F].
  apply andb_true_iff in F as [F3 F4].
  assert (forall c, inert c = true -> ascii_isspace c = false ->
                    isspace U c = false) as Hns
    by (intros c Hi Hc; now rewrite (isspace_inert U L)).
  unfold find_dpp_urls_block.
  destruct (search_declaration U 0 _) as [[a b]|] eqn:E; [discriminate|].
  exfalso. revert E. apply search_declaration_complete.
  unfold match_declaration. rewrite strip_prefix_here.
  destruct ws1 as [|c ws1]; [now elim N1|].
  change ((c :: ws1) ++ lit "dppUrls" ++ ws2 ++ lit "=" ++ ws3 ++ lit "{" ++
            body ++ lit "}" ++ ws4 ++ lit ";" ++ after)
    with (c :: (ws1 ++ lit "dppUrls" ++ ws2 ++ lit "=" ++ ws3 ++ lit "{" ++
            body ++ lit "}" ++ ws4 ++ lit ";" ++ after)).
  cbv iota. pose proof F1 as F1'. simpl in F1'.
  apply andb_true_iff in F1' as [Hc F1'']. rewrite Hc.
  change (c :: ws1 ++ lit "dppUrls" ++ ws2 ++ lit "=" ++ ws3 ++ lit "{" ++
            body ++ lit "}" ++ ws4 ++ lit ";" ++ after)
    with ((c :: ws1) ++ 100%N :: (lit "ppUrls" ++ ws2 ++ lit "=" ++ ws3
            ++ lit "{" ++ body ++ lit "}" ++ ws4 ++ lit ";" ++ after)).
  rewrite dropwhile_app_stop by (assumption || now apply Hns).
  change (100%N :: lit "ppUrls" ++ ws2 ++ lit "=" ++ ws3 ++ lit "{" ++ body
            ++ lit "}" ++ ws4 ++ lit ";" ++ after)
    with (lit "dppUrls" ++ (ws2 ++ lit "=" ++ ws3 ++ lit "{" ++ body
            ++ lit "}" ++ ws4 ++ lit ";" ++ after)).
  rewrite strip_prefix_here.
  change (ws2 ++ lit "=" ++ ws3 ++ lit "{" ++ body ++ lit "}" ++ ws4
            ++ lit ";" ++ after)
    with (ws2 ++ 61%N :: (ws3 ++ lit "{" ++ body ++ lit "}" ++ ws4
            ++ lit ";" ++ after)).
  rewrite dropwhile_app_stop by (assumption || now apply Hns).
  change (61%N :: ws3 ++ lit "{" ++ body ++ lit "}" ++ ws4 ++ lit ";" ++ after)
    with (lit "=" ++ (ws3 ++ lit "{" ++ body ++ lit "}" ++ ws4 ++ lit ";" ++ after)).
  rewrite strip_prefix_here.
  change (ws3 ++ lit "{" ++ body ++ lit "}" ++ ws4 ++ lit ";" ++ after)
    with (ws3 ++ 123%N :: (body ++ lit "}" ++ ws4 ++ lit ";" ++ after)).
  rewrite dropwhile_app_stop by (assumption || now apply Hns).
  change (123%N :: body ++ lit "}" ++ ws4 ++ lit ";" ++ after)
    with (lit "{" ++ (body ++ lit "}" ++ ws4 ++ lit ";" ++ after)).
  rewrite strip_prefix_here.
  destruct (body_length U (body ++ lit "}" ++ ws4 ++ lit ";" ++ after)) eqn:B;
    [discriminate|].
  exfalso. revert B. apply body_length_complete.
  change (lit "}" ++ ws4 ++ lit ";" ++ after)
    with (125%N :: (ws4 ++ 59%N :: after)).
  cbn [closes_here]. rewrite dropwhile_app_stop by (assumption || now apply Hns).
  reflexivity.
Qed.

Lemma find_dpp_urls_block_complete_witness :
  find_dpp_urls_block py_latin
    ([] ++ lit "const" ++ lit " " ++ lit "dppUrls" ++ lit " " ++ lit "=" ++ []
       ++ lit "{" ++ lit "'a': 'b.html'" ++ lit "}" ++ [] ++ lit ";" ++ []) <> None.
Proof.
  apply (find_dpp_urls_block_complete py_latin [] (lit " ") (lit " ") []
           (lit "'a': 'b.html'") [] [] py_latin_laws);
    [discriminate | reflexivity].
Defined.

(** ** More on the mapping rewriter *)

Lemma scan_head_literal (q : N) (val : str) (rest : list token) :
  Lit q val :: rest = scan (flat_map token_text (Lit q val :: rest)) ->
  is_quote q = true /\ val <> [] /\ unquoted val = true.
Proof.
  cbn [flat_map token_text].
  change ((q :: val ++ [q]) ++ flat_map token_text rest)
    with (q :: (val ++ [q]) ++ flat_map token_text rest).
  rewrite <- app_assoc. simpl app. intros E.
  destruct (match_string_val (q :: val ++ q :: flat_map token_text rest))
    as [[q' val']|] eqn:M.
  - unfold scan in E. cbn [scan_from] in E. rewrite M in E.
    injection E as <- <- _.
    destruct (match_string_val_sound _ _ _ M) as (Hq & Hne & Hv & _). auto.
  - rewrite (scan_char _ _ M) in E. discriminate.
Qed.

Lemma scan_tail (t : token) (rest : list token) :
  t :: rest = scan (flat_map token_text (t :: rest)) ->
  rest = scan (flat_map token_text rest).
Proof.
  intros E. symmetry in E. apply (scan_suffix _ [t] rest) in E. exact E.
Qed.

Lemma dict_find_In (d : dict) (k v : str) :
  dict_find d k = Some v -> In (k, v) d.
Proof.
  induction d as [|[k' v'] d IH]; simpl; [discriminate|].
  destruct (str_eqb k k') eqn:E.
  - apply str_eqb_eq in E as ->. intros H. injection H as ->. now left.
  - intros H. right. now apply IH.
Qed.

(** The first quote character of a text and what precedes it are the
    same before and after the literals are retargeted. *)
Lemma span_unquoted_retarget (plan : dict) (toks : list token) :
  toks = scan (flat_map token_text toks) ->
  fst (span_unquoted (flat_map token_text (map (retarget plan) toks)))
    = fst (span_unquoted (flat_map token_text toks)) /\
  hd_error (snd (span_unquoted (flat_map token_text (map (retarget plan) toks))))
    = hd_error (snd (span_unquoted (flat_map token_text toks))).
Proof.
  induction toks as [|t toks IH]; intros E; [now split|].
  pose proof (scan_tail _ _ E) as E'. specialize (IH E').
  destruct t as [c | q val].
  - cbn [map retarget flat_map token_text app span_unquoted].
    destruct (is_quote c); [now split|].
    destruct (span_unquoted (flat_map token_text (map (retarget plan) toks))).
    destruct (span_unquoted (flat_map token_text toks)).
    simpl in *. destruct IH as [-> ->]. now split.
  - destruct (scan_head_literal _ _ _ E) as (Hq & _).
    cbn [map retarget]. destruct (dict_find plan val);
      cbn [flat_map token_text app span_unquoted]; rewrite Hq; now split.
Qed.

Lemma match_string_val_by_span (c : N) (t t' : str) :
  fst (span_unquoted t') = fst (span_unquoted t) ->
  hd_error (snd (span_unquoted t')) = hd_error (snd (span_unquoted t)) ->
  match_string_val (c :: t') = match_string_val (c :: t).
Proof.
  unfold match_string_val.
  destruct (span_unquoted t') as [v' r'], (span_unquoted t) as [v r]. simpl.
  intros -> H. destruct (is_quote c); [|reflexivity].
  destruct v as [|x v]; [reflexivity|].
  destruct r' as [|a r'], r as [|b r]; simpl in H; try discriminate;
    [reflexivity|]. now injection H as ->.
Qed.

(** After the rewrite the scanner sees the same tokens, retargeted. *)
Lemma scan_retarget (plan : dict) (toks : list token) :
  quotable_targets plan ->
  toks = scan (flat_map token_text toks) ->
  scan (flat_map token_text (map (retarget plan) toks)) = map (retarget plan) toks.
Proof.
  intros Q. induction toks as [|t toks IH]; intros E; [reflexivity|].
  pose proof (scan_tail _ _ E) as E'. specialize (IH E').
  destruct t as [c | q val].
  - cbn [map retarget flat_map token_text app].
    destruct (span_unquoted_retarget plan toks E') as [S1 S2].
    cbn [flat_map token_text app] in E.
    assert (match_string_val (c :: flat_map token_text toks) = None) as M.
    { destruct (match_string_val (c :: flat_map token_text toks)) as [[q v]|] eqn:M;
        [|reflexivity].
      unfold scan in E. cbn [scan_from] in E. rewrite M in E. discriminate. }
    rewrite scan_char; [now rewrite IH|].
    now rewrite (match_string_val_by_span c _ _ S1 S2).
  - destruct (scan_head_literal _ _ _ E) as (Hq & Hne & Hv).
    assert (exists val', retarget plan (Lit q val) = Lit q val' /\
                         val' <> [] /\ unquoted val' = true) as (val' & R & Hne' & Hv').
    { cbn [retarget]. destruct (dict_find plan val) as [target|] eqn:F.
      - exists target. split; [reflexivity|]. apply (Q val). now apply dict_find_In.
      - exists val. auto. }
    cbn [map]. rewrite R. cbn [flat_map token_text].
    change ((q :: val' ++ [q]) ++ flat_map token_text (map (retarget plan) toks))
      with (q :: (val' ++ [q]) ++ flat_map token_text (map (retarget plan) toks)).
    rewrite <- app_assoc. simpl app.
    rewrite scan_literal by assumption. now rewrite IH.
Qed.

Lemma replace_as_retarget (block_text : str) (plan : dict) :
  replace_urls_in_block block_text plan
  = flat_map token_text (map (retarget plan) (scan block_text)).
Proof.
  unfold replace_urls_in_block. rewrite flat_map_concat_map.
  rewrite (flat_map_concat_map token_text), map_map. f_equal.
  apply map_ext. intros [c | q val]; [reflexivity|].
  unfold repl, retarget, dict_get. now destruct (dict_find plan val).
Qed.

Lemma scan_canonical (s : str) : scan s = scan (flat_map token_text (scan s)).
Proof. now rewrite scan_text. Qed.

(** X7.  Referential integrity of the rewrite.  When every target of the
    plan is non-empty and free of quote characters (as slugs of HTML names
    are), the string literals of the rewritten block are, one for one and
    in order, those of the original block, each replaced by its target if
    it is a key of the plan and unchanged otherwise. *)
Theorem rewritten_literals (block_text : str) (plan : dict) :
  quotable_targets plan ->
  finditer_vals (replace_urls_in_block block_text plan)
  = map (fun val => dict_get plan val val) (finditer_vals block_text).
Proof.
  intros Q. unfold finditer_vals.
  rewrite replace_as_retarget, (scan_retarget plan _ Q (scan_canonical block_text)).
  induction (scan block_text) as [|[c | q val] toks IH]; [reflexivity| |].
  - cbn [map retarget flat_map]. exact IH.
  - cbn [map flat_map app]. rewrite <- IH. unfold retarget, dict_get.
    now destruct (dict_find plan val).
Qed.

Lemma rewritten_literals_witness :
  finditer_vals
    (replace_urls_in_block (lit "'a': 'B c.html', 'b': 'x.html'")
       [(lit "B c.html", lit "b-c.html")])
  = [lit "a"; lit "b-c.html"; lit "b"; lit "x.html"].
Proof.
  rewrite (rewritten_literals (lit "'a': 'B c.html', 'b': 'x.html'")
             [(lit "B c.html", lit "b-c.html")]).
  - vm_compute. reflexivity.
  - intros k v [H | []]. injection H as <- <-. split; [discriminate | reflexivity].
Defined.

Lemma retarget_absent (plan : dict) (toks : list token) :
  (forall q val, In (Lit q val) toks -> dict_find plan val = None) ->
  map (retarget plan) toks = toks.
Proof.
  induction toks as [|t toks IH]; intros H; [reflexivity|].
  cbn [map]. rewrite IH by (intros q val Hin; apply (H q val); now right).
  destruct t as [c | q val]; [reflexivity|].
  cbn [retarget]. now rewrite (H q val) by now left.
Qed.

Lemma finditer_vals_In (s : str) (q : N) (val : str) :
  In (Lit q val) (scan s) -> In val (finditer_vals s).
Proof.
  unfold finditer_vals. intros H. apply in_flat_map.
  exists (Lit q val). split; [assumption | now left].
Qed.

Lemma replace_without_keys (block_text : str) (plan : dict) :
  (forall val, In val (finditer_vals block_text) -> dict_find plan val = None) ->
  replace_urls_in_block block_text plan = block_text.
Proof.
  intros H. rewrite replace_as_retarget, retarget_absent; [apply scan_text|].
  intros q val Hin. apply H. now apply finditer_vals_In with (q := q).
Qed.

(** X8.  A rewrite that has nothing to do changes nothing: when no
    string literal of the located block is a key of the mapping (the empty
    mapping included), the text that [main] would write,
    [dashboard_html[:start] + new_body + dashboard_html[end:]], is the
    dashboard text it read. *)
Theorem splice_without_keys (U : runtime) (dashboard_html : str)
    (start end_ : nat) (body : str) (mapping_for_block : dict) :
  find_dpp_urls_block U dashboard_html = Some (start, end_, body) ->
  (forall val, In val (finditer_vals body) ->
               dict_find mapping_for_block val = None) ->
  firstn start dashboard_html
    ++ replace_urls_in_block body mapping_for_block
    ++ skipn end_ dashboard_html
  = dashboard_html.
Proof.
  intros F H. rewrite (replace_without_keys body mapping_for_block H).
  destruct (find_block_parts U dashboard_html start end_ body F)
    as (? & ? & ? & ? & ? & _ & _ & _ & _ & _ & _ & _ & E).
  exact E.
Qed.

Lemma splice_without_keys_witness :
  firstn 24 (lit "<script>const  dppUrls={ 'a': 'B c.html' } ;</script>")
    ++ replace_urls_in_block (lit " 'a': 'B c.html' ") []
    ++ skipn 41 (lit "<script>const  dppUrls={ 'a': 'B c.html' } ;</script>")
  = lit "<script>const  dppUrls={ 'a': 'B c.html' } ;</script>".
Proof.
  apply (splice_without_keys py_latin); [vm_compute; reflexivity | reflexivity].
Defined.

(** ** Slugs as file names *)

Lemma valid_base_starts_alnum (b : str) :
  valid_base b = true -> starts_alnum b = true.
Proof.
  intros V. destruct (valid_base_parts b V) as (Hne & Ha & Hh & _).
  destruct b as [|c t]; [now elim Hne|]. simpl in *.
  apply andb_true_iff in Ha as [Ha _]. unfold allowed in Ha.
  unfold is_hyphen_or_dot in Hh. apply orb_false_iff in Hh as [H1 H2].
  rewrite H1, H2, !orb_false_r in Ha. exact Ha.
Qed.

Lemma slugify_starts_alnum (U : runtime) (name : str) :
  starts_alnum (slugify_filename U name) = true.
Proof.
  unfold slugify_filename. destruct (splitext name) as [b e].
  pose proof (valid_base_starts_alnum _ (clean_base_valid U b)) as H.
  destruct (clean_base U b); [discriminate | exact H].
Qed.

Lemma starts_alnum_proper (s : str) : starts_alnum s = true -> proper s = true.
Proof.
  destruct s as [|c t]; [discriminate|]. intros H. unfold proper.
  assert (N.eqb c 46 = false) as E.
  { apply N.eqb_neq. intros ->. discriminate. }
  simpl. rewrite E. reflexivity.
Qed.

Lemma no_slash_In (s : str) :
  forallb (fun c => negb (is_slash c)) s = true <-> ~ In ch_slash s.
Proof.
  rewrite forallb_forall. split.
  - intros H Hin. specialize (H _ Hin). discriminate.
  - intros H c Hc. apply negb_true_iff. apply N.eqb_neq. intros ->. tauto.
Qed.

Lemma norm_ext_no_slash (U : runtime) (e : str) :
  runtime_laws U -> ~ In ch_slash e -> ~ In ch_slash (norm_ext U e).
Proof.
  intros L H. unfold norm_ext. destruct (is_html_ext U e).
  - intros Hin. simpl in Hin. repeat destruct Hin as [Hin | Hin]; discriminate || assumption.
  - intros Hin. pose proof (lower_separators U L e) as F.
    assert (In ch_slash (filter is_dot_or_slash (str_lower U e))) as Hf
      by (apply filter_In; split; [assumption | reflexivity]).
    rewrite F in Hf. apply filter_In in Hf as [Hf _]. tauto.
Qed.

Lemma splitext_ext_no_slash (p b e : str) :
  splitext p = (b, e) -> ~ In ch_slash e.
Proof.
  intros H. destruct (splitext_spec p b e H) as [_ [-> | (r & -> & _ & Hs)]].
  - tauto.
  - intros [Hin | Hin]; [discriminate | tauto].
Qed.

Lemma slugify_no_slash (U : runtime) (name : str) :
  runtime_laws U -> ~ In ch_slash (slugify_filename U name).
Proof.
  intros L. unfold slugify_filename. destruct (splitext name) as [b e] eqn:E.
  intros Hin. apply in_app_or in Hin as [Hin | Hin].
  - pose proof (clean_base_valid U b) as V.
    destruct (valid_base_parts _ V) as (_ & Ha & _).
    exact (allowed_not_slash _ Ha Hin).
  - revert Hin. apply (norm_ext_no_slash U e L).
    exact (splitext_ext_no_slash name b e E).
Qed.

Lemma slugify_plain (U : runtime) (name : str) :
  runtime_laws U -> plain (slugify_filename U name) = true.
Proof.
  intros L. unfold plain.
  rewrite (starts_alnum_proper _ (slugify_starts_alnum U name)).
  apply no_slash_In. now apply slugify_no_slash.
Qed.

(** X9.  Whatever the input, the slug is usable as the name of an entry
    of the working directory: it starts with a lowercase ASCII letter or a
    digit (so it is not empty, not hidden, not [.] or [..], and never the
    dashboard, its backup or the quarantine directory) and it holds no
    path separator. *)
Theorem slug_is_a_file_name (U : runtime) (name : str) :
  runtime_laws U ->
  starts_alnum (slugify_filename U name) = true /\
  ~ In ch_slash (slugify_filename U name) /\
  slugify_filename U name <> DASHBOARD_FILE /\
  slugify_filename U name <> DASHBOARD_FILE ++ BACKUP_SUFFIX /\
  slugify_filename U name <> OLD_DIR.
Proof.
  intros L. pose proof (slugify_starts_alnum U name) as A.
  split; [assumption|]. split; [now apply slugify_no_slash|].
  repeat split; intros E; rewrite E in A; discriminate.
Qed.

Lemma slug_is_a_file_name_witness :
  starts_alnum (slugify_filename py_latin (lit "../R&D/.Hidden File")) = true.
Proof.
  apply (slug_is_a_file_name py_latin (lit "../R&D/.Hidden File") py_latin_laws).
Defined.

(** X10.  A name that already is a slug is left alone: for every base of
    the valid shape, [slugify_filename] returns [base + ".html"]
    unchanged, and maps [base + ext] to it for every spelling [ext] of
    [.htm] or [.html] in upper or lower case. *)
Theorem clean_html_name_is_fixed (U : runtime) (base ext : str) :
  runtime_laws U ->
  valid_base base = true ->
  In (map ascii_lower ext) [lit ".html"; lit ".htm"] ->
  forallb inert ext = true ->
  slugify_filename U (base ++ ext) = base ++ lit ".html".
Proof.
  intros L V Hext Hi.
  destruct (valid_base_parts _ V) as (Hne & Ha & Hh & _).
  assert (exists r, ext = ch_dot :: r /\ ~ In ch_dot r /\ ~ In ch_slash r)
    as (r & -> & Hd & Hs).
  { destruct ext as [|c r]; [simpl in Hext; intuition discriminate|].
    exists r. assert (c = ch_dot /\ ~ In ch_dot r /\ ~ In ch_slash r) as (-> & ? & ?).
    { assert (forall x, ascii_lower x = 46%N -> x = 46%N) as D46.
      { intros x. unfold ascii_lower.
        destruct (N.leb 65 x && N.leb x 90) eqn:B; [|auto].
        apply andb_true_iff in B as [B1 B2]. apply N.leb_le in B1, B2. lia. }
      assert (forall x, ascii_lower x <> 46%N -> x <> 46%N) as N46
        by (intros x Hx ->; now apply Hx).
      assert (forall x, ascii_lower x <> 47%N -> ascii_lower x <> 46%N ->
                        x <> 47%N /\ x <> 46%N) as N47.
      { intros x H1 H2. split; intros ->; [now apply H1 | now apply H2]. }
      assert (forall l, ~ In 46%N (map ascii_lower l) ->
                        ~ In 47%N (map ascii_lower l) ->
                        ~ In ch_dot l /\ ~ In ch_slash l) as Hl.
      { induction l as [|x l IHl]; simpl; [tauto|]. intros A1 A2.
        destruct (N47 x) as [B1 B2]; [tauto | tauto|].
        destruct IHl as [C1 C2]; [tauto | tauto|].
        unfold ch_dot, ch_slash. split; intros [? | ?]; subst; tauto. }
      simpl in Hext. destruct Hext as [Hext | [Hext | []]];
        injection Hext as E1 E2; symmetry in E1; apply D46 in E1;
        (split; [assumption|]);
        apply Hl; rewrite <- E2; simpl; intuition discriminate. }
    auto. }
  unfold slugify_filename.
  rewrite splitext_stable; try assumption.
  - rewrite clean_base_fixed by assumption. f_equal.
    unfold norm_ext, is_html_ext. rewrite (lower_inert U L) by assumption.
    apply mem_In in Hext. now rewrite Hext.
  - apply orb_false_iff in Hh. apply Hh.
  - now apply allowed_not_slash.
Qed.

Lemma clean_html_name_is_fixed_witness :
  slugify_filename py_latin (lit "report-final" ++ lit ".HTM")
  = lit "report-final" ++ lit ".html".
Proof.
  apply (clean_html_name_is_fixed py_latin (lit "report-final") (lit ".HTM")
           py_latin_laws); [reflexivity | right; left; reflexivity | reflexivity].
Defined.

(** ** Directories *)

Lemma lookup_remove_same (n : str) (d : directory) : lookup n (remove n d) = None.
Proof.
  induction d as [|[m x] d IH]; simpl; [reflexivity|].
  destruct (str_eqb n m) eqn:E; simpl; [assumption | now rewrite E].
Qed.

Lemma lookup_remove_other (n m : str) (d : directory) :
  n <> m -> lookup n (remove m d) = lookup n d.
Proof.
  intros H. induction d as [|[k x] d IH]; simpl; [reflexivity|].
  destruct (str_eqb m k) eqn:E; simpl.
  - apply str_eqb_eq in E as <-.
    apply str_eqb_neq in H. now rewrite H.
  - destruct (str_eqb n k); [reflexivity | assumption].
Qed.

Lemma lookup_bind_same (n : str) (x : node) (d : directory) :
  lookup n (bind_entry n x d) = Some x.
Proof.
  induction d as [|[m y] d IH]; simpl.
  - now rewrite str_eqb_refl.
  - destruct (str_eqb n m) eqn:E; simpl; now rewrite E.
Qed.

Lemma lookup_bind_other (n m : str) (x : node) (d : directory) :
  n <> m -> lookup n (bind_entry m x d) = lookup n d.
Proof.
  intros H. apply str_eqb_neq in H.
  induction d as [|[k y] d IH]; simpl.
  - now rewrite H.
  - destruct (str_eqb m k) eqn:E; simpl.
    + apply str_eqb_eq in E as <-. now rewrite H.
    + destruct (str_eqb n k); [reflexivity | assumption].
Qed.

Lemma lookup_In (n : str) (x : node) (d : directory) :
  lookup n d = Some x -> In n (map fst d).
Proof.
  induction d as [|[m y] d IH]; simpl; [discriminate|].
  destruct (str_eqb n m) eqn:E.
  - apply str_eqb_eq in E. auto.
  - auto.
Qed.

Lemma In_lookup (n : str) (d : directory) :
  In n (map fst d) -> exists x, lookup n d = Some x.
Proof.
  induction d as [|[m y] d IH]; simpl; [tauto|].
  destruct (str_eqb n m) eqn:E; [eauto|].
  intros [H | H]; [|auto]. subst m. now rewrite str_eqb_refl in E.
Qed.

Lemma names_remove (p : str -> bool) (n : str) (d : directory) :
  forallb p (map fst d) = true -> forallb p (map fst (remove n d)) = true.
Proof.
  induction d as [|[m y] d IH]; simpl; [reflexivity|].
  intros H. apply andb_true_iff in H as [H1 H2].
  destruct (str_eqb n m); simpl; [auto | now rewrite H1, IH].
Qed.

Lemma names_bind (p : str -> bool) (n : str) (x : node) (d : directory) :
  p n = true -> forallb p (map fst d) = true ->
  forallb p (map fst (bind_entry n x d)) = true.
Proof.
  intros Hn. induction d as [|[m y] d IH]; simpl.
  - now rewrite Hn.
  - intros H. apply andb_true_iff in H as [H1 H2].
    destruct (str_eqb n m); simpl; rewrite H1; [assumption | now apply IH].
Qed.

(** ** Plain names *)

Lemma plain_parts (n : str) :
  plain n = true -> proper n = true /\ ~ In ch_slash n /\ n <> [].
Proof.
  unfold plain. intros H. apply andb_true_iff in H as [H1 H2].
  repeat split; [assumption | now apply no_slash_In |].
  intros ->. discriminate.
Qed.

Lemma split_slash_plain (n : str) : ~ In ch_slash n -> split_slash n = [n].
Proof.
  induction n as [|c t IH]; simpl; [reflexivity|].
  intros H. destruct (is_slash c) eqn:E.
  - apply N.eqb_eq in E. tauto.
  - rewrite IH by tauto. reflexivity.
Qed.

Lemma resolve_plain (fsys : filesystem) (n : str) :
  well_formed fsys -> plain n = true -> resolve fsys n = Some [n].
Proof.
  intros [Habs _] Hn. destruct (plain_parts n Hn) as (Hp & Hs & Hne).
  unfold resolve.
  destruct n as [|c t]; [now elim Hne|].
  assert (N.eqb 47 c = false) as Hc.
  { apply N.eqb_neq. intros <-. apply Hs. now left. }
  assert (str_eqb (c :: t) (cwd fsys) = false) as ->.
  { destruct (cwd fsys) as [|c' t']; [reflexivity|].
    change (lit "/") with [47%N] in Habs. cbn [startswith] in Habs.
    apply andb_true_iff in Habs as [Habs _]. apply N.eqb_eq in Habs as <-.
    cbn [str_eqb]. rewrite N.eqb_sym, Hc. reflexivity. }
  assert (startswith (lit "/") (c :: t) = false) as ->.
  { change (lit "/") with [47%N]. cbn [startswith]. now rewrite Hc. }
  rewrite (split_slash_plain _ Hs). cbn [forallb]. now rewrite Hp.
Qed.

Lemma node_at_plain (fsys : filesystem) (n : str) :
  well_formed fsys -> plain n = true ->
  node_at fsys n = Some (lookup n (here fsys)).
Proof.
  intros W Hn. unfold node_at. rewrite (resolve_plain fsys n W Hn).
  simpl. now destruct (lookup n (here fsys)).
Qed.

Lemma exists_plain (fsys : filesystem) (n : str) :
  well_formed fsys -> plain n = true ->
  os_path_exists fsys n = match lookup n (here fsys) with
                          | Some _ => true
                          | None => false
                          end.
Proof.
  intros W Hn. unfold os_path_exists. now rewrite (node_at_plain fsys n W Hn).
Qed.

(** ** [os.rename] between plain names *)

Lemma get_at_single (d : directory) (n : str) : get_at d [n] = lookup n d.
Proof. simpl. now destruct (lookup n d). Qed.

Lemma place_eqb_single (a b : str) : place_eqb [a] [b] = str_eqb a b.
Proof. unfold place_eqb. simpl. now rewrite andb_true_r. Qed.

Lemma with_here_same (w : world) :
  {| fs := with_here (fs w) (here (fs w)); stdout := stdout w |} = w.
Proof. destruct w as [[c h e] o]. reflexivity. Qed.

Lemma os_rename_plain (w : world) (old new : str) :
  well_formed (fs w) -> plain old = true -> plain new = true ->
  os_rename old new w =
    (fst (rename_in (here (fs w)) old new),
     {| fs := with_here (fs w) (snd (rename_in (here (fs w)) old new));
        stdout := stdout w |}).
Proof.
  intros W Ho Hn. unfold os_rename, bind, get_fs.
  rewrite (resolve_plain _ _ W Ho), (resolve_plain _ _ W Hn).
  rewrite !get_at_single, place_eqb_single. unfold rename_in.
  destruct (lookup old (here (fs w))) as [x|];
    [|unfold halt; now rewrite with_here_same].
  destruct (str_eqb old new); [unfold ret; now rewrite with_here_same|].
  cbn [put_at].
  destruct x as [b | dx], (lookup new (here (fs w))) as [[b' | [|e dn]]|];
    cbn [fst snd]; unfold halt, set_here; try rewrite with_here_same;
    reflexivity.
Qed.

Lemma rename_in_frame (d : directory) (old new n : str) :
  n <> old -> n <> new -> lookup n (snd (rename_in d old new)) = lookup n d.
Proof.
  intros H1 H2. unfold rename_in.
  destruct (lookup old d) as [x|]; [|reflexivity].
  destruct (str_eqb old new); [reflexivity|].
  destruct x as [b | dx], (lookup new d) as [[b' | [|e dn]]|]; cbn [snd];
    try reflexivity;
    now rewrite lookup_bind_other, lookup_remove_other.
Qed.

Lemma rename_in_names (p : str -> bool) (d : directory) (old new : str) :
  p new = true -> forallb p (map fst d) = true ->
  forallb p (map fst (snd (rename_in d old new))) = true.
Proof.
  intros Hn Hd. unfold rename_in.
  destruct (lookup old d) as [x|]; [|assumption].
  destruct (str_eqb old new); [assumption|].
  destruct x as [b | dx], (lookup new d) as [[b' | [|e dn]]|]; cbn [snd];
    try assumption; apply names_bind; try assumption; now apply names_remove.
Qed.

(** A rename onto a name that does not exist succeeds and moves the
    entry. *)
Lemma rename_in_fresh (d : directory) (old new : str) (x : node) :
  lookup old d = Some x -> lookup new d = None ->
  rename_in d old new = (Ok tt, bind_entry new x (remove old d)).
Proof.
  intros Ho Hn. unfold rename_in. rewrite Ho, Hn.
  destruct (str_eqb old new) eqn:E.
  - apply str_eqb_eq in E. congruence.
  - now destruct x.
Qed.

Lemma well_formed_with_here (fsys : filesystem) (d : directory) :
  well_formed fsys -> forallb plain (map fst d) = true ->
  well_formed (with_here fsys d).
Proof. intros [A _] H. now constructor. Qed.

(** ** Dictionaries *)

Lemma dict_find_set_same (d : dict) (k v : str) :
  dict_find (dict_set d k v) k = Some v.
Proof.
  induction d as [|[k' v'] d IH]; simpl.
  - now rewrite str_eqb_refl.
  - destruct (str_eqb k k') eqn:E; simpl.
    + now rewrite str_eqb_refl.
    + now rewrite E.
Qed.

Lemma dict_find_set_other (d : dict) (k k' v : str) :
  k <> k' -> dict_find (dict_set d k' v) k = dict_find d k.
Proof.
  intros H. apply str_eqb_neq in H.
  induction d as [|[k0 v0] d IH]; simpl.
  - now rewrite H.
  - destruct (str_eqb k' k0) eqn:E; simpl.
    + apply str_eqb_eq in E as <-. now rewrite H.
    + destruct (str_eqb k k0); [reflexivity | assumption].
Qed.

Lemma In_dict_set (d : dict) (k v k' v' : str) :
  In (k, v) (dict_set d k' v') -> (k = k' /\ v = v') \/ In (k, v) d.
Proof.
  induction d as [|[k0 v0] d IH]; simpl.
  - intros [H | []]. injection H as <- <-. now left.
  - destruct (str_eqb k' k0) eqn:E; simpl.
    + intros [H | H]; [injection H as <- <-; now left | now right; right].
    + intros [H | H]; [now right; left|].
      destruct (IH H) as [? | ?]; [now left | now right; right].
Qed.

(** ** The plan of [fix_dpp_filenames.py] *)

Lemma next_free_spec (taken : str -> bool) (base ext : str) (fuel i : nat) (c : str) :
  next_free taken base ext fuel i = Some c ->
  taken c = false /\
  exists j, i <= j /\ c = base ++ lit "-" ++ str_of_nat j ++ ext.
Proof.
  revert i. induction fuel as [|fuel IH]; intros i; [discriminate|].
  cbn [next_free].
  destruct (taken (base ++ lit "-" ++ str_of_nat i ++ ext)) eqn:E.
  - intros H. destruct (IH _ H) as (Hc & j & Hj & ->).
    split; [assumption|]. exists j. split; [lia | reflexivity].
  - intros H. injection H as <-. split; [assumption|]. exists i. auto.
Qed.

Lemma plan_target_fresh (U : runtime) (fsys : filesystem) (fuel : nat) (old new : str) :
  fix_dpp_filenames.plan_target U fsys fuel old = Some new ->
  new <> old -> os_path_exists fsys new = false.
Proof.
  unfold fix_dpp_filenames.plan_target.
  destruct (negb (str_eqb (slugify_filename U old) old)
            && os_path_exists fsys (slugify_filename U old)) eqn:C.
  - destruct (splitext (slugify_filename U old)) as [base ext].
    intros H _. now destruct (next_free_spec _ _ _ _ _ _ H).
  - intros H. injection H as <-. intros Hne.
    apply str_eqb_neq in Hne. now rewrite Hne in C.
Qed.

Lemma build_rename_map_In (U : runtime) (fsys : filesystem) (fuel : nat)
    (targets : list str) (rm0 rm : dict) (k v : str) :
  fix_dpp_filenames.build_rename_map U fsys fuel targets rm0 = Some rm ->
  In (k, v) rm ->
  In (k, v) rm0 \/
  (In k targets /\ fix_dpp_filenames.plan_target U fsys fuel k = Some v /\ v <> k).
Proof.
  revert rm0. induction targets as [|old rest IH]; intros rm0; simpl.
  - intros H. injection H as <-. auto.
  - destruct (fix_dpp_filenames.plan_target U fsys fuel old) as [new|] eqn:P;
      [|discriminate].
    intros H Hin. destruct (IH _ H Hin) as [Hin0 | (Hk & Hp & Hv)].
    + destruct (str_eqb new old) eqn:E; simpl in Hin0; [now left|].
      apply In_dict_set in Hin0 as [[-> ->] | Hin0]; [|now left].
      right. repeat split; [now left | assumption | now apply str_eqb_neq].
    + right. repeat split; [now right | assumption | assumption].
Qed.

(** X11.  The plan of [fix_dpp_filenames.main] renames only regular
    files of the listing whose lowercased name ends in [.html] or [.htm],
    never the dashboard, never a file to its own name, and never onto a
    name that exists on disk when the plan is made. *)
Theorem fix_plan_entries (U : runtime) (fsys : filesystem) (fuel : nat)
    (names : list str) (rename_map : dict) (old new : str) :
  fix_dpp_filenames.build_rename_map U fsys fuel
    (targets_of (html_files_of U fsys names)) [] = Some rename_map ->
  In (old, new) rename_map ->
  In old names /\ os_path_isfile fsys old = true /\ is_html_name U old = true /\
  old <> DASHBOARD_FILE /\ new <> old /\ os_path_exists fsys new = false.
Proof.
  intros B Hin.
  destruct (build_rename_map_In U fsys fuel _ [] rename_map old new B Hin)
    as [[] | (Ht & P & Hne)].
  unfold targets_of, html_files_of in Ht.
  apply filter_In in Ht as [Ht Hd]. apply filter_In in Ht as [Ht Hf].
  apply andb_true_iff in Hf as [Hf1 Hf2]. apply negb_true_iff in Hd.
  repeat split; try assumption.
  - now apply str_eqb_neq.
  - now apply (plan_target_fresh U fsys fuel old new).
Qed.

Lemma fix_plan_entries_witness :
  lit "Report (final).html" <> DASHBOARD_FILE /\
  os_path_exists sample_fs (lit "report-final.html") = false.
Proof.
  destruct (fix_plan_entries py_latin sample_fs 5 (map fst (here sample_fs))
              [(lit "Report (final).html", lit "report-final.html");
               (lit "Report (FINAL).html", lit "report-final.html")]
              (lit "Report (final).html") (lit "report-final.html"))
    as (_ & _ & _ & H1 & _ & H2);
    [vm_compute; reflexivity | now left | split; assumption].
Defined.

Lemma build_rename_map_keeps (U : runtime) (fsys : filesystem) (fuel : nat)
    (targets : list str) (rm0 rm : dict) (k v : str) :
  fix_dpp_filenames.build_rename_map U fsys fuel targets rm0 = Some rm ->
  dict_find rm0 k = Some v -> ~ In k targets -> dict_find rm k = Some v.
Proof.
  revert rm0. induction targets as [|old rest IH]; intros rm0; simpl.
  - intros H. now injection H as <-.
  - destruct (fix_dpp_filenames.plan_target U fsys fuel old) as [new|];
      [|discriminate].
    intros H F Hn. apply (IH _ H); [|tauto].
    destruct (negb (str_eqb new old)); [|assumption].
    rewrite dict_find_set_other; [assumption | intros ->; tauto].
Qed.

Lemma build_rename_map_adds (U : runtime) (fsys : filesystem) (fuel : nat)
    (targets : list str) (rm0 rm : dict) (old new : str) :
  fix_dpp_filenames.build_rename_map U fsys fuel targets rm0 = Some rm ->
  NoDup targets -> In old targets ->
  fix_dpp_filenames.plan_target U fsys fuel old = Some new -> new <> old ->
  dict_find rm old = Some new.
Proof.
  revert rm0. induction targets as [|t rest IH]; intros rm0; simpl; [tauto|].
  destruct (fix_dpp_filenames.plan_target U fsys fuel t) as [new'|] eqn:P;
    [|discriminate].
  intros H ND [-> | Hin] Pt Hne.
  - rewrite Pt in P. injection P as <-.
    apply str_eqb_neq in Hne. rewrite Hne in H. simpl in H.
    apply (build_rename_map_keeps U fsys fuel rest _ rm old new H).
    + apply dict_find_set_same.
    + now inversion ND.
  - apply (IH _ H); try assumption. now inversion ND.
Qed.

(** X12.  [fix_dpp_filenames.main] resolves a collision against the
    disk only, not against the names it has already planned: two files of
    the working set that have the same slug, when no file of that name
    exists, are both planned onto that one name. *)
Theorem fix_plan_shares_a_target (U : runtime) (fsys : filesystem) (fuel : nat)
    (names : list str) (rename_map : dict) (old1 old2 slug : str) :
  NoDup names ->
  In old1 (targets_of (html_files_of U fsys names)) ->
  In old2 (targets_of (html_files_of U fsys names)) ->
  slugify_filename U old1 = slug -> slugify_filename U old2 = slug ->
  slug <> old1 -> slug <> old2 ->
  os_path_exists fsys slug = false ->
  fix_dpp_filenames.build_rename_map U fsys fuel
    (targets_of (html_files_of U fsys names)) [] = Some rename_map ->
  dict_find rename_map old1 = Some slug /\ dict_find rename_map old2 = Some slug.
Proof.
  intros ND H1 H2 S1 S2 N1 N2 E B.
  assert (NoDup (targets_of (html_files_of U fsys names))) as ND'
    by (unfold targets_of, html_files_of; now repeat apply NoDup_filter).
  assert (forall old, slugify_filename U old = slug ->
            fix_dpp_filenames.plan_target U fsys fuel old = Some slug) as P.
  { intros old S. unfold fix_dpp_filenames.plan_target.
    now rewrite S, E, andb_false_r. }
  split; eapply build_rename_map_adds; eauto.
Qed.

Lemma fix_plan_shares_a_target_witness :
  dict_find [(lit "Report (final).html", lit "report-final.html");
             (lit "Report (FINAL).html", lit "report-final.html")]
            (lit "Report (final).html") = Some (lit "report-final.html") /\
  dict_find [(lit "Report (final).html", lit "report-final.html");
             (lit "Report (FINAL).html", lit "report-final.html")]
            (lit "Report (FINAL).html") = Some (lit "report-final.html").
Proof.
  apply (fix_plan_shares_a_target py_latin sample_fs 5 (map fst (here sample_fs)));
    try (vm_compute; reflexivity); try (vm_compute; discriminate).
  - repeat constructor; vm_compute; intuition discriminate.
  - vm_compute. left. reflexivity.
  - vm_compute. right. left. reflexivity.
Defined.

(** ** Numbered candidates *)

Lemma lit_cons (c : ascii) (s : string) :
  lit (String c s) = N_of_ascii c :: lit s.
Proof. reflexivity. Qed.

Lemma uint_digits (d : Decimal.uint) :
  forallb is_digit (lit (NilEmpty.string_of_uint d)) = true.
Proof.
  induction d; cbn [NilEmpty.string_of_uint]; [reflexivity | ..];
    rewrite lit_cons; cbn [forallb]; rewrite IHd; reflexivity.
Qed.

Lemma str_of_nat_digits (i : nat) : forallb is_digit (str_of_nat i) = true.
Proof. apply uint_digits. Qed.

Lemma digit_not_slash (s : str) : forallb is_digit s = true -> ~ In ch_slash s.
Proof.
  intros H Hin. rewrite forallb_forall in H. specialize (H _ Hin). discriminate.
Qed.

Lemma hyphen_proper (s : str) : In ch_hyphen s -> proper s = true.
Proof.
  intros H. unfold proper.
  destruct (str_eqb s []) eqn:E1;
    [apply str_eqb_eq in E1; subst; destruct H|].
  destruct (str_eqb s (lit ".")) eqn:E2;
    [apply str_eqb_eq in E2; subst; simpl in H; intuition discriminate|].
  destruct (str_eqb s (lit "..")) eqn:E3;
    [apply str_eqb_eq in E3; subst; simpl in H; intuition discriminate|].
  reflexivity.
Qed.

Lemma candidate_plain (new base ext : str) (i : nat) :
  plain new = true -> splitext new = (base, ext) ->
  plain (base ++ lit "-" ++ str_of_nat i ++ ext) = true.
Proof.
  intros Hn E. destruct (plain_parts new Hn) as (_ & Hs & _).
  destruct (splitext_spec new base ext E) as [-> _].
  unfold plain. apply andb_true_iff. split.
  - apply hyphen_proper. apply in_or_app. right. now left.
  - apply no_slash_In. intros Hin.
    apply in_app_or in Hin as [Hin | Hin];
      [apply Hs, in_or_app; now left|].
    apply in_app_or in Hin as [Hin | Hin];
      [simpl in Hin; intuition discriminate|].
    apply in_app_or in Hin as [Hin | Hin];
      [now apply (digit_not_slash _ (str_of_nat_digits i))|].
    apply Hs, in_or_app. now right.
Qed.

Lemma candidate_starts_alnum (new base ext : str) (i : nat) :
  starts_alnum new = true -> splitext new = (base, ext) ->
  starts_alnum (base ++ lit "-" ++ str_of_nat i ++ ext) = true.
Proof.
  intros Hn E.
  destruct (splitext_spec new base ext E) as [-> [-> | (r & -> & _)]].
  - rewrite app_nil_r in Hn. destruct base; [discriminate | exact Hn].
  - destruct base; [discriminate | exact Hn].
Qed.

(** ** The rename loop of [dpp_cleanup.py] *)

Lemma with_here_here (fsys : filesystem) : with_here fsys (here fsys) = fsys.
Proof. now destruct fsys. Qed.

Lemma cleanup_rename_one_step (fuel : nat) (old new : str) (w : world) :
  well_formed (fs w) -> plain old = true -> plain new = true ->
  exists target,
    plain target = true /\
    (lookup target (here (fs w)) = None \/ target = old) /\
    fs (snd (dpp_cleanup.rename_one fuel old new w))
      = with_here (fs w) (snd (rename_in (here (fs w)) old target)).
Proof.
  intros W Ho Hn.
  assert (snd (rename_in (here (fs w)) old old) = here (fs w)) as Same.
  { unfold rename_in. rewrite str_eqb_refl.
    now destruct (lookup old (here (fs w))). }
  unfold dpp_cleanup.rename_one.
  destruct (str_eqb old new) eqn:E.
  - exists old. split; [assumption|]. split; [now right|].
    rewrite Same. unfold ret. cbn [snd]. now rewrite with_here_here.
  - unfold bind, print, get_fs. cbn [fs stdout].
    rewrite (exists_plain _ _ W Hn).
    destruct (lookup new (here (fs w))) as [y|] eqn:Ln.
    + destruct (splitext new) as [base ext] eqn:Esp.
      destruct (next_free (os_path_exists (fs w)) base ext fuel 2) as [cand|] eqn:Nf.
      * destruct (next_free_spec _ _ _ _ _ _ Nf) as (Hfree & j & _ & Ec).
        assert (plain cand = true) as Hc
          by (rewrite Ec; now apply (candidate_plain new)).
        rewrite (exists_plain _ _ W Hc) in Hfree.
        exists cand. split; [assumption|]. split.
        { left. now destruct (lookup cand (here (fs w))). }
        cbn [fs stdout]. rewrite os_rename_plain by assumption. reflexivity.
      * exists old. split; [assumption|]. split; [now right|].
        rewrite Same. unfold halt. cbn [snd fs]. now rewrite with_here_here.
    + exists new. split; [assumption|]. split; [now left|].
      rewrite os_rename_plain by assumption. reflexivity.
Qed.

(** One step keeps every entry other than [old] where it is, and loses
    none. *)
Lemma rename_in_fresh_keeps (d : directory) (old target : str) :
  lookup target d = None \/ target = old ->
  (forall n x, n <> old -> lookup n d = Some x ->
               lookup n (snd (rename_in d old target)) = Some x) /\
  (forall n x, lookup n d = Some x ->
               exists n', lookup n' (snd (rename_in d old target)) = Some x).
Proof.
  intros Hfresh.
  assert (forall n x, n <> old -> lookup n d = Some x ->
            lookup n (snd (rename_in d old target)) = Some x) as Hframe.
  { intros n x Hn Hl. rewrite rename_in_frame; try assumption.
    destruct Hfresh as [Hf | ->]; [congruence | assumption]. }
  split; [exact Hframe|].
  intros n x Hl. destruct (list_eq_dec N.eq_dec n old) as [-> | Hn];
    [|exists n; now apply Hframe].
  destruct Hfresh as [Hf | ->].
  - rewrite (rename_in_fresh d old target x Hl Hf). cbn [snd].
    exists target. apply lookup_bind_same.
  - unfold rename_in. rewrite Hl, str_eqb_refl. cbn [snd]. now exists old.
Qed.

Lemma cleanup_build_In (U : runtime) (targets : list str) (k v : str) :
  In (k, v) (dpp_cleanup.build_rename_map U targets) ->
  In k targets /\ v = slugify_filename U k /\ v <> k.
Proof.
  unfold dpp_cleanup.build_rename_map.
  assert (forall rm0,
    In (k, v) (fold_left (fun rename_map old =>
       if negb (str_eqb (slugify_filename U old) old)
       then dict_set rename_map old (slugify_filename U old) else rename_map)
       targets rm0) ->
    In (k, v) rm0 \/ (In k targets /\ v = slugify_filename U k /\ v <> k)) as G.
  { induction targets as [|old rest IH]; intros rm0; simpl; [auto|].
    intros H. destruct (IH _ H) as [H0 | (? & ? & ?)]; [|now right; auto].
    destruct (str_eqb (slugify_filename U old) old) eqn:E; simpl in H0; [now left|].
    apply In_dict_set in H0 as [[-> ->] | H0]; [|now left].
    right. repeat split; [now left | now apply str_eqb_neq]. }
  intros H. destruct (G [] H) as [[] | ?]. assumption.
Qed.

(** X13.  The rename loop of [dpp_cleanup.main] never overwrites.  When
    it ends, or stops on an error, every entry of the working directory
    that is not a key of the plan is where it was, unchanged, and every
    entry that was there before the loop is still there under some name. *)
Theorem cleanup_renames_lose_nothing (U : runtime) (fuel : nat)
    (targets : list str) (w : world) :
  runtime_laws U -> well_formed (fs w) -> forallb plain targets = true ->
  let rename_map := dpp_cleanup.build_rename_map U targets in
  let w' := snd (dpp_cleanup.perform_renames fuel rename_map w) in
  (forall n x, ~ In n (dict_keys rename_map) ->
               lookup n (here (fs w)) = Some x -> lookup n (here (fs w')) = Some x) /\
  (forall n x, lookup n (here (fs w)) = Some x ->
               exists n', lookup n' (here (fs w')) = Some x).
Proof.
  intros L W Ht rename_map.
  assert (forall k v, In (k, v) rename_map -> plain k = true /\ plain v = true) as Hp.
  { intros k v Hin. destruct (cleanup_build_In U targets k v Hin) as (Hk & -> & _).
    split; [|now apply slugify_plain].
    rewrite forallb_forall in Ht. now apply Ht. }
  clearbody rename_map. unfold dpp_cleanup.perform_renames. revert w W.
  induction rename_map as [|[k v] rm IH]; intros w W; cbn zeta.
  - split; [auto | eauto].
  - destruct (Hp k v (or_introl eq_refl)) as [Hk Hv].
    cbn [for_each fst snd]. unfold bind.
    destruct (cleanup_rename_one_step fuel k v w W Hk Hv)
      as (target & Pt & Hfresh & Ew).
    destruct (rename_in_fresh_keeps (here (fs w)) k target Hfresh) as [K1 K2].
    destruct (dpp_cleanup.rename_one fuel k v w) as [[[] | s] w1] eqn:Er;
      cbn [snd] in Ew.
    + assert (well_formed (fs w1)) as W1.
      { rewrite Ew. apply well_formed_with_here; [assumption|].
        apply rename_in_names; [assumption | apply W]. }
      destruct (IH (fun k' v' H => Hp k' v' (or_intror H)) w1 W1) as [I1 I2].
      cbn zeta in I1, I2. split.
      * intros n x Hn Hl. apply I1; [cbn in Hn; tauto|].
        rewrite Ew. cbn [here with_here]. apply K1; [|assumption].
        intros ->. apply Hn. now left.
      * intros n x Hl. destruct (K2 n x Hl) as (n1 & H1).
        apply (I2 n1 x). rewrite Ew. exact H1.
    + cbn [snd]. rewrite Ew. cbn [here with_here]. split.
      * intros n x Hn Hl. apply K1; [|assumption]. intros ->. apply Hn. now left.
      * exact K2.
Qed.

Lemma cleanup_renames_lose_nothing_witness :
  exists n',
    lookup n'
      (here (fs (snd (dpp_cleanup.perform_renames 5
         (dpp_cleanup.build_rename_map py_latin
            [lit "Report (final).html"; lit "Report (FINAL).html"])
         (world_of sample_fs)))))
    = Some (File (lit "one")).
Proof.
  assert (well_formed (fs (world_of sample_fs))) as W by (constructor; reflexivity).
  destruct (cleanup_renames_lose_nothing py_latin 5
              [lit "Report (final).html"; lit "Report (FINAL).html"]
              (world_of sample_fs) py_latin_laws W eq_refl) as [_ H].
  apply (H (lit "Report (final).html")). reflexivity.
Defined.

(** ** Maintained properties *)

Lemma keeps_read_only {A : Type} (I : filesystem -> Prop) (m : M A) :
  read_only m -> keeps I m.
Proof. intros H w Hw. now rewrite H. Qed.

Lemma keeps_bind {A B : Type} (I : filesystem -> Prop) (m : M A) (k : A -> M B) :
  keeps I m -> (forall a, keeps I (k a)) -> keeps I (bind m k).
Proof.
  intros Hm Hk w Hw. unfold bind. specialize (Hm w Hw).
  destruct (m w) as [[a | s] w']; cbn [snd] in *; [now apply Hk | assumption].
Qed.

Lemma keeps_get {B : Type} (I : filesystem -> Prop) (k : filesystem -> M B) :
  (forall fsys, I fsys -> keeps I (k fsys)) -> keeps I (bind get_fs k).
Proof. intros H w Hw. unfold bind, get_fs. now apply H. Qed.

Lemma keeps_for_each {A : Type} (I : filesystem -> Prop) (l : list A)
    (body : A -> M unit) :
  (forall x, In x l -> keeps I (body x)) -> keeps I (for_each l body).
Proof.
  induction l as [|x l IH]; intros H; cbn [for_each].
  - apply keeps_read_only, read_only_ret.
  - apply keeps_bind; [apply H; now left|].
    intros _. apply IH. intros y Hy. apply H. now right.
Qed.

Lemma keeps_os_rename (n : str) (x : option node) (old new : str) :
  plain old = true -> plain new = true -> n <> old -> n <> new ->
  keeps (entry_is n x) (os_rename old new).
Proof.
  intros Ho Hn H1 H2 w [W E].
  rewrite os_rename_plain by assumption. cbn [snd fs]. split.
  - apply well_formed_with_here; [assumption|].
    apply rename_in_names; [assumption | apply W].
  - cbn [here with_here]. now rewrite rename_in_frame.
Qed.

Lemma write_bytes_plain (w : world) (p : str) (b : bytes) :
  well_formed (fs w) -> plain p = true ->
  write_bytes p b w =
    match lookup p (here (fs w)) with
    | Some (Dir _) => (Stop (Raised IsADirectoryError), w)
    | _ => (Ok tt, {| fs := with_here (fs w) (bind_entry p (File b) (here (fs w)));
                      stdout := stdout w |})
    end.
Proof.
  intros W Hp. unfold write_bytes, bind, get_fs.
  rewrite (resolve_plain _ _ W Hp), get_at_single.
  destruct (lookup p (here (fs w))) as [[b' | d]|]; reflexivity.
Qed.

Lemma read_bytes_plain (w : world) (p : str) :
  well_formed (fs w) -> plain p = true ->
  read_bytes p w =
    match lookup p (here (fs w)) with
    | None => (Stop (Raised FileNotFoundError), w)
    | Some (Dir _) => (Stop (Raised IsADirectoryError), w)
    | Some (File b) => (Ok b, w)
    end.
Proof.
  intros W Hp. unfold read_bytes, bind, get_fs.
  rewrite (node_at_plain _ _ W Hp).
  destruct (lookup p (here (fs w))) as [[b' | d]|]; reflexivity.
Qed.

Lemma keeps_write_bytes (n : str) (x : option node) (p : str) (b : bytes) :
  plain p = true -> n <> p -> keeps (entry_is n x) (write_bytes p b).
Proof.
  intros Hp Hn w [W E]. rewrite write_bytes_plain by assumption.
  destruct (lookup p (here (fs w))) as [[b' | d]|]; cbn [snd fs];
    try (split; assumption);
    (split; [apply well_formed_with_here;
             [assumption | apply names_bind; [assumption | apply W]]
            | cbn [here with_here]; now rewrite lookup_bind_other]).
Qed.

Lemma plain_dashboard : plain DASHBOARD_FILE = true.
Proof. reflexivity. Qed.

Lemma plain_backup : plain (DASHBOARD_FILE ++ BACKUP_SUFFIX) = true.
Proof. reflexivity. Qed.

Lemma isdir_plain (fsys : filesystem) (p : str) :
  well_formed fsys -> plain p = true ->
  os_path_isdir fsys p = match lookup p (here fsys) with
                         | Some (Dir _) => true
                         | _ => false
                         end.
Proof.
  intros W Hp. unfold os_path_isdir. now rewrite (node_at_plain _ _ W Hp).
Qed.

(** [shutil.copy2] between two plain names, the second of which does not
    exist. *)
Lemma shutil_copy2_fresh (w : world) (src dst : str) :
  well_formed (fs w) -> plain src = true -> plain dst = true ->
  lookup dst (here (fs w)) = None ->
  shutil_copy2 src dst w =
    match lookup src (here (fs w)) with
    | None => (Stop (Raised FileNotFoundError), w)
    | Some (Dir _) => (Stop (Raised IsADirectoryError), w)
    | Some (File b) =>
        (Ok tt, {| fs := with_here (fs w) (bind_entry dst (File b) (here (fs w)));
                   stdout := stdout w |})
    end.
Proof.
  intros W Hs Hd Hfree. unfold shutil_copy2, bind at 1. unfold get_fs at 1.
  rewrite (isdir_plain _ _ W Hd), Hfree.
  rewrite (resolve_plain _ _ W Hs), (resolve_plain _ _ W Hd).
  rewrite place_eqb_single, (exists_plain _ _ W Hs).
  destruct (str_eqb src dst) eqn:E.
  - apply str_eqb_eq in E as ->. rewrite Hfree. cbn [andb].
    unfold bind. rewrite read_bytes_plain by assumption. now rewrite Hfree.
  - cbn [andb]. unfold bind. rewrite read_bytes_plain by assumption.
    destruct (lookup src (here (fs w))) as [[b | d]|]; try reflexivity.
    rewrite write_bytes_plain by assumption. now rewrite Hfree.
Qed.

(** ** The backup and the rewritten dashboard *)

Lemma update_dashboard_run (U : runtime) (dashboard_html : str)
    (start end_ : nat) (body : str) (mapping_for_block : dict) (done : str)
    (w : world) (original : bytes) :
  well_formed (fs w) ->
  lookup DASHBOARD_FILE (here (fs w)) = Some (File original) ->
  exists out,
    update_dashboard U dashboard_html start end_ body mapping_for_block done w
    = (Ok tt,
       {| fs := with_here (fs w)
            (bind_entry DASHBOARD_FILE
               (File (encode_utf8 U
                  (firstn start dashboard_html
                     ++ replace_urls_in_block body mapping_for_block
                     ++ skipn end_ dashboard_html)))
               (match lookup (DASHBOARD_FILE ++ BACKUP_SUFFIX) (here (fs w)) with
                | Some _ => here (fs w)
                | None => bind_entry (DASHBOARD_FILE ++ BACKUP_SUFFIX)
                            (File original) (here (fs w))
                end));
          stdout := out |}).
Proof.
  intros W Hd.
  assert (DASHBOARD_FILE ++ BACKUP_SUFFIX <> DASHBOARD_FILE) as Hne by discriminate.
  unfold update_dashboard, bind at 1. unfold get_fs at 1.
  rewrite (exists_plain _ _ W plain_backup).
  destruct (lookup (DASHBOARD_FILE ++ BACKUP_SUFFIX) (here (fs w))) as [x|] eqn:Hb;
    cbn [negb].
  - unfold bind, ret, write_text, print.
    rewrite (write_bytes_plain w _ _ W plain_dashboard), Hd.
    cbn [fs stdout]. eexists. reflexivity.
  - unfold bind at 1 2.
    rewrite (shutil_copy2_fresh w _ _ W plain_dashboard plain_backup Hb), Hd.
    unfold print at 1. cbn [fs stdout].
    set (w1 := {| fs := with_here (fs w)
                    (bind_entry (DASHBOARD_FILE ++ BACKUP_SUFFIX) (File original)
                       (here (fs w)));
                  stdout := _ |}).
    assert (well_formed (fs w1)) as W1.
    { apply well_formed_with_here; [assumption|].
      apply names_bind; [reflexivity | apply W]. }
    assert (lookup DASHBOARD_FILE (here (fs w1)) = Some (File original)) as Hd1.
    { cbn [w1 fs here with_here]. rewrite lookup_bind_other; [assumption|].
      intros E. now apply Hne. }
    unfold bind, write_text, print.
    rewrite (write_bytes_plain w1 _ _ W1 plain_dashboard), Hd1.
    cbn [w1 fs stdout here with_here]. eexists. reflexivity.
Qed.

(** What the last block leaves behind. *)
Lemma update_dashboard_post (U : runtime) (dashboard_html : str)
    (start end_ : nat) (body : str) (mapping_for_block : dict) (done : str)
    (w : world) (original : bytes) :
  well_formed (fs w) ->
  lookup DASHBOARD_FILE (here (fs w)) = Some (File original) ->
  let r := update_dashboard U dashboard_html start end_ body mapping_for_block
             done w in
  let after := here (fs (snd r)) in
  fst r = Ok tt /\
  lookup DASHBOARD_FILE after
    = Some (File (encode_utf8 U
        (firstn start dashboard_html
           ++ replace_urls_in_block body mapping_for_block
           ++ skipn end_ dashboard_html))) /\
  lookup (DASHBOARD_FILE ++ BACKUP_SUFFIX) after
    = match lookup (DASHBOARD_FILE ++ BACKUP_SUFFIX) (here (fs w)) with
      | Some x => Some x
      | None => Some (File original)
      end /\
  (forall n, n <> DASHBOARD_FILE -> n <> DASHBOARD_FILE ++ BACKUP_SUFFIX ->
             lookup n after = lookup n (here (fs w))).
Proof.
  intros W Hd.
  destruct (update_dashboard_run U dashboard_html start end_ body
              mapping_for_block done w original W Hd) as (out & E).
  assert (DASHBOARD_FILE ++ BACKUP_SUFFIX <> DASHBOARD_FILE) as Hne by discriminate.
  cbv zeta. rewrite E. cbn [fst snd fs here with_here].
  split; [reflexivity|]. split; [apply lookup_bind_same|]. split.
  - rewrite lookup_bind_other by assumption.
    destruct (lookup (DASHBOARD_FILE ++ BACKUP_SUFFIX) (here (fs w))) eqn:Hb;
      [assumption | apply lookup_bind_same].
  - intros n H1 H2. rewrite lookup_bind_other by assumption.
    destruct (lookup (DASHBOARD_FILE ++ BACKUP_SUFFIX) (here (fs w)));
      [reflexivity | now apply lookup_bind_other].
Qed.

(** X14.  The last block of [fix_dpp_filenames.main] and
    [dpp_cleanup.main], run on a directory whose dashboard is a regular
    file: a backup that exists is left as it is; when there is none, the
    backup becomes a copy of the dashboard's bytes as they were; then the
    dashboard holds the spliced text; no other entry changes and the block
    ends normally. *)
Theorem update_dashboard_effect (U : runtime) (dashboard_html : str)
    (start end_ : nat) (body : str) (mapping_for_block : dict) (done : str)
    (w : world) (original : bytes) :
  well_formed (fs w) ->
  lookup DASHBOARD_FILE (here (fs w)) = Some (File original) ->
  let r := update_dashboard U dashboard_html start end_ body mapping_for_block
             done w in
  let after := here (fs (snd r)) in
  fst r = Ok tt /\
  lookup DASHBOARD_FILE after
    = Some (File (encode_utf8 U
        (firstn start dashboard_html
           ++ replace_urls_in_block body mapping_for_block
           ++ skipn end_ dashboard_html))) /\
  lookup (DASHBOARD_FILE ++ BACKUP_SUFFIX) after
    = match lookup (DASHBOARD_FILE ++ BACKUP_SUFFIX) (here (fs w)) with
      | Some x => Some x
      | None => Some (File original)
      end /\
  (forall n, n <> DASHBOARD_FILE -> n <> DASHBOARD_FILE ++ BACKUP_SUFFIX ->
             lookup n after = lookup n (here (fs w))).
Proof. apply update_dashboard_post. Qed.

Lemma update_dashboard_effect_witness :
  lookup (DASHBOARD_FILE ++ BACKUP_SUFFIX)
    (here (fs (snd (update_dashboard py_latin sample_dashboard 25 67
                      (lit " 'r': 'Report (final).html', 'x': 'y.html' ") []
                      (lit "Updated dashboard mapping.") (world_of sample_fs)))))
  = Some (File sample_dashboard).
Proof.
  assert (well_formed (fs (world_of sample_fs))) as W by (constructor; reflexivity).
  destruct (update_dashboard_effect py_latin sample_dashboard 25 67
              (lit " 'r': 'Report (final).html', 'x': 'y.html' ") []
              (lit "Updated dashboard mapping.") (world_of sample_fs)
              sample_dashboard W eq_refl) as (_ & _ & H & _).
  exact H.
Defined.

(** ** [fix_dpp_filenames.main] as a whole *)

Lemma isfile_plain (fsys : filesystem) (p : str) :
  well_formed fsys -> plain p = true ->
  os_path_isfile fsys p = match lookup p (here fsys) with
                          | Some (File _) => true
                          | _ => false
                          end.
Proof.
  intros W Hp. unfold os_path_isfile. now rewrite (node_at_plain _ _ W Hp).
Qed.

Lemma plan_target_shape (U : runtime) (fsys : filesystem) (fuel : nat) (old new : str) :
  runtime_laws U ->
  fix_dpp_filenames.plan_target U fsys fuel old = Some new ->
  plain new = true /\ starts_alnum new = true.
Proof.
  intros L. unfold fix_dpp_filenames.plan_target.
  pose proof (slugify_plain U old L) as P.
  pose proof (slugify_starts_alnum U old) as A.
  destruct (negb (str_eqb (slugify_filename U old) old)
            && os_path_exists fsys (slugify_filename U old)).
  - destruct (splitext (slugify_filename U old)) as [base ext] eqn:E.
    intros H. destruct (next_free_spec _ _ _ _ _ _ H) as (_ & j & _ & ->).
    split; [now apply (candidate_plain (slugify_filename U old))
           | now apply (candidate_starts_alnum (slugify_filename U old))].
  - intros H. injection H as <-. now split.
Qed.

Lemma listed_plain (fsys : filesystem) (n : str) :
  well_formed fsys -> In n (map fst (here fsys)) -> plain n = true.
Proof.
  intros [_ H] Hin. rewrite forallb_forall in H. now apply H.
Qed.

(** The rename loop touches only the names of its plan. *)
Lemma fix_perform_renames_frame (rename_map : dict) (w : world) :
  well_formed (fs w) ->
  (forall k v, In (k, v) rename_map -> plain k = true /\ plain v = true) ->
  well_formed (fs (snd (fix_dpp_filenames.perform_renames rename_map w))) /\
  forall n, ~ In n (dict_keys rename_map) -> ~ In n (dict_values rename_map) ->
            lookup n (here (fs (snd (fix_dpp_filenames.perform_renames rename_map w))))
            = lookup n (here (fs w)).
Proof.
  unfold fix_dpp_filenames.perform_renames. revert w.
  induction rename_map as [|[k v] rm IH]; intros w W Hp.
  - split; [assumption | reflexivity].
  - destruct (Hp k v (or_introl eq_refl)) as [Pk Pv].
    set (P := fun f : filesystem =>
           well_formed f /\
           forall n, ~ In n (dict_keys ((k, v) :: rm)) ->
                     ~ In n (dict_values ((k, v) :: rm)) ->
                     lookup n (here f) = lookup n (here (fs w))).
    match goal with |- well_formed (fs (snd ?t)) /\ _ =>
      change (P (fs (snd t))) end.
    cbn [for_each fst snd].
    unfold bind at 1 2. unfold print at 1. cbn [fs stdout].
    set (w0 := {| fs := fs w; stdout := _ |}).
    assert (well_formed (fs w0)) as W0 by exact W.
    rewrite (os_rename_plain w0 k v W0 Pk Pv).
    set (w1 := {| fs := with_here (fs w0) _; stdout := _ |}).
    assert (well_formed (fs w1)) as W1.
    { apply well_formed_with_here; [assumption|].
      apply rename_in_names; [assumption | apply W]. }
    assert (forall n, n <> k -> n <> v ->
              lookup n (here (fs w1)) = lookup n (here (fs w))) as F1
      by (intros n H1 H2; apply rename_in_frame; assumption).
    destruct (fst (rename_in (here (fs w0)) k v)) as [[] | s]; cbv beta iota.
    + destruct (IH w1 W1 (fun k' v' H => Hp k' v' (or_intror H))) as [W2 F2].
      split; [assumption|]. intros n Hk Hv. cbn in Hk, Hv.
      rewrite F2 by tauto. apply F1; intros ->; tauto.
    + cbn [snd]. split; [assumption|]. intros n Hk Hv. cbn in Hk, Hv.
      apply F1; intros ->; tauto.
Qed.

Lemma step_read_only {A B : Type} (Q : filesystem -> Prop) (m : M A)
    (k : A -> M B) (w : world) :
  read_only m -> Q (fs w) ->
  (forall a w', fs w' = fs w -> Q (fs (snd (k a w')))) ->
  Q (fs (snd (bind m k w))).
Proof.
  intros R Hw Hk. unfold bind. specialize (R w).
  destruct (m w) as [[a | s] w']; cbn [snd] in *.
  - now apply Hk.
  - now rewrite R.
Qed.

Lemma step_bind {A B : Type} (P Q : filesystem -> Prop) (m : M A)
    (k : A -> M B) (w : world) :
  P (fs (snd (m w))) -> (forall f, P f -> Q f) ->
  (forall a w', P (fs w') -> Q (fs (snd (k a w')))) ->
  Q (fs (snd (bind m k w))).
Proof.
  intros Hm PQ Hk. unfold bind.
  destruct (m w) as [[a | s] w']; cbn [snd] in *; auto.
Qed.

Lemma is_html_name_backup (U : runtime) :
  runtime_laws U -> is_html_name U (DASHBOARD_FILE ++ BACKUP_SUFFIX) = false.
Proof.
  intros L. unfold is_html_name. now rewrite (lower_inert U L) by reflexivity.
Qed.

(** Every entry outside the working set keeps its node through a run. *)
Lemma fix_main_frame (U : runtime) (fuel : nat) (dry : bool) (w : world)
    (n : str) (x : node) :
  runtime_laws U -> well_formed (fs w) ->
  lookup n (here (fs w)) = Some x ->
  n <> DASHBOARD_FILE ->
  os_path_isfile (fs w) n && is_html_name U n = false ->
  lookup n (here (fs (snd (fix_dpp_filenames.main U fuel dry w)))) = Some x.
Proof.
  intros L W Hn Hnd Hout.
  set (Q := fun f : filesystem => lookup n (here f) = Some x).
  change (Q (fs (snd (fix_dpp_filenames.main U fuel dry w)))).
  unfold fix_dpp_filenames.main.
  unfold bind at 1. unfold get_fs at 1.
  unfold bind at 1. unfold print at 1. cbn [fs stdout].
  unfold bind at 1. rewrite os_listdir_cwd.
  set (w1 := {| fs := fs w; stdout := _ |}).
  set (html_files := html_files_of U (fs w) (map fst (here (fs w)))).
  destruct (mem DASHBOARD_FILE html_files) eqn:Hm; cbn [negb];
    [|exact Hn].
  destruct (fix_dpp_filenames.build_rename_map U (fs w) fuel
              (targets_of html_files) []) as [rename_map|] eqn:B; [|exact Hn].
  (* what is known about the plan *)
  assert (exists b, lookup DASHBOARD_FILE (here (fs w)) = Some (File b)) as (b & Hd).
  { apply mem_In in Hm. unfold html_files, html_files_of in Hm.
    apply filter_In in Hm as [_ Hm]. apply andb_true_iff in Hm as [Hm _].
    rewrite (isfile_plain _ _ W plain_dashboard) in Hm.
    destruct (lookup DASHBOARD_FILE (here (fs w))) as [[b | d]|];
      try discriminate. now exists b. }
  assert (forall k v, In (k, v) rename_map ->
            plain k = true /\ plain v = true /\ starts_alnum v = true /\
            k <> n /\ v <> n /\ k <> DASHBOARD_FILE) as Facts.
  { intros k v Hin.
    destruct (build_rename_map_In U (fs w) fuel _ [] rename_map k v B Hin)
      as [[] | (Ht & P & Hne)].
    destruct (plan_target_shape U (fs w) fuel k v L P) as [Pv Av].
    unfold targets_of, html_files, html_files_of in Ht.
    apply filter_In in Ht as [Ht Hkd]. apply filter_In in Ht as [Ht Hf].
    apply negb_true_iff, str_eqb_neq in Hkd.
    repeat split; try assumption.
    - now apply (listed_plain (fs w)).
    - intros ->. rewrite Hf in Hout. discriminate.
    - intros ->. pose proof (plan_target_fresh U (fs w) fuel k n P Hne) as Fr.
      rewrite (exists_plain _ _ W Pv), Hn in Fr. discriminate. }
  assert (forall w', fs w' = fs w ->
            Q (fs (snd (fix_dpp_filenames.perform_renames rename_map w'))) /\
            well_formed (fs (snd (fix_dpp_filenames.perform_renames rename_map w'))) /\
            lookup DASHBOARD_FILE
              (here (fs (snd (fix_dpp_filenames.perform_renames rename_map w'))))
              = Some (File b)) as Loop.
  { intros w' E.
    destruct (fix_perform_renames_frame rename_map w') as [W' F'].
    - now rewrite E.
    - intros k v Hin. destruct (Facts k v Hin) as (? & ? & _). now split.
    - unfold Q. rewrite !F', E.
      + split; [assumption | split; assumption].
      + intros Hin. apply in_map_iff in Hin as ([k v] & Ek & Hin).
        destruct (Facts k v Hin) as (_ & _ & _ & _ & _ & Hk). now apply Hk.
      + intros Hin. apply in_map_iff in Hin as ([k v] & Ev & Hin).
        destruct (Facts k v Hin) as (_ & _ & A & _). cbn in Ev.
        rewrite Ev in A. discriminate.
      + intros Hin. apply in_map_iff in Hin as ([k v] & Ek & Hin).
        destruct (Facts k v Hin) as (_ & _ & _ & Hk & _). now apply Hk.
      + intros Hin. apply in_map_iff in Hin as ([k v] & Ev & Hin).
        destruct (Facts k v Hin) as (_ & _ & _ & _ & Hv & _). now apply Hv. }
  apply step_read_only; [read_only_steps | exact Hn | intros _ w2 E2].
  apply step_read_only; [read_only_steps | unfold Q; now rewrite E2 | intros html w3 E3].
  rewrite E2 in E3.
  apply step_read_only;
    [read_only_steps | unfold Q; now rewrite E3 | intros _ w4 E4].
  rewrite E3 in E4. destruct dry.
  { unfold bind, print, halt. cbn [snd fs]. unfold Q. now rewrite E4. }
  destruct (Loop w4 E4) as (Q5 & W5 & D5).
  apply (step_bind (fun f => Q f /\ well_formed f /\
                     lookup DASHBOARD_FILE (here f) = Some (File b)) Q);
    [auto | tauto | intros _ w5 (Q5' & W5' & D5')].
  apply (step_bind Q Q); [| auto | intros _ w6 Q6].
  - destruct (find_dpp_urls_block U html) as [[[start end_] body]|];
      [|exact Q5'].
    destruct (update_dashboard_post U html start end_ body
                (mapping_for U (fs w) rename_map body)
                (lit "Updated RabateksDPPDashboard.html link mapping.")
                w5 b W5' D5') as (_ & _ & Hb & F).
    unfold Q in *.
    destruct (list_eq_dec N.eq_dec n (DASHBOARD_FILE ++ BACKUP_SUFFIX)) as [-> | Hnb].
    + rewrite Hb, Q5'. reflexivity.
    + rewrite F by assumption. exact Q5'.
  - apply step_read_only; [read_only_steps | exact Q6 | intros _ w7 E7].
    apply step_read_only; [read_only_steps | unfold Q; now rewrite E7 | intros _ w8 E8].
    unfold print. cbn [snd fs]. unfold Q. now rewrite E8, E7.
Qed.

Lemma sample_well_formed : well_formed (fs (world_of sample_fs)).
Proof. constructor; reflexivity. Qed.

(** X15.  [fix_dpp_filenames.main] leaves alone what is outside its
    working set: an entry of the working directory other than the
    dashboard that is not a regular file with a name ending in [.html] or
    [.htm] (a text file, a subdirectory, an existing backup) is the same
    after the run, with or without [--dry-run] and however the run ends. *)
Theorem fix_leaves_other_entries (U : runtime) (fuel : nat) (dry : bool)
    (w : world) (n : str) (x : node) :
  runtime_laws U -> well_formed (fs w) ->
  lookup n (here (fs w)) = Some x ->
  n <> DASHBOARD_FILE ->
  os_path_isfile (fs w) n && is_html_name U n = false ->
  lookup n (here (fs (snd (fix_dpp_filenames.main U fuel dry w)))) = Some x.
Proof. apply fix_main_frame. Qed.

Lemma fix_leaves_other_entries_witness :
  lookup (lit "notes.txt")
    (here (fs (snd (fix_dpp_filenames.main py_latin 5 false (world_of sample_fs)))))
  = Some (File (lit "n")).
Proof.
  apply (fix_leaves_other_entries py_latin 5 false (world_of sample_fs)
           (lit "notes.txt") (File (lit "n")) py_latin_laws sample_well_formed);
    [reflexivity | discriminate | reflexivity].
Defined.

(** X16.  A backup that exists is never overwritten or modified by
    [fix_dpp_filenames.main]: whatever the entry
    [RabateksDPPDashboard.html.backup] is before the run, it is the same
    after it. *)
Theorem fix_keeps_existing_backup (U : runtime) (fuel : nat) (dry : bool)
    (w : world) (x : node) :
  runtime_laws U -> well_formed (fs w) ->
  lookup (DASHBOARD_FILE ++ BACKUP_SUFFIX) (here (fs w)) = Some x ->
  lookup (DASHBOARD_FILE ++ BACKUP_SUFFIX)
    (here (fs (snd (fix_dpp_filenames.main U fuel dry w)))) = Some x.
Proof.
  intros L W H. apply fix_main_frame; try assumption; [discriminate|].
  now rewrite (is_html_name_backup U L), andb_false_r.
Qed.

Lemma fix_keeps_existing_backup_witness :
  lookup (DASHBOARD_FILE ++ BACKUP_SUFFIX)
    (here (fs (snd (fix_dpp_filenames.main py_latin 5 false
                      (world_of sample_fs_with_backup)))))
  = Some (File (lit "older")).
Proof.
  apply (fix_keeps_existing_backup py_latin 5 false
           (world_of sample_fs_with_backup) (File (lit "older")) py_latin_laws);
    [constructor; reflexivity | reflexivity].
Defined.

(** ** A dashboard without mapping block *)

Lemma printing_print (line : str) : printing (print line).
Proof. intros w. eexists. reflexivity. Qed.

Lemma printing_ret : printing (ret tt).
Proof. intros w. exists (stdout w). now destruct w. Qed.

Lemma printing_bind (m : M unit) (k : unit -> M unit) :
  printing m -> (forall a, printing (k a)) -> printing (bind m k).
Proof.
  intros Hm Hk w. unfold bind. destruct (Hm w) as (out & ->).
  destruct (Hk tt {| fs := fs w; stdout := out |}) as (out' & ->).
  now exists out'.
Qed.

Lemma printing_for_each {A : Type} (l : list A) (body : A -> M unit) :
  (forall x, printing (body x)) -> printing (for_each l body).
Proof.
  intros H. induction l as [|x l IH]; cbn [for_each].
  - apply printing_ret.
  - apply printing_bind; [apply H | intros _; exact IH].
Qed.

Lemma printing_print_pairs (d : dict) : printing (print_pairs d).
Proof.
  unfold print_pairs. apply printing_for_each. intros x. apply printing_print.
Qed.

Lemma step_printing {B : Type} (G : result B * world -> Prop) (m : M unit)
    (k : unit -> M B) (w : world) :
  printing m -> (forall w', fs w' = fs w -> G (k tt w')) -> G (bind m k w).
Proof.
  intros Hm Hk. unfold bind. destruct (Hm w) as (out & ->). now apply Hk.
Qed.

Lemma bind_then_printing (m : M unit) (k : unit -> M unit) (w : world) :
  (forall a, printing (k a)) ->
  fst (bind m k w) = fst (m w) /\ fs (snd (bind m k w)) = fs (snd (m w)).
Proof.
  intros Hk. unfold bind. destruct (m w) as [[[] | s] w'].
  - destruct (Hk tt w') as (out & ->). now split.
  - now split.
Qed.

Lemma fs_only_print (line : str) : fs_only (print line).
Proof. intros w w' E. now split. Qed.

Lemma fs_only_bind {A B : Type} (m : M A) (k : A -> M B) :
  fs_only m -> (forall a, fs_only (k a)) -> fs_only (bind m k).
Proof.
  intros Hm Hk w w' E. unfold bind. destruct (Hm w w' E) as [E1 E2].
  destruct (m w) as [[a | s] w1], (m w') as [[a' | s'] w1'];
    cbn [fst snd] in *; try discriminate.
  - injection E1 as ->. now apply Hk.
  - injection E1 as ->. now split.
Qed.

Lemma fs_only_for_each {A : Type} (l : list A) (body : A -> M unit) :
  (forall x, fs_only (body x)) -> fs_only (for_each l body).
Proof.
  intros H. induction l as [|x l IH]; cbn [for_each].
  - intros w w' E. now split.
  - apply fs_only_bind; [apply H | intros _; exact IH].
Qed.

Lemma fs_only_os_rename (old new : str) : fs_only (os_rename old new).
Proof.
  intros w w' E. unfold os_rename, bind, get_fs, set_here, halt, ret.
  rewrite E.
  repeat match goal with
         | |- context [match ?x with _ => _ end] => destruct x
         end; cbn [fst snd fs]; rewrite ?E; now split.
Qed.

Lemma fix_perform_renames_fs_only (rename_map : dict) :
  fs_only (fix_dpp_filenames.perform_renames rename_map).
Proof.
  unfold fix_dpp_filenames.perform_renames. apply fs_only_for_each.
  intros kv. apply fs_only_bind; [apply fs_only_print|].
  intros _. apply fs_only_os_rename.
Qed.

Lemma read_text_plain (U : runtime) (w : world) (p : str) (b : bytes) (s : str) :
  well_formed (fs w) -> plain p = true ->
  lookup p (here (fs w)) = Some (File b) -> decode_utf8 U b = Some s ->
  read_text U p w = (Ok s, w).
Proof.
  intros W Hp Hl Hd. unfold read_text, bind.
  rewrite (read_bytes_plain w p W Hp), Hl, Hd. reflexivity.
Qed.

Lemma is_html_name_dashboard (U : runtime) :
  runtime_laws U -> is_html_name U DASHBOARD_FILE = true.
Proof.
  intros L. unfold is_html_name. now rewrite (lower_inert U L) by reflexivity.
Qed.

(** What is known of every entry of the plan of [fix_dpp_filenames.main]. *)
Lemma fix_plan_facts (U : runtime) (fsys : filesystem) (fuel : nat)
    (rename_map : dict) (k v : str) :
  runtime_laws U -> well_formed fsys ->
  fix_dpp_filenames.build_rename_map U fsys fuel
    (targets_of (html_files_of U fsys (map fst (here fsys)))) [] = Some rename_map ->
  In (k, v) rename_map ->
  plain k = true /\ plain v = true /\ starts_alnum v = true /\
  k <> DASHBOARD_FILE /\ is_html_name U k = true.
Proof.
  intros L W B Hin.
  destruct (build_rename_map_In U fsys fuel _ [] rename_map k v B Hin)
    as [[] | (Ht & P & Hne)].
  destruct (plan_target_shape U fsys fuel k v L P) as [Pv Av].
  unfold targets_of, html_files_of in Ht.
  apply filter_In in Ht as [Ht Hkd]. apply filter_In in Ht as [Ht Hf].
  apply negb_true_iff, str_eqb_neq in Hkd.
  apply andb_true_iff in Hf as [_ Hf].
  split; [now apply (listed_plain fsys)|]. tauto.
Qed.

(** X17.  When the dashboard has no [const dppUrls = { ... };] block, a run
    of [fix_dpp_filenames.main] without [--dry-run] is its rename loop and
    nothing more: it ends as the loop ends and leaves the files the loop
    leaves; the dashboard keeps its bytes and no backup is made (the
    backup entry is what it was). *)
Theorem fix_without_mapping_block (U : runtime) (fuel : nat) (w : world)
    (b : bytes) (html : str) (rename_map : dict) :
  runtime_laws U -> well_formed (fs w) ->
  lookup DASHBOARD_FILE (here (fs w)) = Some (File b) ->
  decode_utf8 U b = Some html ->
  find_dpp_urls_block U html = None ->
  fix_dpp_filenames.build_rename_map U (fs w) fuel
    (targets_of (html_files_of U (fs w) (map fst (here (fs w))))) []
    = Some rename_map ->
  let r := fix_dpp_filenames.main U fuel false w in
  let loop := fix_dpp_filenames.perform_renames rename_map w in
  fst r = fst loop /\ fs (snd r) = fs (snd loop) /\
  lookup DASHBOARD_FILE (here (fs (snd r))) = Some (File b) /\
  lookup (DASHBOARD_FILE ++ BACKUP_SUFFIX) (here (fs (snd r)))
    = lookup (DASHBOARD_FILE ++ BACKUP_SUFFIX) (here (fs w)).
Proof.
  intros L W Hd Hdec Hfind B.
  assert (mem DASHBOARD_FILE (html_files_of U (fs w) (map fst (here (fs w)))) = true)
    as Hm.
  { apply mem_In. unfold html_files_of. apply filter_In. split.
    - exact (lookup_In _ _ _ Hd).
    - now rewrite (isfile_plain _ _ W plain_dashboard), Hd,
        (is_html_name_dashboard U L). }
  cbv zeta.
  set (loop := fix_dpp_filenames.perform_renames rename_map w).
  assert (fst (fix_dpp_filenames.main U fuel false w) = fst loop /\
          fs (snd (fix_dpp_filenames.main U fuel false w)) = fs (snd loop))
    as [R1 R2].
  { set (G := fun r : result unit * world =>
               fst r = fst loop /\ fs (snd r) = fs (snd loop)).
    change (G (fix_dpp_filenames.main U fuel false w)).
    unfold fix_dpp_filenames.main.
    unfold bind at 1. unfold get_fs at 1.
    unfold bind at 1. unfold print at 1. cbn [fs stdout].
    unfold bind at 1. rewrite os_listdir_cwd.
    rewrite Hm. cbn [negb]. rewrite B.
    apply step_printing.
    { destruct rename_map;
        [apply printing_print
        | apply printing_bind;
          [apply printing_print | intros _; apply printing_print_pairs]]. }
    intros w2 E2. cbn [fs] in E2.
    unfold bind at 1.
    rewrite (read_text_plain U w2 DASHBOARD_FILE b html)
      by (rewrite ?E2; assumption || exact plain_dashboard).
    rewrite Hfind.
    apply step_printing.
    { apply printing_bind; [apply printing_print | intros _; apply printing_print]. }
    intros w3 E3. rewrite E2 in E3.
    match goal with |- G (bind ?m ?k ?w0) =>
      destruct (bind_then_printing m k w0) as [F1 F2] end.
    { intros _. apply printing_bind; [apply printing_ret | intros _].
      apply printing_bind; [apply printing_print | intros _].
      apply printing_bind; [apply printing_print | intros _].
      apply printing_print. }
    destruct (fix_perform_renames_fs_only rename_map w3 w E3) as [F3 F4].
    unfold G, loop. split; congruence. }
  split; [exact R1 | split; [exact R2|]].
  rewrite R2. unfold loop.
  destruct (fix_perform_renames_frame rename_map w W) as [_ F].
  { intros k v Hin.
    destruct (fix_plan_facts U (fs w) fuel rename_map k v L W B Hin) as (? & ? & _).
    now split. }
  assert (forall n, (forall k v, In (k, v) rename_map -> k <> n /\ v <> n) ->
            lookup n (here (fs (snd (fix_dpp_filenames.perform_renames rename_map w))))
            = lookup n (here (fs w))) as F'.
  { intros n Hn. apply F; intros Hin;
      apply in_map_iff in Hin as ([k v] & E & Hin); cbn in E;
      destruct (Hn k v Hin); congruence. }
  split.
  - rewrite F'; [exact Hd|]. intros k v Hin.
    destruct (fix_plan_facts U (fs w) fuel rename_map k v L W B Hin)
      as (_ & _ & A & Hk & _).
    split; [exact Hk | intros ->; discriminate].
  - apply F'. intros k v Hin.
    destruct (fix_plan_facts U (fs w) fuel rename_map k v L W B Hin)
      as (_ & _ & A & _ & Hh).
    split; intros ->; [|discriminate].
    rewrite (is_html_name_backup U L) in Hh. discriminate.
Qed.

Lemma fix_without_mapping_block_witness :
  fs (snd (fix_dpp_filenames.main py_latin 5 false (world_of blockless_fs)))
  = fs (snd (fix_dpp_filenames.perform_renames
               [(lit "Old Name.html", lit "old-name.html")]
               (world_of blockless_fs))).
Proof.
  assert (well_formed (fs (world_of blockless_fs))) as W by (constructor; reflexivity).
  destruct (fix_without_mapping_block py_latin 5 (world_of blockless_fs)
              (lit "<html><body>no mapping</body></html>")
              (lit "<html><body>no mapping</body></html>")
              [(lit "Old Name.html", lit "old-name.html")]
              py_latin_laws W eq_refl eq_refl eq_refl eq_refl) as (_ & H & _).
  exact H.
Defined.

(** ** [auto_fix_dashboard_mapping.main] *)

Lemma auto_fix_run (U : runtime) (w : world) (b : bytes) (html : str) :
  well_formed (fs w) ->
  lookup DASHBOARD_FILE (here (fs w)) = Some (File b) ->
  decode_utf8 U b = Some html ->
  exists out,
    auto_fix_dashboard_mapping.main U w
    = (if snd (rewritten U html) then Ok tt else Stop Returned,
       {| fs := with_here (fs w)
            (let d := match lookup (DASHBOARD_FILE ++ BACKUP_SUFFIX) (here (fs w)) with
                      | Some _ => here (fs w)
                      | None => bind_entry (DASHBOARD_FILE ++ BACKUP_SUFFIX)
                                  (File b) (here (fs w))
                      end in
             if snd (rewritten U html)
             then bind_entry DASHBOARD_FILE
                    (File (encode_utf8 U (fst (rewritten U html)))) d
             else d);
          stdout := out |}).
Proof.
  intros W Hd Hdec.
  assert (DASHBOARD_FILE ++ BACKUP_SUFFIX <> DASHBOARD_FILE) as Hne by discriminate.
  unfold auto_fix_dashboard_mapping.main, rewritten.
  unfold bind at 1. unfold get_fs at 1.
  rewrite (exists_plain _ _ W plain_dashboard), Hd. cbn [negb].
  unfold bind at 1. rewrite (read_text_plain U w DASHBOARD_FILE b html W plain_dashboard Hd Hdec).
  rewrite (exists_plain _ _ W plain_backup).
  destruct (auto_fix_dashboard_mapping.sub_retail_from U 0 html) as [h c].
  destruct (auto_fix_dashboard_mapping.replace_variants h c) as [new_html changed].
  cbn [fst snd]. cbv zeta.
  destruct (lookup (DASHBOARD_FILE ++ BACKUP_SUFFIX) (here (fs w))) as [x|] eqn:Hb;
    cbn [negb].
  - unfold bind at 1. unfold ret at 1.
    destruct changed; cbn [negb].
    + unfold bind, write_text, print.
      rewrite (write_bytes_plain w _ _ W plain_dashboard), Hd.
      cbn [fs stdout]. eexists. reflexivity.
    + unfold bind, print, halt. cbn [fs stdout].
      exists (stdout w ++ [lit "No changes made. Mapping already points to the clean filename or pattern not found."]).
      destruct w as [[c0 h0 e0] o0]. reflexivity.
  - unfold bind at 1 2.
    rewrite (shutil_copy2_fresh w _ _ W plain_dashboard plain_backup Hb), Hd.
    unfold print at 1. cbn [fs stdout].
    set (w1 := {| fs := with_here (fs w)
                    (bind_entry (DASHBOARD_FILE ++ BACKUP_SUFFIX) (File b)
                       (here (fs w)));
                  stdout := _ |}).
    assert (well_formed (fs w1)) as W1.
    { apply well_formed_with_here; [assumption|].
      apply names_bind; [reflexivity | apply W]. }
    assert (lookup DASHBOARD_FILE (here (fs w1)) = Some (File b)) as Hd1.
    { cbn [w1 fs here with_here]. rewrite lookup_bind_other; [assumption|].
      intros E. now apply Hne. }
    destruct changed; cbn [negb].
    + unfold bind, write_text, print.
      rewrite (write_bytes_plain w1 _ _ W1 plain_dashboard), Hd1.
      cbn [w1 fs stdout here with_here]. eexists. reflexivity.
    + unfold bind, print, halt. cbn [w1 fs stdout]. eexists. reflexivity.
Qed.

(** X18.  What a run of [auto_fix_dashboard_mapping.main] leaves behind
    when the dashboard is a readable regular file.  The backup is made
    first, and only when there is none: an existing backup is kept, a new
    one holds the dashboard's bytes as they were, whether or not anything
    is rewritten afterwards.  The dashboard is written only when the flag
    [changed] is set, and then holds the rewritten text; otherwise the run
    ends at its [return] with the dashboard's bytes untouched.  No other
    entry of the directory changes. *)
Theorem auto_fix_effect (U : runtime) (w : world) (b : bytes) (html : str) :
  well_formed (fs w) ->
  lookup DASHBOARD_FILE (here (fs w)) = Some (File b) ->
  decode_utf8 U b = Some html ->
  let r := auto_fix_dashboard_mapping.main U w in
  let after := here (fs (snd r)) in
  fst r = (if snd (rewritten U html) then Ok tt else Stop Returned) /\
  lookup DASHBOARD_FILE after
    = Some (File (if snd (rewritten U html)
                  then encode_utf8 U (fst (rewritten U html)) else b)) /\
  lookup (DASHBOARD_FILE ++ BACKUP_SUFFIX) after
    = match lookup (DASHBOARD_FILE ++ BACKUP_SUFFIX) (here (fs w)) with
      | Some x => Some x
      | None => Some (File b)
      end /\
  (forall n, n <> DASHBOARD_FILE -> n <> DASHBOARD_FILE ++ BACKUP_SUFFIX ->
             lookup n after = lookup n (here (fs w))).
Proof.
  intros W Hd Hdec.
  destruct (auto_fix_run U w b html W Hd Hdec) as (out & E).
  assert (DASHBOARD_FILE ++ BACKUP_SUFFIX <> DASHBOARD_FILE) as Hne by discriminate.
  assert (DASHBOARD_FILE <> DASHBOARD_FILE ++ BACKUP_SUFFIX) as Hne' by discriminate.
  cbv zeta. rewrite E. cbn [fst snd fs here with_here].
  split; [reflexivity|].
  destruct (snd (rewritten U html));
    destruct (lookup (DASHBOARD_FILE ++ BACKUP_SUFFIX) (here (fs w))) as [x|] eqn:Hb.
  - split; [apply lookup_bind_same|]. split.
    + now rewrite lookup_bind_other.
    + intros n H1 H2. now rewrite lookup_bind_other.
  - split; [apply lookup_bind_same|]. split.
    + rewrite lookup_bind_other by assumption. apply lookup_bind_same.
    + intros n H1 H2. now rewrite !lookup_bind_other.
  - split; [assumption|]. split; [assumption | reflexivity].
  - split; [now rewrite lookup_bind_other|]. split.
    + apply lookup_bind_same.
    + intros n H1 H2. now rewrite lookup_bind_other.
Qed.

Lemma auto_fix_effect_witness :
  lookup DASHBOARD_FILE
    (here (fs (snd (auto_fix_dashboard_mapping.main py_latin (world_of retail_fs)))))
  = Some (File (lit "const dppUrls = { 'retail': 'rabateks-dpp-retail-distribution-management.html' };")).
Proof.
  assert (well_formed (fs (world_of retail_fs))) as W by (constructor; reflexivity).
  destruct (auto_fix_effect py_latin (world_of retail_fs)
              (lit "const dppUrls = { 'retail': 'Retail Old.html' };")
              (lit "const dppUrls = { 'retail': 'Retail Old.html' };")
              W eq_refl eq_refl) as (_ & H & _).
  exact H.
Defined.

(** X19.  [auto_fix_dashboard_mapping.main] reads before it backs up: when
    the dashboard exists but cannot be read as text (it is a directory, or
    its bytes are not valid UTF-8), the run is stopped by the exception
    with nothing changed, and no backup has been made. *)
Theorem auto_fix_unreadable_dashboard (U : runtime) (w : world) (x : node) :
  well_formed (fs w) ->
  lookup DASHBOARD_FILE (here (fs w)) = Some x ->
  match x with
  | Dir _ => True
  | File b => decode_utf8 U b = None
  end ->
  auto_fix_dashboard_mapping.main U w
  = (Stop (Raised match x with
                  | Dir _ => IsADirectoryError
                  | File _ => UnicodeDecodeError
                  end), w).
Proof.
  intros W Hd Hx. unfold auto_fix_dashboard_mapping.main.
  unfold bind at 1. unfold get_fs at 1.
  rewrite (exists_plain _ _ W plain_dashboard), Hd. cbn [negb].
  unfold bind at 1. unfold read_text, bind at 1.
  rewrite (read_bytes_plain w _ W plain_dashboard), Hd.
  destruct x as [b | d]; [rewrite Hx|]; reflexivity.
Qed.

Lemma auto_fix_unreadable_dashboard_witness :
  auto_fix_dashboard_mapping.main py_latin (world_of dashboard_dir_fs)
  = (Stop (Raised IsADirectoryError), world_of dashboard_dir_fs).
Proof.
  apply (auto_fix_unreadable_dashboard py_latin (world_of dashboard_dir_fs)
           (Dir [(lit "index.html", File (lit "x"))]));
    [constructor; reflexivity | reflexivity | exact I].
Defined.

(** *** The two rewriting steps *)

Lemma firstn_before_suffix (p s : str) :
  firstn (List.length (p ++ s) - List.length s) (p ++ s) = p.
Proof.
  rewrite length_app.
  replace (List.length p + List.length s - List.length s) with (List.length p + 0)
    by lia.
  rewrite firstn_app_2, firstn_O. apply app_nil_r.
Qed.

Lemma match_retail_sound (U : runtime) (s prefix : str) (q : N) (val : str) :
  auto_fix_dashboard_mapping.match_retail U s = Some (prefix, q, val) ->
  exists rest, s = prefix ++ q :: val ++ q :: rest.
Proof.
  unfold auto_fix_dashboard_mapping.match_retail.
  destruct s as [|q1 s1]; [discriminate|].
  destruct (is_quote q1); [|discriminate].
  destruct (strip_prefix (lit "retail") s1) as [[|q2 s2]|] eqn:E1; try discriminate.
  destruct (is_quote q2); [|discriminate].
  destruct (dropwhile_split (isspace U) s2) as (ws1 & Hs2 & _).
  remember (dropwhile (isspace U) s2) as d2 eqn:Ed2. clear Ed2.
  destruct (strip_prefix (lit ":") d2) as [s4|] eqn:E2; [|discriminate].
  destruct (dropwhile_split (isspace U) s4) as (ws2 & Hs4 & _).
  remember (dropwhile (isspace U) s4) as s5 eqn:Es5. clear Es5.
  destruct (match_string_val s5) as [[quote v]|] eqn:E3; [|discriminate].
  apply strip_prefix_app in E1, E2.
  apply match_string_val_sound in E3 as (_ & _ & _ & rest & E5).
  assert (q1 :: s1 = (q1 :: lit "retail" ++ q2 :: ws1 ++ lit ":" ++ ws2) ++ s5) as Es.
  { rewrite E1, Hs2, E2, Hs4. cbn [app]. rewrite <- !app_assoc. cbn [app].
    rewrite <- !app_assoc. reflexivity. }
  rewrite Es, firstn_before_suffix.
  intros H. injection H as <- <- <-. exists rest. now rewrite E5.
Qed.

Lemma sub_retail_skip (U : runtime) (s : str) (n : nat) :
  auto_fix_dashboard_mapping.sub_retail_from U n s
  = auto_fix_dashboard_mapping.sub_retail_from U 0 (skipn n s).
Proof.
  revert n. induction s as [|c t IH]; intros [|k]; try reflexivity.
  cbn [auto_fix_dashboard_mapping.sub_retail_from skipn]. apply IH.
Qed.

Lemma skipn_past (p : str) (q : N) (val : str) (rest : str) (c : N) (t : str) :
  c :: t = p ++ q :: val ++ q :: rest ->
  skipn (List.length p + List.length val + 1) t = rest.
Proof.
  intros E.
  change (skipn (S (List.length p + List.length val + 1)) (c :: t) = rest).
  rewrite E.
  replace (S (List.length p + List.length val + 1))
    with (List.length (p ++ q :: val ++ [q]))
    by (rewrite !length_app; cbn [List.length]; rewrite length_app;
        cbn [List.length]; lia).
  replace (p ++ q :: val ++ q :: rest) with ((p ++ q :: val ++ [q]) ++ rest)
    by (rewrite <- !app_assoc; cbn [app]; rewrite <- app_assoc; reflexivity).
  now rewrite skipn_app, skipn_all, Nat.sub_diag.
Qed.

Lemma sub_retail_unchanged (U : runtime) (s : str) :
  snd (auto_fix_dashboard_mapping.sub_retail_from U 0 s) = false ->
  fst (auto_fix_dashboard_mapping.sub_retail_from U 0 s) = s.
Proof.
  remember (List.length s) as n eqn:En. revert s En.
  induction n as [n IH] using lt_wf_ind. intros [|c t] En; [reflexivity|].
  cbn [auto_fix_dashboard_mapping.sub_retail_from].
  destruct (auto_fix_dashboard_mapping.match_retail U (c :: t))
    as [[[prefix quote] oldval]|] eqn:M.
  - destruct (match_retail_sound U _ _ _ _ M) as (rest & Es).
    rewrite sub_retail_skip, (skipn_past prefix quote oldval rest c t Es).
    destruct (auto_fix_dashboard_mapping.sub_retail_from U 0 rest) as [out ch] eqn:R.
    destruct (negb (str_eqb oldval TARGET_FILENAME)); cbn [fst snd];
      [discriminate|].
    intros ->. rewrite Es.
    assert (out = rest) as ->.
    { change out with (fst (out, false)). rewrite <- R.
      apply (IH (List.length rest)); [|reflexivity | now rewrite R].
      rewrite En. apply (f_equal (@List.length N)) in Es.
      rewrite !length_app in Es. cbn [List.length] in Es.
      rewrite length_app in Es. cbn [List.length] in *. lia. }
    reflexivity.
  - destruct (auto_fix_dashboard_mapping.sub_retail_from U 0 t) as [out ch] eqn:R.
    cbn [fst snd]. intros ->. f_equal.
    change out with (fst (out, false)). rewrite <- R.
    apply (IH (List.length t)); [rewrite En; cbn [List.length]; lia
                                | reflexivity | now rewrite R].
Qed.

Lemma fold_flag_sticky {A B : Type} (f : A * bool -> B -> A * bool) (l : list B)
    (st : A * bool) :
  (forall st x, snd st = true -> snd (f st x) = true) ->
  snd st = true -> snd (fold_left f l st) = true.
Proof.
  intros Hf. revert st. induction l as [|x l IH]; intros st Hst; cbn [fold_left].
  - assumption.
  - apply IH. now apply Hf.
Qed.

Lemma fold_flag_unchanged {A B : Type} (f : A * bool -> B -> A * bool) (l : list B)
    (st : A * bool) :
  (forall st x, snd st = true -> snd (f st x) = true) ->
  (forall st x, snd (f st x) = false -> f st x = st) ->
  snd (fold_left f l st) = false -> fold_left f l st = st.
Proof.
  intros Hs Hf. revert st. induction l as [|x l IH]; intros st H; cbn [fold_left] in *.
  - reflexivity.
  - rewrite (IH _ H). apply Hf.
    destruct (snd (f st x)) eqn:E; [|reflexivity].
    rewrite (fold_flag_sticky f l (f st x) Hs E) in H. discriminate.
Qed.

Lemma replace_variants_unchanged (h : str) (c : bool) :
  snd (auto_fix_dashboard_mapping.replace_variants h c) = false ->
  auto_fix_dashboard_mapping.replace_variants h c = (h, c).
Proof.
  unfold auto_fix_dashboard_mapping.replace_variants.
  apply fold_flag_unchanged.
  - intros st ov Hst.
    now destruct (auto_fix_dashboard_mapping.str_contains ov (fst st)).
  - intros st ov.
    destruct (auto_fix_dashboard_mapping.str_contains ov (fst st));
      [discriminate | reflexivity].
Qed.

(** X20.  The message [No changes made] of
    [auto_fix_dashboard_mapping.main] is accurate: whenever the flag
    [changed] is not set at the end of the two rewriting steps, the text
    they produce is the text that was read. *)
Theorem unchanged_means_same_text (U : runtime) (html : str) :
  snd (rewritten U html) = false -> fst (rewritten U html) = html.
Proof.
  unfold rewritten.
  destruct (auto_fix_dashboard_mapping.sub_retail_from U 0 html) as [h c] eqn:S.
  intros Hf. pose proof (replace_variants_unchanged h c Hf) as R.
  rewrite R in Hf |- *. cbn [fst snd] in *.
  subst c. change h with (fst (h, false)). rewrite <- S.
  apply sub_retail_unchanged. now rewrite S.
Qed.

Lemma unchanged_means_same_text_witness :
  fst (rewritten py_latin
         (lit "{ 'retail': 'rabateks-dpp-retail-distribution-management.html' }"))
  = lit "{ 'retail': 'rabateks-dpp-retail-distribution-management.html' }".
Proof.
  apply (unchanged_means_same_text py_latin). reflexivity.
Defined.

Lemma quote_not_space (U : runtime) (q : N) :
  runtime_laws U -> is_quote q = true -> isspace U q = false.
Proof.
  intros L Hq. unfold is_quote in Hq.
  apply orb_true_iff in Hq as [Hq | Hq]; apply N.eqb_eq in Hq; subst q;
    now rewrite (isspace_inert U L).
Qed.

Lemma match_retail_complete (U : runtime) (q1 q2 q : N) (ws1 ws2 val rest : str) :
  runtime_laws U ->
  is_quote q1 = true -> is_quote q2 = true -> is_quote q = true ->
  forallb (isspace U) ws1 = true -> forallb (isspace U) ws2 = true ->
  val <> [] -> unquoted val = true ->
  auto_fix_dashboard_mapping.match_retail U
    ((q1 :: lit "retail" ++ q2 :: ws1 ++ lit ":" ++ ws2) ++ q :: val ++ q :: rest)
  = Some (q1 :: lit "retail" ++ q2 :: ws1 ++ lit ":" ++ ws2, q, val).
Proof.
  intros L H1 H2 Hq F1 F2 Hne Hv.
  set (s5 := q :: val ++ q :: rest).
  set (P := q1 :: lit "retail" ++ q2 :: ws1 ++ lit ":" ++ ws2).
  assert (P ++ s5 = q1 :: lit "retail" ++ q2 :: ws1 ++ 58%N :: ws2 ++ s5) as E.
  { unfold P. cbn [app]. rewrite <- !app_assoc. cbn [app].
    rewrite <- !app_assoc. reflexivity. }
  assert (dropwhile (isspace U) (ws2 ++ s5) = s5) as D2
    by (apply dropwhile_app_stop; [assumption | now apply quote_not_space]).
  assert (match_string_val s5 = Some (q, val)) as M
    by (apply match_string_val_complete; repeat split; try assumption;
        now exists rest).
  rewrite E. unfold auto_fix_dashboard_mapping.match_retail.
  rewrite H1, strip_prefix_here, H2.
  rewrite (dropwhile_app_stop (isspace U) ws1 58%N (ws2 ++ s5) F1)
    by now rewrite (isspace_inert U L).
  change (58%N :: ws2 ++ s5) with (lit ":" ++ ws2 ++ s5) at 1.
  rewrite strip_prefix_here, D2, M.
  rewrite <- E, firstn_before_suffix. reflexivity.
Qed.

Lemma sub_retail_at_match (U : runtime) (c : N) (t prefix : str) (quote : N)
    (oldval rest : str) :
  auto_fix_dashboard_mapping.match_retail U (c :: t) = Some (prefix, quote, oldval) ->
  c :: t = prefix ++ quote :: oldval ++ quote :: rest ->
  auto_fix_dashboard_mapping.sub_retail_from U 0 (c :: t)
  = (prefix ++ [quote]
       ++ (if str_eqb oldval TARGET_FILENAME then oldval else TARGET_FILENAME)
       ++ [quote] ++ fst (auto_fix_dashboard_mapping.sub_retail_from U 0 rest),
     negb (str_eqb oldval TARGET_FILENAME)
     || snd (auto_fix_dashboard_mapping.sub_retail_from U 0 rest)).
Proof.
  intros M Es. cbn [auto_fix_dashboard_mapping.sub_retail_from].
  rewrite M, sub_retail_skip, (skipn_past prefix quote oldval rest c t Es).
  destruct (auto_fix_dashboard_mapping.sub_retail_from U 0 rest) as [out ch].
  now destruct (str_eqb oldval TARGET_FILENAME).
Qed.

(** X21.  The first rewriting step of [auto_fix_dashboard_mapping.main]
    sets the value of [retail]: a text that begins with the key [retail]
    between quote characters, a colon with optional whitespace around it
    and a string literal comes out with the literal's content replaced by
    [TARGET_FILENAME] between the literal's own quote characters, the key
    and the spacing as they were; the flag is set exactly when the old
    content differs from the target or a later match sets it. *)
Theorem retail_value_is_set (U : runtime) (q1 q2 q : N)
    (ws1 ws2 val rest : str) :
  runtime_laws U ->
  is_quote q1 = true -> is_quote q2 = true -> is_quote q = true ->
  forallb (isspace U) ws1 = true -> forallb (isspace U) ws2 = true ->
  val <> [] -> unquoted val = true ->
  let key := q1 :: lit "retail" ++ q2 :: ws1 ++ lit ":" ++ ws2 in
  auto_fix_dashboard_mapping.sub_retail_from U 0 (key ++ q :: val ++ q :: rest)
  = (key ++ q :: TARGET_FILENAME ++ q
       :: fst (auto_fix_dashboard_mapping.sub_retail_from U 0 rest),
     negb (str_eqb val TARGET_FILENAME)
     || snd (auto_fix_dashboard_mapping.sub_retail_from U 0 rest)).
Proof.
  intros L H1 H2 Hq F1 F2 Hne Hv key.
  pose proof (match_retail_complete U q1 q2 q ws1 ws2 val rest
                L H1 H2 Hq F1 F2 Hne Hv) as M.
  pose proof (sub_retail_at_match U q1
                ((lit "retail" ++ q2 :: ws1 ++ lit ":" ++ ws2)
                   ++ q :: val ++ q :: rest)
                key q val rest M eq_refl) as S.
  etransitivity; [exact S|].
  f_equal. f_equal. cbn [app]. f_equal.
  destruct (str_eqb val TARGET_FILENAME) eqn:E; [|reflexivity].
  apply str_eqb_eq in E. now rewrite E.
Qed.

Lemma retail_value_is_set_witness :
  fst (auto_fix_dashboard_mapping.sub_retail_from py_latin 0
         (lit "'retail' : 'Retail Old.html' };"))
  = lit "'retail' : 'rabateks-dpp-retail-distribution-management.html' };".
Proof.
  refine (f_equal fst
            (retail_value_is_set py_latin 39 39 39 (lit " ") (lit " ")
               (lit "Retail Old.html") (lit " };") py_latin_laws
               eq_refl eq_refl eq_refl eq_refl eq_refl _ eq_refl)).
  discriminate.
Defined.

(** ** The searches for a free name end *)

Lemma lit_inj (a b : string) : lit a = lit b -> a = b.
Proof.
  unfold lit. intros H.
  rewrite <- (string_of_list_ascii_of_string a), <- (string_of_list_ascii_of_string b).
  f_equal. revert H.
  generalize (list_ascii_of_string a) (list_ascii_of_string b).
  induction l as [|x l IH]; intros [|y l']; cbn [map]; try discriminate;
    [reflexivity|].
  intros H. injection H as Hx Hl. f_equal; [|now apply IH].
  rewrite <- (ascii_N_embedding x), <- (ascii_N_embedding y). now f_equal.
Qed.

Lemma str_of_nat_inj (i j : nat) : str_of_nat i = str_of_nat j -> i = j.
Proof.
  unfold str_of_nat. intros H. apply lit_inj in H.
  assert (Some (Nat.to_uint i) = Some (Nat.to_uint j)) as E
    by (rewrite <- !NilEmpty.usu; now f_equal).
  injection E as E.
  rewrite <- (Unsigned.of_to i), <- (Unsigned.of_to j). now f_equal.
Qed.

Lemma candidate_inj (base ext : str) (i j : nat) :
  base ++ lit "-" ++ str_of_nat i ++ ext = base ++ lit "-" ++ str_of_nat j ++ ext ->
  i = j.
Proof.
  intros H. apply app_inv_head, app_inv_head, app_inv_tail in H.
  now apply str_of_nat_inj.
Qed.

Lemma remove_one_shorter (x : str) (l : list str) :
  In x l -> List.length (List.remove (list_eq_dec N.eq_dec) x l) < List.length l.
Proof.
  induction l as [|y l IH]; cbn [In List.remove List.length]; [tauto|].
  intros H. destruct (list_eq_dec N.eq_dec x y) as [E | E].
  - apply Nat.lt_succ_r. apply remove_length_le.
  - cbn [List.length]. destruct H as [H | H]; [congruence|].
    apply -> Nat.succ_lt_mono. exact (IH H).
Qed.

(** The search ends when it is given more turns than there are names in
    use: the candidates are pairwise different, so at most as many of them
    as there are names can be taken. *)
Lemma next_free_total (taken : str -> bool) (base ext : str) (names : list str)
    (fuel i : nat) :
  (forall j, i <= j -> taken (base ++ lit "-" ++ str_of_nat j ++ ext) = true ->
             In (base ++ lit "-" ++ str_of_nat j ++ ext) names) ->
  List.length names < fuel ->
  exists c, next_free taken base ext fuel i = Some c.
Proof.
  revert names i. induction fuel as [|fuel IH]; intros names i H Hlen; [lia|].
  cbn [next_free].
  destruct (taken (base ++ lit "-" ++ str_of_nat i ++ ext)) eqn:E;
    [|eexists; reflexivity].
  pose proof (H i (le_n i) E) as Hin.
  apply (IH (List.remove (list_eq_dec N.eq_dec)
               (base ++ lit "-" ++ str_of_nat i ++ ext) names)).
  - intros j Hj Tj. apply in_in_remove; [|apply H; [lia | assumption]].
    intros Ej. apply candidate_inj in Ej. lia.
  - eapply Nat.lt_le_trans; [exact (remove_one_shorter _ _ Hin) | lia].
Qed.

Lemma exists_In_names (fsys : filesystem) (n : str) :
  well_formed fsys -> plain n = true -> os_path_exists fsys n = true ->
  In n (map fst (here fsys)).
Proof.
  intros W Hn. rewrite (exists_plain _ _ W Hn).
  destruct (lookup n (here fsys)) as [x|] eqn:E; [|discriminate].
  intros _. exact (lookup_In _ _ _ E).
Qed.

Lemma next_free_in_directory (fsys : filesystem) (new base ext : str) (fuel : nat) :
  well_formed fsys -> plain new = true -> splitext new = (base, ext) ->
  List.length (here fsys) < fuel ->
  exists c, next_free (os_path_exists fsys) base ext fuel 2 = Some c.
Proof.
  intros W Hn E Hlen. apply (next_free_total _ _ _ (map fst (here fsys))).
  - intros j _ T. apply exists_In_names; try assumption.
    now apply (candidate_plain new).
  - now rewrite length_map.
Qed.

(** X22.  The planning loop of [fix_dpp_filenames.main] always finishes:
    the search [while os.path.exists(candidate)] ends within as many turns
    as the directory has entries, so with more fuel than that a plan is
    produced for every list of targets. *)
Theorem fix_planning_terminates (U : runtime) (fsys : filesystem) (fuel : nat)
    (targets : list str) :
  runtime_laws U -> well_formed fsys ->
  List.length (here fsys) < fuel ->
  exists rename_map,
    fix_dpp_filenames.build_rename_map U fsys fuel targets [] = Some rename_map.
Proof.
  intros L W Hlen. generalize (@nil (str * str)).
  induction targets as [|old rest IH]; intros rm0;
    cbn [fix_dpp_filenames.build_rename_map]; [now exists rm0|].
  assert (exists new, fix_dpp_filenames.plan_target U fsys fuel old = Some new)
    as (new & ->).
  { unfold fix_dpp_filenames.plan_target.
    destruct (negb (str_eqb (slugify_filename U old) old)
              && os_path_exists fsys (slugify_filename U old));
      [|eexists; reflexivity].
    destruct (splitext (slugify_filename U old)) as [base ext] eqn:E.
    apply (next_free_in_directory fsys (slugify_filename U old)); try assumption.
    now apply slugify_plain. }
  apply IH.
Qed.

Lemma fix_planning_terminates_witness :
  exists rename_map,
    fix_dpp_filenames.build_rename_map py_latin sample_fs 5
      [lit "Report (final).html"; lit "Report (FINAL).html"] [] = Some rename_map.
Proof.
  apply (fix_planning_terminates py_latin sample_fs 5 _ py_latin_laws);
    [constructor; reflexivity | cbn; lia].
Defined.

(** X23.  The search of the rename loop of [dpp_cleanup.main] always
    finishes as well: with more fuel than the directory has entries, one
    turn of the loop never stops for lack of fuel. *)
Theorem cleanup_rename_terminates (fuel : nat) (old new : str) (w : world) :
  well_formed (fs w) -> plain new = true ->
  List.length (here (fs w)) < fuel ->
  fst (dpp_cleanup.rename_one fuel old new w) <> Stop OutOfFuel.
Proof.
  intros W Hn Hlen. unfold dpp_cleanup.rename_one.
  destruct (str_eqb old new); [discriminate|].
  unfold bind at 1. unfold print at 1. unfold bind at 1. unfold get_fs at 1.
  cbn [fs stdout].
  assert (forall s d w0, fst (os_rename s d w0) <> Stop OutOfFuel) as Hr.
  { intros s d w0. unfold os_rename, bind, get_fs, set_here, halt, ret.
    repeat match goal with
           | |- context [match ?x with _ => _ end] => destruct x
           end; discriminate. }
  destruct (os_path_exists (fs w) new); [|apply Hr].
  destruct (splitext new) as [base ext] eqn:E.
  destruct (next_free_in_directory (fs w) new base ext fuel W Hn E Hlen) as (c & ->).
  unfold bind, print. apply Hr.
Qed.

Lemma cleanup_rename_terminates_witness :
  fst (dpp_cleanup.rename_one 5 (lit "Report (final).html") (lit "notes.txt")
         (world_of sample_fs)) <> Stop OutOfFuel.
Proof.
  apply cleanup_rename_terminates; [constructor; reflexivity | reflexivity | cbn; lia].
Defined.

(** ** Absolute paths below the working directory *)

Lemma cwd_slash_absolute (fsys : filesystem) :
  well_formed fsys ->
  exists t, cwd_slash fsys = ch_slash :: t /\
            List.length (cwd fsys) <= List.length (cwd_slash fsys).
Proof.
  intros [Habs _]. unfold cwd_slash, os_path_join.
  change (startswith (lit "/") []) with false. cbv iota.
  destruct (cwd fsys) as [|c t]; [discriminate|].
  change (lit "/") with [47%N] in Habs. cbn [startswith] in Habs.
  apply andb_true_iff in Habs as [Hc _]. apply N.eqb_eq in Hc. subst c.
  destruct (endswith (lit "/") (47%N :: t)).
  - exists (t ++ []). split; [reflexivity|]. rewrite app_nil_r. lia.
  - exists (t ++ lit "/" ++ []). split; [reflexivity|].
    cbn [app List.length]. rewrite length_app. lia.
Qed.

Lemma join_under (fsys : filesystem) (rel : str) :
  well_formed fsys -> startswith (lit "/") rel = false ->
  os_path_join (cwd fsys) rel = cwd_slash fsys ++ rel.
Proof.
  intros [Habs _] H. unfold cwd_slash, os_path_join. rewrite H.
  change (startswith (lit "/") []) with false. cbv iota.
  destruct (cwd fsys) as [|c t]; [discriminate|].
  destruct (endswith (lit "/") (c :: t)); rewrite app_nil_r;
    [reflexivity | now rewrite <- app_assoc].
Qed.

Lemma str_eqb_length (a b : str) :
  List.length a <> List.length b -> str_eqb a b = false.
Proof.
  intros H. apply str_eqb_neq. intros ->. now apply H.
Qed.

Lemma resolve_under (fsys : filesystem) (rel : str) :
  well_formed fsys -> rel <> [] ->
  resolve fsys (cwd_slash fsys ++ rel)
  = if forallb proper (split_slash rel) then Some (split_slash rel) else None.
Proof.
  intros W Hne. destruct (cwd_slash_absolute fsys W) as (t & E & Hlen).
  unfold resolve.
  rewrite str_eqb_length
    by (rewrite length_app; destruct rel; [now elim Hne | cbn [List.length]; lia]).
  assert (startswith (lit "/") (cwd_slash fsys ++ rel) = true) as ->.
  { rewrite E. change (lit "/") with [47%N]. cbn [app startswith].
    now rewrite N.eqb_refl. }
  fold (cwd_slash fsys). now rewrite strip_prefix_here.
Qed.

Lemma split_slash_app (a b : str) :
  ~ In ch_slash a -> split_slash (a ++ ch_slash :: b) = a :: split_slash b.
Proof.
  induction a as [|c t IH]; intros H.
  - reflexivity.
  - cbn [app split_slash].
    assert (is_slash c = false) as ->
      by (apply N.eqb_neq; intros ->; apply H; now left).
    rewrite IH by (intros Hin; apply H; now right). reflexivity.
Qed.

Lemma plain_not_absolute (n : str) :
  plain n = true -> startswith (lit "/") n = false.
Proof.
  intros H. destruct (plain_parts n H) as (_ & Hs & Hne).
  destruct n as [|c t]; [now elim Hne|].
  change (lit "/") with [47%N]. cbn [startswith].
  assert (N.eqb 47 c = false) as -> by (apply N.eqb_neq; intros <-; apply Hs; now left).
  reflexivity.
Qed.

Lemma resolve_in_cwd (fsys : filesystem) (n : str) :
  well_formed fsys -> plain n = true ->
  resolve fsys (os_path_join (cwd fsys) n) = Some [n].
Proof.
  intros W Hn. destruct (plain_parts n Hn) as (Hp & Hs & Hne).
  rewrite (join_under fsys n W (plain_not_absolute n Hn)).
  rewrite (resolve_under fsys n W Hne), (split_slash_plain n Hs).
  cbn [forallb]. now rewrite Hp.
Qed.

Lemma endswith_app (x : N) (a b : str) :
  b <> [] -> endswith [x] (a ++ b) = endswith [x] b.
Proof.
  intros Hb. unfold endswith. rewrite rev_app_distr.
  destruct (rev b) as [|y r] eqn:E.
  - apply (f_equal (@rev N)) in E. rewrite rev_involutive in E. now elim Hb.
  - reflexivity.
Qed.

Lemma quarantined_join (fsys : filesystem) (n : str) :
  well_formed fsys -> plain n = true ->
  os_path_join (os_path_join (cwd fsys) OLD_DIR) n = quarantined fsys n.
Proof.
  intros W Hn. rewrite (join_under fsys OLD_DIR W eq_refl).
  unfold os_path_join at 1. rewrite (plain_not_absolute n Hn).
  destruct (cwd_slash fsys ++ OLD_DIR) as [|c t] eqn:E.
  { apply app_eq_nil in E as [_ E]. discriminate. }
  rewrite <- E. change (lit "/") with [47%N] at 1.
  rewrite (endswith_app 47 (cwd_slash fsys) OLD_DIR) by discriminate.
  change (endswith [47%N] OLD_DIR) with false. cbv iota.
  unfold quarantined. now rewrite <- app_assoc.
Qed.

Lemma plain_old_dir : plain OLD_DIR = true.
Proof. reflexivity. Qed.

Lemma resolve_quarantined (fsys : filesystem) (n : str) :
  well_formed fsys -> plain n = true ->
  resolve fsys (quarantined fsys n) = Some [OLD_DIR; n].
Proof.
  intros W Hn. destruct (plain_parts n Hn) as (Hp & Hs & Hne).
  unfold quarantined. rewrite (resolve_under fsys _ W) by discriminate.
  change (lit "/" ++ n) with (ch_slash :: n).
  rewrite split_slash_app, (split_slash_plain n Hs)
    by (intros Hin; vm_compute in Hin; intuition discriminate).
  cbn [forallb]. rewrite Hp. reflexivity.
Qed.

Lemma rfind_app (x : N) (a b : str) :
  rfind x (a ++ b)
  = match rfind x b with
    | Some j => Some (List.length a + j)
    | None => rfind x a
    end.
Proof.
  induction a as [|c t IH]; cbn [app rfind List.length].
  - now destruct (rfind x b).
  - rewrite IH. now destruct (rfind x b).
Qed.

Lemma rfind_lt (x : N) (s : str) (i : nat) :
  rfind x s = Some i -> i < List.length s.
Proof.
  revert i. induction s as [|c t IH]; intros i; cbn [rfind List.length];
    [discriminate|].
  destruct (rfind x t) as [j|].
  - intros H. injection H as <-. specialize (IH j eq_refl). lia.
  - destruct (N.eqb c x); [|discriminate]. intros H. injection H as <-. lia.
Qed.

(** [os.path.splitext] looks at the last component only. *)
Lemma splitext_in_dir (dir c : str) :
  ~ In ch_slash c ->
  splitext (dir ++ ch_slash :: c)
  = (dir ++ ch_slash :: fst (splitext c), snd (splitext c)).
Proof.
  intros Hs.
  change (dir ++ ch_slash :: c) with (dir ++ [ch_slash] ++ c).
  rewrite app_assoc. set (A := dir ++ [ch_slash]).
  assert (List.length A = S (List.length dir)) as LA
    by (unfold A; rewrite length_app; cbn [List.length]; lia).
  assert (dir ++ ch_slash :: fst (splitext c) = A ++ fst (splitext c)) as ->
    by (unfold A; now rewrite <- app_assoc).
  unfold splitext.
  assert (rfind ch_slash (A ++ c) = Some (List.length dir)) as ->.
  { unfold A. rewrite <- app_assoc. now apply rfind_app_last. }
  rewrite (rfind_absent ch_slash c Hs), (rfind_app ch_dot A c).
  destruct (rfind ch_dot c) as [j|] eqn:Ej.
  - assert (Nat.ltb (List.length A + j) (S (List.length dir)) = false) as ->
      by (apply Nat.ltb_ge; lia).
    assert (Nat.ltb j 0 = false) as -> by reflexivity.
    replace (List.length A + j - S (List.length dir)) with j by lia.
    rewrite <- LA, skipn_app, skipn_all, Nat.sub_diag, Nat.sub_0_r.
    cbn [skipn app].
    destruct (existsb (fun c0 : N => negb (N.eqb c0 ch_dot)) (firstn j c));
      cbn [fst snd]; [|reflexivity].
    rewrite firstn_app, skipn_app, firstn_all2, skipn_all2 by lia.
    replace (List.length A + j - List.length A) with j by lia.
    reflexivity.
  - cbn [fst snd]. destruct (rfind ch_dot A) as [d|] eqn:Ed; [|reflexivity].
    apply rfind_lt in Ed.
    assert (Nat.ltb d (S (List.length dir)) = true) as ->
      by (apply Nat.ltb_lt; lia).
    reflexivity.
Qed.

Lemma get_at_quarantined (d : directory) (n : str) :
  get_at d [OLD_DIR; n]
  = match lookup OLD_DIR d with
    | Some (Dir od) => lookup n od
    | _ => None
    end.
Proof.
  cbn [get_at]. destruct (lookup OLD_DIR d) as [[b | od]|]; try reflexivity.
  now destruct (lookup n od).
Qed.

Lemma exists_quarantined (fsys : filesystem) (n : str) :
  well_formed fsys -> plain n = true ->
  os_path_exists fsys (quarantined fsys n)
  = match lookup OLD_DIR (here fsys) with
    | Some (Dir od) => match lookup n od with Some _ => true | None => false end
    | _ => false
    end.
Proof.
  intros W Hn. unfold os_path_exists, node_at.
  rewrite (resolve_quarantined fsys n W Hn), get_at_quarantined.
  destruct (lookup OLD_DIR (here fsys)) as [[b | od]|]; try reflexivity.
Qed.

Lemma isdir_fresh (fsys : filesystem) (p : str) (pl : place) :
  resolve fsys p = Some pl -> os_path_exists fsys p = false ->
  os_path_isdir fsys p = false.
Proof.
  unfold os_path_exists, os_path_isdir, node_at. intros ->.
  now destruct (get_at (here fsys) pl).
Qed.

(** The candidates of the quarantine loop are names inside [OLD_FILES]. *)
Lemma quarantined_candidate (fsys : filesystem) (c base ext : str) (j : nat) :
  plain c = true -> splitext (quarantined fsys c) = (base, ext) ->
  exists cb ce,
    splitext c = (cb, ce) /\
    base ++ lit "-" ++ str_of_nat j ++ ext
    = quarantined fsys (cb ++ lit "-" ++ str_of_nat j ++ ce).
Proof.
  intros Hc. destruct (plain_parts c Hc) as (_ & Hs & _).
  unfold quarantined. rewrite app_assoc.
  change (lit "/" ++ c) with (ch_slash :: c).
  rewrite (splitext_in_dir _ c Hs).
  destruct (splitext c) as [cb ce]. cbn [fst snd].
  intros H. injection H as <- <-. exists cb, ce. split; [reflexivity|].
  rewrite <- !app_assoc. reflexivity.
Qed.

(** ** The quarantine of [dpp_cleanup.py] *)

(** The destination chosen for a conflict is a free name inside
    [OLD_FILES]. *)
Lemma quarantine_destination (fsys : filesystem) (fuel : nat) (c dst' : str) :
  well_formed fsys -> plain c = true ->
  quarantine_target fsys fuel c = Some dst' ->
  exists n', plain n' = true /\ dst' = quarantined fsys n' /\
             os_path_exists fsys dst' = false /\
             (starts_alnum c = true -> starts_alnum n' = true).
Proof.
  intros W Hc. unfold quarantine_target.
  destruct (os_path_exists fsys (quarantined fsys c)) eqn:Ex.
  - intros Nf. destruct (next_free_spec _ _ _ _ _ _ Nf) as (Hfree & j & _ & Ec).
    destruct (quarantined_candidate fsys c _ _ j Hc (surjective_pairing _))
      as (cb & ce & Esp & Eq).
    exists (cb ++ lit "-" ++ str_of_nat j ++ ce).
    split; [now apply (candidate_plain c)|].
    split; [now rewrite Ec|]. split; [assumption|].
    intros Ha. now apply (candidate_starts_alnum c).
  - intros H. injection H as <-. exists c. auto.
Qed.

Lemma quarantine_search_ends (fsys : filesystem) (fuel : nat) (c : str) (od : directory) :
  well_formed fsys -> plain c = true ->
  lookup OLD_DIR (here fsys) = Some (Dir od) -> List.length od < fuel ->
  exists dst', quarantine_target fsys fuel c = Some dst'.
Proof.
  intros W Hc Ho Hlen. unfold quarantine_target.
  destruct (os_path_exists fsys (quarantined fsys c)); [|eexists; reflexivity].
  apply (next_free_total _ _ _ (map (quarantined fsys) (map fst od)));
    [|now rewrite !length_map].
  intros j _ T.
  destruct (quarantined_candidate fsys c _ _ j Hc (surjective_pairing _))
    as (cb & ce & Esp & Eq).
  rewrite Eq in T |- *.
  rewrite (exists_quarantined fsys _ W (candidate_plain c cb ce j Hc Esp)), Ho in T.
  apply in_map.
  destruct (lookup (cb ++ lit "-" ++ str_of_nat j ++ ce) od) as [y|] eqn:E;
    [|discriminate].
  exact (lookup_In _ _ _ E).
Qed.

(** What [shutil.move] into the quarantine does. *)
Lemma move_to_quarantine (w : world) (c n' : str) :
  well_formed (fs w) -> plain c = true -> c <> OLD_DIR -> plain n' = true ->
  os_path_exists (fs w) (quarantined (fs w) n') = false ->
  shutil_move (os_path_join (cwd (fs w)) c) (quarantined (fs w) n') w
  = match lookup c (here (fs w)), lookup OLD_DIR (here (fs w)) with
    | Some x, Some (Dir od) =>
        (Ok tt,
         {| fs := with_here (fs w)
                    (bind_entry OLD_DIR (Dir (bind_entry n' x od))
                       (remove c (here (fs w))));
            stdout := stdout w |})
    | _, _ => (Stop (Raised FileNotFoundError), w)
    end.
Proof.
  intros W Hc Hne Hn Hfree.
  pose proof (resolve_quarantined (fs w) n' W Hn) as Rd.
  unfold shutil_move, bind at 1. unfold get_fs at 1.
  rewrite (isdir_fresh _ _ _ Rd Hfree).
  unfold os_rename, bind, get_fs.
  rewrite (resolve_in_cwd (fs w) c W Hc), Rd, get_at_single.
  destruct (lookup c (here (fs w))) as [x|] eqn:Lc; [|reflexivity].
  change (place_eqb [c] [OLD_DIR; n']) with false. cbv iota.
  assert (get_at (here (fs w)) [OLD_DIR; n'] = None) as G.
  { unfold os_path_exists, node_at in Hfree. rewrite Rd in Hfree.
    now destruct (get_at (here (fs w)) [OLD_DIR; n']). }
  rewrite G.
  assert (put_at (here (fs w)) [c] None = Some (remove c (here (fs w)))) as ->
    by reflexivity.
  assert (put_at (remove c (here (fs w))) [OLD_DIR; n'] (Some x)
          = match lookup OLD_DIR (here (fs w)) with
            | Some (Dir od) =>
                Some (bind_entry OLD_DIR (Dir (bind_entry n' x od))
                        (remove c (here (fs w))))
            | _ => None
            end) as ->.
  { cbn [put_at]. rewrite lookup_remove_other by (intros E; now apply Hne).
    now destruct (lookup OLD_DIR (here (fs w))) as [[b | od]|]. }
  destruct x as [b | d];
    destruct (lookup OLD_DIR (here (fs w))) as [[b' | od]|]; reflexivity.
Qed.

Lemma quarantine_run (fuel : nat) (c : str) (w : world) :
  well_formed (fs w) -> plain c = true ->
  dpp_cleanup.quarantine fuel c w
  = match quarantine_target (fs w) fuel c with
    | None => (Stop OutOfFuel, w)
    | Some dst =>
        shutil_move (os_path_join (cwd (fs w)) c) dst
          {| fs := fs w;
             stdout := stdout w ++ [lit "Moving: " ++ os_path_join (cwd (fs w)) c
                                      ++ lit "  ->  " ++ dst] |}
    end.
Proof.
  intros W Hc. unfold dpp_cleanup.quarantine, quarantine_target.
  unfold bind at 1. unfold get_fs at 1.
  rewrite (quarantined_join (fs w) c W Hc).
  destruct (splitext (quarantined (fs w) c)) as [base ext]. cbn [fst snd].
  destruct (if os_path_exists (fs w) (quarantined (fs w) c)
            then next_free (os_path_exists (fs w)) base ext fuel 2
            else Some (quarantined (fs w) c)); reflexivity.
Qed.

(** X24.  The quarantine of [dpp_cleanup.main] secures a conflicting entry
    without overwriting anything.  With [OLD_FILES] in place, the entry
    [c] leaves the working directory and arrives, as it is, in [OLD_FILES]
    under a name that was free there ([c] itself or a numbered variant of
    it, found whenever the fuel exceeds the number of entries of
    [OLD_FILES]); what [OLD_FILES] held before is still there, and no
    other entry of the working directory changes. *)
Theorem quarantine_moves (fuel : nat) (c : str) (w : world) (x : node)
    (od : directory) :
  well_formed (fs w) -> plain c = true -> c <> OLD_DIR ->
  lookup c (here (fs w)) = Some x ->
  lookup OLD_DIR (here (fs w)) = Some (Dir od) ->
  List.length od < fuel ->
  let r := dpp_cleanup.quarantine fuel c w in
  let after := here (fs (snd r)) in
  fst r = Ok tt /\
  lookup c after = None /\
  (exists n' od', lookup OLD_DIR after = Some (Dir od') /\
                  lookup n' od = None /\ lookup n' od' = Some x /\
                  forall m y, lookup m od = Some y -> lookup m od' = Some y) /\
  (forall n, n <> c -> n <> OLD_DIR -> lookup n after = lookup n (here (fs w))).
Proof.
  intros W Hc Hne Lc Lo Hlen.
  destruct (quarantine_search_ends (fs w) fuel c od W Hc Lo Hlen) as (dst & T).
  destruct (quarantine_destination (fs w) fuel c dst W Hc T)
    as (n' & Hn & -> & Hfree & _).
  pose proof Hfree as Hfree'.
  rewrite (exists_quarantined (fs w) n' W Hn), Lo in Hfree'.
  assert (lookup n' od = None) as Ln by (now destruct (lookup n' od)).
  cbv zeta. rewrite (quarantine_run fuel c w W Hc), T.
  set (w1 := {| fs := fs w; stdout := _ |}).
  change (fs w) with (fs w1).
  rewrite (move_to_quarantine w1 c n') by assumption.
  cbn [w1 fs stdout]. rewrite Lc, Lo. cbn [fst snd fs here with_here].
  assert (OLD_DIR <> c) as Hne' by (intros E; now apply Hne).
  split; [reflexivity|]. split; [|split].
  - rewrite lookup_bind_other by (intros E; now apply Hne).
    apply lookup_remove_same.
  - exists n', (bind_entry n' x od).
    split; [apply lookup_bind_same|]. split; [assumption|].
    split; [apply lookup_bind_same|].
    intros m y Hm. rewrite lookup_bind_other; [assumption|].
    intros ->. congruence.
  - intros n H1 H2. rewrite lookup_bind_other by assumption.
    now apply lookup_remove_other.
Qed.

Lemma quarantine_moves_witness :
  lookup (lit "report.html")
    (here (fs (snd (dpp_cleanup.quarantine 3 (lit "report.html")
                      (world_of conflict_fs)))))
  = None.
Proof.
  refine (proj1 (proj2 (quarantine_moves 3 (lit "report.html")
            (world_of conflict_fs) (File (lit "old"))
            [(lit "report.html", File (lit "older"))] _ _ _ _ _ _)));
    try reflexivity.
  - constructor; reflexivity.
  - discriminate.
  - cbn. lia.
Defined.

(** ** [dpp_cleanup.main] loses no file *)

Lemma kept_with_here (b : bytes) (fsys : filesystem) (d : directory) :
  kept b fsys ->
  forallb plain (map fst d) = true ->
  (forall n, n <> DASHBOARD_FILE -> lookup n (here fsys) = Some (File b) ->
     (exists n', n' <> DASHBOARD_FILE /\ lookup n' d = Some (File b)) \/
     (exists od n', lookup OLD_DIR d = Some (Dir od) /\ lookup n' od = Some (File b))) ->
  (forall od n, lookup OLD_DIR (here fsys) = Some (Dir od) ->
     lookup n od = Some (File b) ->
     exists od' n', lookup OLD_DIR d = Some (Dir od') /\ lookup n' od' = Some (File b)) ->
  kept b (with_here fsys d).
Proof.
  intros [W K] Hd H1 H2. split; [now apply well_formed_with_here|].
  cbn [here with_here].
  destruct K as [(n & Hn & L) | (od & n & Lo & L)].
  - exact (H1 n Hn L).
  - right. exact (H2 od n Lo L).
Qed.

Lemma keeps_makedirs (b : bytes) : keeps (kept b) (os_makedirs OLD_DIR).
Proof.
  intros w K. pose proof K as [W _].
  unfold os_makedirs, bind, get_fs.
  rewrite (resolve_plain _ _ W plain_old_dir). cbn [makedirs_at].
  destruct (lookup OLD_DIR (here (fs w))) as [[b0 | d0]|] eqn:Lo;
    [exact K | |]; unfold set_here; cbn [snd fs].
  - apply kept_with_here; [assumption | apply names_bind; [reflexivity | apply W] | |].
    + intros n Hn L. left. exists n. split; [assumption|].
      rewrite lookup_bind_other; [assumption | intros ->; congruence].
    + intros od n Lo' L. exists od, n. split; [|assumption].
      rewrite lookup_bind_same. congruence.
  - apply kept_with_here; [assumption | apply names_bind; [reflexivity | apply W] | |].
    + intros n Hn L. left. exists n. split; [assumption|].
      rewrite lookup_bind_other; [assumption | intros ->; congruence].
    + intros od n Lo' L. congruence.
Qed.

Lemma starts_alnum_not_old_dir (c : str) : starts_alnum c = true -> c <> OLD_DIR.
Proof. intros H ->. discriminate. Qed.

Lemma starts_alnum_not_dashboard (c : str) :
  starts_alnum c = true -> c <> DASHBOARD_FILE.
Proof. intros H ->. discriminate. Qed.

Lemma keeps_quarantine (b : bytes) (fuel : nat) (c : str) :
  plain c = true -> c <> OLD_DIR ->
  keeps (kept b) (dpp_cleanup.quarantine fuel c).
Proof.
  intros Hc Hne w K. pose proof K as [W _].
  rewrite (quarantine_run fuel c w W Hc).
  destruct (quarantine_target (fs w) fuel c) as [dst|] eqn:T; [|exact K].
  destruct (quarantine_destination (fs w) fuel c dst W Hc T)
    as (n' & Hn & -> & Hfree & _).
  pose proof Hfree as Hfree'.
  rewrite (exists_quarantined (fs w) n' W Hn) in Hfree'.
  set (w1 := {| fs := fs w; stdout := _ |}).
  change (fs w) with (fs w1).
  rewrite (move_to_quarantine w1 c n') by assumption.
  cbn [w1 fs stdout].
  destruct (lookup c (here (fs w))) as [x|] eqn:Lc; [|exact K].
  destruct (lookup OLD_DIR (here (fs w))) as [[b0 | od]|] eqn:Lo;
    [exact K | | exact K].
  assert (lookup n' od = None) as Ln by (now destruct (lookup n' od)).
  cbn [snd fs].
  apply kept_with_here; [assumption | | |].
  - apply names_bind; [reflexivity|]. apply names_remove. apply W.
  - intros n Hnd L.
    destruct (list_eq_dec N.eq_dec n c) as [-> | Hnc].
    + right. exists (bind_entry n' x od), n'.
      rewrite !lookup_bind_same. split; congruence.
    + left. exists n. split; [assumption|].
      rewrite lookup_bind_other by (intros ->; congruence).
      now rewrite lookup_remove_other.
  - intros od0 n Lo' L. exists (bind_entry n' x od), n.
    split; [apply lookup_bind_same|].
    rewrite Lo in Lo'. injection Lo' as <-.
    rewrite lookup_bind_other; [assumption | intros ->; congruence].
Qed.

Lemma cleanup_rename_one_target (fuel : nat) (old new : str) (w : world) :
  well_formed (fs w) -> plain old = true -> plain new = true ->
  starts_alnum new = true ->
  exists target,
    plain target = true /\
    (target = old \/
     (lookup target (here (fs w)) = None /\ starts_alnum target = true)) /\
    fs (snd (dpp_cleanup.rename_one fuel old new w))
      = with_here (fs w) (snd (rename_in (here (fs w)) old target)).
Proof.
  intros W Ho Hn Ha.
  assert (snd (rename_in (here (fs w)) old old) = here (fs w)) as Same.
  { unfold rename_in. rewrite str_eqb_refl.
    now destruct (lookup old (here (fs w))). }
  unfold dpp_cleanup.rename_one.
  destruct (str_eqb old new) eqn:E.
  - exists old. split; [assumption|]. split; [now left|].
    rewrite Same. unfold ret. cbn [snd]. now rewrite with_here_here.
  - unfold bind, print, get_fs. cbn [fs stdout].
    rewrite (exists_plain _ _ W Hn).
    destruct (lookup new (here (fs w))) as [y|] eqn:Ln.
    + destruct (splitext new) as [base ext] eqn:Esp.
      destruct (next_free (os_path_exists (fs w)) base ext fuel 2) as [cand|] eqn:Nf.
      * destruct (next_free_spec _ _ _ _ _ _ Nf) as (Hfree & j & _ & Ec).
        assert (plain cand = true) as Hc
          by (rewrite Ec; now apply (candidate_plain new)).
        rewrite (exists_plain _ _ W Hc) in Hfree.
        exists cand. split; [assumption|]. split.
        { right. split; [now destruct (lookup cand (here (fs w)))|].
          rewrite Ec. now apply (candidate_starts_alnum new). }
        cbn [fs stdout]. rewrite os_rename_plain by assumption. reflexivity.
      * exists old. split; [assumption|]. split; [now left|].
        rewrite Same. unfold halt. cbn [snd fs]. now rewrite with_here_here.
    + exists new. split; [assumption|]. split; [now right|].
      rewrite os_rename_plain by assumption. reflexivity.
Qed.

Lemma keeps_rename_one (b : bytes) (fuel : nat) (old new : str) :
  plain old = true -> plain new = true -> starts_alnum new = true ->
  old <> OLD_DIR ->
  keeps (kept b) (dpp_cleanup.rename_one fuel old new).
Proof.
  intros Ho Hn Ha Hne w K. pose proof K as [W _].
  destruct (cleanup_rename_one_target fuel old new w W Ho Hn Ha)
    as (target & Pt & Ht & ->).
  destruct Ht as [-> | [Lt At]].
  - assert (snd (rename_in (here (fs w)) old old) = here (fs w)) as ->.
    { unfold rename_in. rewrite str_eqb_refl.
      now destruct (lookup old (here (fs w))). }
    now rewrite with_here_here.
  - destruct (rename_in_fresh_keeps (here (fs w)) old target (or_introl Lt))
      as [K1 _].
    apply kept_with_here; [assumption | | |].
    + apply rename_in_names; [assumption | apply W].
    + intros n Hnd L. left.
      destruct (list_eq_dec N.eq_dec n old) as [-> | Hno].
      * exists target. split; [now apply starts_alnum_not_dashboard|].
        rewrite (rename_in_fresh _ _ _ _ L Lt). cbn [snd]. apply lookup_bind_same.
      * exists n. split; [assumption|]. now apply K1.
    + intros od n Lo L. exists od, n. split; [|assumption].
      apply K1; [|assumption]. intros E. now apply Hne.
Qed.

Lemma keeps_update_dashboard (b : bytes) (U : runtime) (dashboard_html : str)
    (start end_ : nat) (body : str) (mapping_for_block : dict) (done : str) :
  keeps (kept b)
    (update_dashboard U dashboard_html start end_ body mapping_for_block done).
Proof.
  intros w K. pose proof K as [W _].
  assert (DASHBOARD_FILE ++ BACKUP_SUFFIX <> DASHBOARD_FILE) as Hbd by discriminate.
  assert (DASHBOARD_FILE ++ BACKUP_SUFFIX <> OLD_DIR) as Hbo by discriminate.
  assert (DASHBOARD_FILE <> OLD_DIR) as Hdo by discriminate.
  (* writing the dashboard keeps what is kept *)
  assert (forall w0 s, kept b (fs w0) ->
            kept b (fs (snd (bind (write_text U DASHBOARD_FILE s)
                               (fun _ => print done) w0)))) as Hwrite.
  { intros w0 s K0. pose proof K0 as [W0 _].
    unfold bind, write_text. rewrite (write_bytes_plain w0 _ _ W0 plain_dashboard).
    destruct (lookup DASHBOARD_FILE (here (fs w0))) as [[b0 | d0]|];
      [| exact K0 |]; unfold print; cbn [snd fs];
      (apply kept_with_here;
       [assumption | apply names_bind; [reflexivity | apply W0] | |]);
      try (intros n Hn L; left; exists n; split; [assumption|];
           now rewrite lookup_bind_other);
      intros od n Lo L; exists od, n; split; try assumption;
      rewrite lookup_bind_other; try assumption; intros E; now apply Hdo. }
  unfold update_dashboard. unfold bind at 1. unfold get_fs at 1.
  rewrite (exists_plain _ _ W plain_backup).
  destruct (lookup (DASHBOARD_FILE ++ BACKUP_SUFFIX) (here (fs w))) as [y|] eqn:Lb;
    cbn [negb].
  - unfold bind at 1. unfold ret at 1. now apply Hwrite.
  - unfold bind at 1 2.
    rewrite (shutil_copy2_fresh w _ _ W plain_dashboard plain_backup Lb).
    destruct (lookup DASHBOARD_FILE (here (fs w))) as [[b0 | d0]|] eqn:Ld;
      [| exact K | exact K].
    unfold print at 1. cbn [fs stdout]. apply Hwrite. cbn [fs].
    apply kept_with_here; [assumption | apply names_bind; [reflexivity | apply W] | |].
    + intros n Hn L. left. exists n. split; [assumption|].
      rewrite lookup_bind_other; [assumption | intros ->; congruence].
    + intros od n Lo L. exists od, n. split; [|assumption].
      rewrite lookup_bind_other; [assumption | intros E; now apply Hbo].
Qed.

Lemma is_html_name_old_dir (U : runtime) :
  runtime_laws U -> is_html_name U OLD_DIR = false.
Proof.
  intros L. unfold is_html_name. now rewrite (lower_inert U L) by reflexivity.
Qed.

Lemma cleanup_plan_facts (U : runtime) (fsys : filesystem) (k v : str) :
  runtime_laws U -> well_formed fsys ->
  In (k, v) (dpp_cleanup.build_rename_map U
               (targets_of (html_files_of U fsys (map fst (here fsys))))) ->
  plain k = true /\ plain v = true /\ starts_alnum v = true /\ k <> OLD_DIR.
Proof.
  intros L W Hin.
  destruct (cleanup_build_In U _ k v Hin) as (Ht & -> & _).
  unfold targets_of, html_files_of in Ht.
  apply filter_In in Ht as [Ht _]. apply filter_In in Ht as [Ht Hf].
  apply andb_true_iff in Hf as [_ Hf].
  split; [now apply (listed_plain fsys)|].
  split; [now apply slugify_plain|].
  split; [apply slugify_starts_alnum|].
  intros ->. rewrite (is_html_name_old_dir U L) in Hf. discriminate.
Qed.

(** X25.  [dpp_cleanup.main] loses no file.  Whatever the directory holds,
    with or without [--dry-run] and however the run ends (normally, by
    [sys.exit], by an exception or for lack of fuel), a regular file that
    was an entry of the working directory other than the dashboard, or an
    entry of [OLD_FILES], is afterwards still an entry of the working
    directory other than the dashboard or an entry of [OLD_FILES], with
    the same bytes. *)
Theorem cleanup_loses_no_file (U : runtime) (fuel : nat) (dry : bool)
    (w : world) (b : bytes) :
  runtime_laws U -> kept b (fs w) ->
  kept b (fs (snd (dpp_cleanup.main U fuel dry w))).
Proof.
  intros L K. pose proof K as [W _].
  unfold dpp_cleanup.main.
  unfold bind at 1. unfold get_fs at 1.
  unfold bind at 1. unfold print at 1. cbn [fs stdout].
  unfold bind at 1. rewrite os_listdir_cwd.
  set (w1 := {| fs := fs w; stdout := _ |}).
  set (html_files := html_files_of U (fs w) (map fst (here (fs w)))).
  destruct (mem DASHBOARD_FILE html_files); cbn [negb]; [|exact K].
  cbv zeta.
  pose proof (cleanup_plan_facts U (fs w)) as Facts. fold html_files in Facts.
  set (rename_map := dpp_cleanup.build_rename_map U (targets_of html_files)) in *.
  set (conflicts := dpp_cleanup.conflicts_of (fs w) rename_map).
  assert (forall c, In c conflicts -> plain c = true /\ c <> OLD_DIR) as Hconf.
  { intros c Hc. unfold conflicts, dpp_cleanup.conflicts_of in Hc.
    apply filter_In in Hc as [Hc _]. apply in_map_iff in Hc as ([k v] & <- & Hin).
    destruct (Facts k v L W Hin) as (_ & P & A & _).
    split; [exact P | now apply starts_alnum_not_old_dir]. }
  match goal with |- kept b (fs (snd (?m ?w0))) =>
    assert (keeps (kept b) m) as KR; [|exact (KR w0 K)] end.
  apply keeps_bind; [apply keeps_read_only; read_only_steps | intros _].
  apply keeps_bind.
  { destruct (negb dry && match conflicts with [] => false | _ :: _ => true end).
    - apply keeps_bind; [apply keeps_makedirs | intros _].
      apply keeps_for_each. intros c Hc. destruct (Hconf c Hc).
      now apply keeps_quarantine.
    - apply keeps_read_only, read_only_ret. }
  intros _.
  apply keeps_bind; [apply keeps_read_only; read_only_steps | intros _].
  apply keeps_bind; [apply keeps_read_only, read_only_read_text | intros html].
  apply keeps_get. intros fsys1 _.
  apply keeps_bind; [apply keeps_read_only; read_only_steps | intros _].
  destruct dry; [apply keeps_read_only; read_only_steps|].
  apply keeps_bind.
  { unfold dpp_cleanup.perform_renames. apply keeps_for_each.
    intros [k v] Hin. destruct (Facts k v L W Hin) as (Pk & Pv & Av & Hk).
    now apply keeps_rename_one. }
  intros _. apply keeps_bind.
  { destruct (find_dpp_urls_block U html) as [[[start end_] body]|];
      [apply keeps_update_dashboard | apply keeps_read_only, read_only_ret]. }
  intros _. apply keeps_read_only. read_only_steps.
Qed.

Lemma cleanup_loses_no_file_witness :
  kept (lit "old")
    (fs (snd (dpp_cleanup.main py_latin 5 false (world_of conflict_fs)))).
Proof.
  apply (cleanup_loses_no_file py_latin 5 false (world_of conflict_fs) (lit "old")
           py_latin_laws).
  split; [constructor; reflexivity|].
  left. exists (lit "report.html"). split; [discriminate | reflexivity].
Defined.

(** ** A shared target in the rename loop of [fix_dpp_filenames.py] *)

(** X26.  The rename loop of [fix_dpp_filenames.main] renames without
    looking: when two files of the plan share a target that was free,
    both calls of [os.rename] succeed, the second replaces the file the
    first has just moved there, and the bytes of the first file are gone
    from the three names. *)
Theorem fix_renames_overwrite (w : world) (old1 old2 new : str) (b1 b2 : bytes) :
  well_formed (fs w) ->
  plain old1 = true -> plain old2 = true -> plain new = true ->
  old1 <> old2 -> new <> old1 -> new <> old2 ->
  lookup old1 (here (fs w)) = Some (File b1) ->
  lookup old2 (here (fs w)) = Some (File b2) ->
  lookup new (here (fs w)) = None ->
  let r := fix_dpp_filenames.perform_renames [(old1, new); (old2, new)] w in
  let after := here (fs (snd r)) in
  fst r = Ok tt /\
  lookup new after = Some (File b2) /\
  lookup old1 after = None /\ lookup old2 after = None /\
  (forall n, n <> old1 -> n <> old2 -> n <> new ->
             lookup n after = lookup n (here (fs w))).
Proof.
  intros W P1 P2 Pn H12 Hn1 Hn2 L1 L2 Ln.
  assert (old2 <> old1) as H21 by (intros E; now apply H12).
  assert (old1 <> new) as H1n by (intros E; now apply Hn1).
  assert (old2 <> new) as H2n by (intros E; now apply Hn2).
  set (d1 := bind_entry new (File b1) (remove old1 (here (fs w)))).
  assert (lookup old2 d1 = Some (File b2)) as L2'.
  { unfold d1. rewrite lookup_bind_other by assumption.
    now rewrite lookup_remove_other. }
  assert (lookup new d1 = Some (File b1)) as Ln' by apply lookup_bind_same.
  assert (exists out,
            fix_dpp_filenames.perform_renames [(old1, new); (old2, new)] w
            = (Ok tt, {| fs := with_here (fs w)
                                 (bind_entry new (File b2) (remove old2 d1));
                         stdout := out |})) as (out & E).
  { unfold fix_dpp_filenames.perform_renames. cbn [for_each fst snd].
    unfold bind at 1 2. unfold print at 1. cbn [fs stdout].
    set (w0 := {| fs := fs w; stdout := _ |}).
    rewrite (os_rename_plain w0 old1 new W P1 Pn). cbn [w0 fs stdout].
    rewrite (rename_in_fresh _ _ _ _ L1 Ln). cbn [fst snd]. fold d1.
    unfold bind at 1 2. unfold print at 1. cbn [fs stdout].
    set (w1 := {| fs := with_here (fs w) d1; stdout := _ |}).
    assert (well_formed (fs w1)) as W1.
    { apply well_formed_with_here; [assumption|].
      apply names_bind; [assumption|]. apply names_remove. apply W. }
    rewrite (os_rename_plain w1 old2 new W1 P2 Pn).
    cbn [w1 fs stdout here with_here].
    assert (rename_in d1 old2 new
            = (Ok tt, bind_entry new (File b2) (remove old2 d1))) as ->.
    { unfold rename_in. rewrite L2', Ln'.
      assert (str_eqb old2 new = false) as -> by now apply str_eqb_neq.
      reflexivity. }
    cbn [fst snd]. unfold ret. eexists. reflexivity. }
  cbv zeta. rewrite E. cbn [fst snd fs here with_here].
  split; [reflexivity|]. split; [apply lookup_bind_same|].
  split; [|split].
  - rewrite lookup_bind_other by assumption.
    rewrite lookup_remove_other by assumption.
    unfold d1. rewrite lookup_bind_other by assumption.
    apply lookup_remove_same.
  - rewrite lookup_bind_other by assumption.
    apply lookup_remove_same.
  - intros n N1 N2 Nn. rewrite lookup_bind_other by assumption.
    rewrite lookup_remove_other by assumption.
    unfold d1. rewrite lookup_bind_other by assumption.
    now apply lookup_remove_other.
Qed.

Lemma fix_renames_overwrite_witness :
  lookup (lit "report-final.html")
    (here (fs (snd (fix_dpp_filenames.perform_renames
                      [(lit "Report (final).html", lit "report-final.html");
                       (lit "Report (FINAL).html", lit "report-final.html")]
                      (world_of sample_fs)))))
  = Some (File (lit "two")).
Proof.
  refine (proj1 (proj2 (fix_renames_overwrite (world_of sample_fs)
            (lit "Report (final).html") (lit "Report (FINAL).html")
            (lit "report-final.html") (lit "one") (lit "two")
            _ _ _ _ _ _ _ _ _ _)));
    try reflexivity; try discriminate.
  constructor; reflexivity.
Defined.

(** ** What [dpp_cleanup.main] leaves alone *)

Lemma entry_with_here (n : str) (x : option node) (fsys : filesystem)
    (d : directory) :
  entry_is n x fsys -> forallb plain (map fst d) = true ->
  lookup n d = lookup n (here fsys) -> entry_is n x (with_here fsys d).
Proof.
  intros [W E] Hd Hl. split; [now apply well_formed_with_here|].
  cbn [here with_here]. congruence.
Qed.

Lemma keeps_entry_makedirs (n : str) (x : option node) :
  n <> OLD_DIR -> keeps (entry_is n x) (os_makedirs OLD_DIR).
Proof.
  intros Hn w K. pose proof K as [W _].
  unfold os_makedirs, bind, get_fs.
  rewrite (resolve_plain _ _ W plain_old_dir). cbn [makedirs_at].
  destruct (lookup OLD_DIR (here (fs w))) as [[b0 | d0]|];
    [exact K | |]; unfold set_here; cbn [snd fs];
    (apply entry_with_here;
     [assumption | apply names_bind; [reflexivity | apply W]
     | now apply lookup_bind_other]).
Qed.

Lemma keeps_entry_quarantine (n : str) (x : option node) (fuel : nat) (c : str) :
  plain c = true -> c <> OLD_DIR -> n <> c -> n <> OLD_DIR ->
  keeps (entry_is n x) (dpp_cleanup.quarantine fuel c).
Proof.
  intros Hc Hne Hnc Hno w K. pose proof K as [W _].
  rewrite (quarantine_run fuel c w W Hc).
  destruct (quarantine_target (fs w) fuel c) as [dst|] eqn:T; [|exact K].
  destruct (quarantine_destination (fs w) fuel c dst W Hc T)
    as (n' & Hn & -> & Hfree & _).
  set (w1 := {| fs := fs w; stdout := _ |}).
  change (fs w) with (fs w1).
  rewrite (move_to_quarantine w1 c n') by assumption.
  cbn [w1 fs stdout].
  destruct (lookup c (here (fs w))) as [y|]; [|exact K].
  destruct (lookup OLD_DIR (here (fs w))) as [[b0 | od]|];
    [exact K | | exact K].
  cbn [snd fs]. apply entry_with_here; [assumption | |].
  - apply names_bind; [reflexivity|]. apply names_remove. apply W.
  - rewrite lookup_bind_other by assumption. now apply lookup_remove_other.
Qed.

Lemma keeps_entry_rename_one (n : str) (y : node) (fuel : nat) (old new : str) :
  plain old = true -> plain new = true -> n <> old ->
  keeps (entry_is n (Some y)) (dpp_cleanup.rename_one fuel old new).
Proof.
  intros Ho Hn Hno w K. pose proof K as [W E].
  destruct (cleanup_rename_one_step fuel old new w W Ho Hn)
    as (target & Pt & Hfresh & ->).
  destruct (rename_in_fresh_keeps (here (fs w)) old target Hfresh) as [K1 _].
  apply entry_with_here; [assumption | |].
  - apply rename_in_names; [assumption | apply W].
  - rewrite E. now apply K1.
Qed.

Lemma keeps_entry_update_dashboard (n : str) (y : node) (U : runtime)
    (dashboard_html : str) (start end_ : nat) (body : str)
    (mapping_for_block : dict) (done : str) :
  n <> DASHBOARD_FILE ->
  keeps (entry_is n (Some y))
    (update_dashboard U dashboard_html start end_ body mapping_for_block done).
Proof.
  intros Hn w K. pose proof K as [W E].
  assert (forall w0 s, entry_is n (Some y) (fs w0) ->
            entry_is n (Some y)
              (fs (snd (bind (write_text U DASHBOARD_FILE s)
                          (fun _ => print done) w0)))) as Hwrite.
  { intros w0 s K0. pose proof K0 as [W0 _].
    unfold bind, write_text. rewrite (write_bytes_plain w0 _ _ W0 plain_dashboard).
    destruct (lookup DASHBOARD_FILE (here (fs w0))) as [[b0 | d0]|];
      [| exact K0 |]; unfold print; cbn [snd fs];
      (apply entry_with_here;
       [assumption | apply names_bind; [reflexivity | apply W0]
       | now apply lookup_bind_other]). }
  unfold update_dashboard. unfold bind at 1. unfold get_fs at 1.
  rewrite (exists_plain _ _ W plain_backup).
  destruct (lookup (DASHBOARD_FILE ++ BACKUP_SUFFIX) (here (fs w))) as [z|] eqn:Lb;
    cbn [negb].
  - unfold bind at 1. unfold ret at 1. now apply Hwrite.
  - unfold bind at 1 2.
    rewrite (shutil_copy2_fresh w _ _ W plain_dashboard plain_backup Lb).
    destruct (lookup DASHBOARD_FILE (here (fs w))) as [[b0 | d0]|];
      [| exact K | exact K].
    unfold print at 1. cbn [fs stdout]. apply Hwrite. cbn [fs].
    apply entry_with_here;
      [assumption | apply names_bind; [reflexivity | apply W] |].
    apply lookup_bind_other. intros ->. congruence.
Qed.

(** An entry that the plan does not name, neither as a file nor as a clean
    name, keeps its node through a run. *)
Lemma cleanup_main_frame (U : runtime) (fuel : nat) (dry : bool) (w : world)
    (n : str) (x : node) :
  runtime_laws U -> well_formed (fs w) ->
  lookup n (here (fs w)) = Some x ->
  n <> DASHBOARD_FILE -> n <> OLD_DIR ->
  (forall k v,
     In (k, v) (dpp_cleanup.build_rename_map U
                  (targets_of (html_files_of U (fs w) (map fst (here (fs w)))))) ->
     n <> k /\ n <> v) ->
  lookup n (here (fs (snd (dpp_cleanup.main U fuel dry w)))) = Some x.
Proof.
  intros L W Hl Hnd Hno Hplan.
  assert (entry_is n (Some x) (fs w)) as K by now split.
  cut (entry_is n (Some x) (fs (snd (dpp_cleanup.main U fuel dry w))));
    [now intros [_ E]|].
  unfold dpp_cleanup.main.
  unfold bind at 1. unfold get_fs at 1.
  unfold bind at 1. unfold print at 1. cbn [fs stdout].
  unfold bind at 1. rewrite os_listdir_cwd.
  set (w1 := {| fs := fs w; stdout := _ |}).
  set (html_files := html_files_of U (fs w) (map fst (here (fs w)))) in *.
  destruct (mem DASHBOARD_FILE html_files); cbn [negb]; [|exact K].
  cbv zeta.
  pose proof (cleanup_plan_facts U (fs w)) as Facts. fold html_files in Facts.
  set (rename_map := dpp_cleanup.build_rename_map U (targets_of html_files)) in *.
  set (conflicts := dpp_cleanup.conflicts_of (fs w) rename_map).
  match goal with |- entry_is _ _ (fs (snd (?m ?w0))) =>
    assert (keeps (entry_is n (Some x)) m) as KR; [|exact (KR w0 K)] end.
  apply keeps_bind; [apply keeps_read_only; read_only_steps | intros _].
  apply keeps_bind.
  { destruct (negb dry && match conflicts with [] => false | _ :: _ => true end).
    - apply keeps_bind; [now apply keeps_entry_makedirs | intros _].
      apply keeps_for_each. intros c Hc.
      unfold conflicts, dpp_cleanup.conflicts_of in Hc.
      apply filter_In in Hc as [Hc _]. apply in_map_iff in Hc as ([k v] & <- & Hin).
      destruct (Facts k v L W Hin) as (_ & P & A & _).
      destruct (Hplan k v Hin) as [_ Hv].
      apply keeps_entry_quarantine; try assumption.
      now apply starts_alnum_not_old_dir.
    - apply keeps_read_only, read_only_ret. }
  intros _.
  apply keeps_bind; [apply keeps_read_only; read_only_steps | intros _].
  apply keeps_bind; [apply keeps_read_only, read_only_read_text | intros html].
  apply keeps_get. intros fsys1 _.
  apply keeps_bind; [apply keeps_read_only; read_only_steps | intros _].
  destruct dry; [apply keeps_read_only; read_only_steps|].
  apply keeps_bind.
  { unfold dpp_cleanup.perform_renames. apply keeps_for_each.
    intros [k v] Hin. destruct (Facts k v L W Hin) as (Pk & Pv & _).
    destruct (Hplan k v Hin) as [Hk _].
    now apply keeps_entry_rename_one. }
  intros _. apply keeps_bind.
  { destruct (find_dpp_urls_block U html) as [[[start end_] body]|];
      [now apply keeps_entry_update_dashboard | apply keeps_read_only, read_only_ret]. }
  intros _. apply keeps_read_only. read_only_steps.
Qed.

(** X27.  [dpp_cleanup.main] leaves alone what is neither in its working
    set nor in its way: an entry of the working directory that is not the
    dashboard, not [OLD_FILES], not a regular file named [*.html] or
    [*.htm], and whose name is not the clean name planned for a file, is
    the same after the run, with or without [--dry-run] and however the
    run ends. *)
Theorem cleanup_leaves_other_entries (U : runtime) (fuel : nat) (dry : bool)
    (w : world) (n : str) (x : node) :
  runtime_laws U -> well_formed (fs w) ->
  lookup n (here (fs w)) = Some x ->
  n <> DASHBOARD_FILE -> n <> OLD_DIR ->
  os_path_isfile (fs w) n && is_html_name U n = false ->
  ~ In n (dict_values
            (dpp_cleanup.build_rename_map U
               (targets_of (html_files_of U (fs w) (map fst (here (fs w))))))) ->
  lookup n (here (fs (snd (dpp_cleanup.main U fuel dry w)))) = Some x.
Proof.
  intros L W Hl Hnd Hno Hout Hval.
  apply cleanup_main_frame; try assumption.
  intros k v Hin. split.
  - intros ->. destruct (cleanup_build_In U _ k v Hin) as (Ht & _).
    unfold targets_of, html_files_of in Ht.
    apply filter_In in Ht as [Ht _]. apply filter_In in Ht as [_ Hf].
    rewrite Hf in Hout. discriminate.
  - intros ->. apply Hval. unfold dict_values.
    apply in_map_iff. now exists (k, v).
Qed.

Lemma cleanup_leaves_other_entries_witness :
  lookup (lit "notes.txt")
    (here (fs (snd (dpp_cleanup.main py_latin 5 false
                      (world_of conflict_fs_with_backup)))))
  = Some (File (lit "n")).
Proof.
  apply (cleanup_leaves_other_entries py_latin 5 false
           (world_of conflict_fs_with_backup) (lit "notes.txt") (File (lit "n"))
           py_latin_laws); try reflexivity; try discriminate.
  - constructor; reflexivity.
  - vm_compute. intuition discriminate.
Defined.

(** X28.  A backup that exists is never overwritten or modified by
    [dpp_cleanup.main] either: the entry
    [RabateksDPPDashboard.html.backup] is the same after the run as
    before. *)
Theorem cleanup_keeps_existing_backup (U : runtime) (fuel : nat) (dry : bool)
    (w : world) (x : node) :
  runtime_laws U -> well_formed (fs w) ->
  lookup (DASHBOARD_FILE ++ BACKUP_SUFFIX) (here (fs w)) = Some x ->
  lookup (DASHBOARD_FILE ++ BACKUP_SUFFIX)
    (here (fs (snd (dpp_cleanup.main U fuel dry w)))) = Some x.
Proof.
  intros L W H.
  apply cleanup_main_frame; try assumption; try discriminate.
  intros k v Hin.
  destruct (cleanup_plan_facts U (fs w) k v L W Hin) as (_ & _ & A & _). split.
  - intros <-. destruct (cleanup_build_In U _ _ v Hin) as (Ht & _).
    unfold targets_of, html_files_of in Ht.
    apply filter_In in Ht as [Ht _]. apply filter_In in Ht as [_ Hf].
    rewrite (is_html_name_backup U L), andb_false_r in Hf. discriminate.
  - intros <-. discriminate.
Qed.

Lemma cleanup_keeps_existing_backup_witness :
  lookup (DASHBOARD_FILE ++ BACKUP_SUFFIX)
    (here (fs (snd (dpp_cleanup.main py_latin 5 false
                      (world_of conflict_fs_with_backup)))))
  = Some (File (lit "older")).
Proof.
  apply (cleanup_keeps_existing_backup py_latin 5 false
           (world_of conflict_fs_with_backup) (File (lit "older")) py_latin_laws);
    [constructor; reflexivity | reflexivity].
Defined.

(** ** The link updates *)

Lemma mapping_step_In (U : runtime) (fsys : filesystem) (rename_map acc : dict)
    (ref k v : str) :
  In (k, v) (mapping_step U fsys rename_map acc ref) ->
  In (k, v) acc \/
  (k = ref /\
   (dict_find rename_map k = Some v \/
    (dict_find rename_map k = None /\ os_path_exists fsys k = true /\
     v = slugify_filename U k /\ v <> k))).
Proof.
  unfold mapping_step, dict_has, dict_get.
  destruct (dict_find rename_map ref) as [t|] eqn:F.
  - intros H. apply In_dict_set in H as [[-> ->] | H]; [|now left].
    right. split; [reflexivity | now left].
  - destruct (os_path_exists fsys ref) eqn:E; [|now left].
    destruct (str_eqb (slugify_filename U ref) ref) eqn:S; cbn [negb]; [now left|].
    intros H. apply In_dict_set in H as [[-> ->] | H]; [|now left].
    right. split; [reflexivity|]. right.
    repeat split; try assumption. now apply str_eqb_neq.
Qed.

(** X29.  Where the entries of [mapping_for_block] come from, in both
    scripts, given that iterating a set visits only elements of the set:
    every key is the content of a string literal of the block (a match of
    [string_val] in [body]), and its value is the name planned for it in
    [rename_map], or, for a literal that is not in the plan, its slug, and
    then only if the literal names something that exists on disk and is
    not its own slug.  A literal that is neither planned nor on disk is
    never rewritten. *)
Theorem mapping_entries (U : runtime) (fsys : filesystem) (rename_map : dict)
    (body k v : str) :
  (forall (l : list str) (x : str), In x (set_iter U l) -> In x l) ->
  In (k, v) (mapping_for U fsys rename_map body) ->
  In k (finditer_vals body) /\
  (dict_find rename_map k = Some v \/
   (dict_find rename_map k = None /\ os_path_exists fsys k = true /\
    v = slugify_filename U k /\ v <> k)).
Proof.
  intros Hset. unfold mapping_for.
  assert (forall refs acc,
            In (k, v) (fold_left (mapping_step U fsys rename_map) refs acc) ->
            In (k, v) acc \/
            (In k refs /\
             (dict_find rename_map k = Some v \/
              (dict_find rename_map k = None /\ os_path_exists fsys k = true /\
               v = slugify_filename U k /\ v <> k)))) as G.
  { induction refs as [|ref refs IH]; intros acc; cbn [fold_left]; [now left|].
    intros H. destruct (IH _ H) as [H0 | [Hin Hc]].
    - destruct (mapping_step_In U fsys rename_map acc ref k v H0)
        as [Ha | [-> Hc]]; [now left|].
      right. split; [now left | assumption].
    - right. split; [now right | assumption]. }
  intros H. destruct (G _ _ H) as [[] | [Hin Hc]].
  split; [now apply Hset | assumption].
Qed.

(** The iteration order of [py_latin] visits only elements of the list. *)
Lemma dedup_In (l : list str) (x : str) : In x (dedup l) -> In x l.
Proof.
  induction l as [|y l IH]; cbn [dedup]; [tauto|].
  intros [-> | H]; [now left|]. right. apply IH.
  apply filter_In in H. tauto.
Qed.

Lemma mapping_entries_witness :
  In (lit "Report (final).html")
     (finditer_vals (lit " 'r': 'Report (final).html', 'x': 'y.html' ")) /\
  (dict_find [(lit "Report (final).html", lit "report-final.html")]
     (lit "Report (final).html") = Some (lit "report-final.html") \/
   (dict_find [(lit "Report (final).html", lit "report-final.html")]
      (lit "Report (final).html") = None /\
    os_path_exists sample_fs (lit "Report (final).html") = true /\
    lit "report-final.html" = slugify_filename py_latin (lit "Report (final).html") /\
    lit "report-final.html" <> lit "Report (final).html")).
Proof.
  apply (mapping_entries py_latin sample_fs
           [(lit "Report (final).html", lit "report-final.html")]
           (lit " 'r': 'Report (final).html', 'x': 'y.html' ")).
  - exact dedup_In.
  - vm_compute. left. reflexivity.
Defined.

(** ** The runs stay inside the working directory *)

Lemma inside_read_only {A : Type} (m : M A) :
  read_only m -> (forall w, fst (m w) <> Stop OutsideModel) -> stays_inside m.
Proof. intros R H w W. split; [now rewrite R | apply H]. Qed.

Lemma inside_ret {A : Type} (a : A) : stays_inside (ret a).
Proof. intros w W. split; [assumption | discriminate]. Qed.

Lemma inside_print (line : str) : stays_inside (print line).
Proof. intros w W. split; [assumption | discriminate]. Qed.

Lemma inside_halt {A : Type} (s : stop) :
  s <> OutsideModel -> stays_inside (@halt A s).
Proof. intros H w W. split; [assumption | cbn; congruence]. Qed.

Lemma inside_bind {A B : Type} (m : M A) (k : A -> M B) :
  stays_inside m -> (forall a, stays_inside (k a)) -> stays_inside (bind m k).
Proof.
  intros Hm Hk w W. unfold bind. destruct (Hm w W) as [W1 N1].
  destruct (m w) as [[a | s] w1]; cbn [fst snd] in *.
  - now apply Hk.
  - split; [assumption|]. intros E. apply N1. now injection E as ->.
Qed.

Lemma inside_get {B : Type} (k : filesystem -> M B) :
  (forall fsys, well_formed fsys -> stays_inside (k fsys)) ->
  stays_inside (bind get_fs k).
Proof. intros H w W. unfold bind, get_fs. now apply H. Qed.

Lemma inside_for_each {A : Type} (l : list A) (body : A -> M unit) :
  (forall x, In x l -> stays_inside (body x)) -> stays_inside (for_each l body).
Proof.
  induction l as [|x l IH]; intros H; cbn [for_each].
  - apply inside_ret.
  - apply inside_bind; [apply H; now left|].
    intros _. apply IH. intros y Hy. apply H. now right.
Qed.

Lemma inside_print_pairs (d : dict) : stays_inside (print_pairs d).
Proof.
  unfold print_pairs. apply inside_for_each. intros x _. apply inside_print.
Qed.

Lemma inside_os_rename (old new : str) :
  plain old = true -> plain new = true -> stays_inside (os_rename old new).
Proof.
  intros Ho Hn w W. rewrite os_rename_plain by assumption. cbn [fst snd fs]. split.
  - apply well_formed_with_here; [assumption|].
    apply rename_in_names; [assumption | apply W].
  - unfold rename_in.
    destruct (lookup old (here (fs w))) as [x|]; [|discriminate].
    destruct (str_eqb old new); [discriminate|].
    destruct x as [b | dx], (lookup new (here (fs w))) as [[b' | [|e dn]]|];
      discriminate.
Qed.

Lemma inside_read_text (U : runtime) (p : str) :
  plain p = true -> stays_inside (read_text U p).
Proof.
  intros Hp w W. unfold read_text, bind. rewrite (read_bytes_plain w p W Hp).
  destruct (lookup p (here (fs w))) as [[b | d]|];
    try (split; [assumption | discriminate]).
  destruct (decode_utf8 U b); split; try assumption; discriminate.
Qed.

Lemma inside_write_text (U : runtime) (p s : str) :
  plain p = true -> stays_inside (write_text U p s).
Proof.
  intros Hp w W. unfold write_text. rewrite (write_bytes_plain w p _ W Hp).
  destruct (lookup p (here (fs w))) as [[b | d]|]; cbn [fst snd fs];
    split; try assumption; try discriminate;
    (apply well_formed_with_here; [assumption|]; apply names_bind;
     [assumption | apply W]).
Qed.

Lemma inside_update_dashboard (U : runtime) (dashboard_html : str)
    (start end_ : nat) (body : str) (mapping_for_block : dict) (done : str) :
  stays_inside
    (update_dashboard U dashboard_html start end_ body mapping_for_block done).
Proof.
  intros w W.
  set (G := fun r : result unit * world =>
             well_formed (fs (snd r)) /\ fst r <> Stop OutsideModel).
  assert (forall s w0, well_formed (fs w0) ->
            G (bind (write_text U DASHBOARD_FILE s) (fun _ => print done) w0))
    as Hwrite.
  { intros s. apply inside_bind; [now apply inside_write_text|].
    intros _. apply inside_print. }
  change (G (update_dashboard U dashboard_html start end_ body
               mapping_for_block done w)).
  unfold update_dashboard. unfold bind at 1. unfold get_fs at 1.
  rewrite (exists_plain _ _ W plain_backup).
  destruct (lookup (DASHBOARD_FILE ++ BACKUP_SUFFIX) (here (fs w))) as [z|] eqn:Lb;
    cbn [negb].
  - unfold bind at 1. unfold ret at 1. now apply Hwrite.
  - unfold bind at 1 2.
    rewrite (shutil_copy2_fresh w _ _ W plain_dashboard plain_backup Lb).
    destruct (lookup DASHBOARD_FILE (here (fs w))) as [[b0 | d0]|];
      try (split; [assumption | discriminate]).
    unfold print at 1. cbn [fs stdout]. apply Hwrite. cbn [fs].
    apply well_formed_with_here; [assumption|].
    apply names_bind; [reflexivity | apply W].
Qed.

Lemma inside_makedirs : stays_inside (os_makedirs OLD_DIR).
Proof.
  intros w W. unfold os_makedirs, bind, get_fs.
  rewrite (resolve_plain _ _ W plain_old_dir). cbn [makedirs_at].
  destruct (lookup OLD_DIR (here (fs w))) as [[b0 | d0]|];
    unfold set_here, halt; cbn [fst snd fs]; split; try assumption;
    try discriminate;
    (apply well_formed_with_here; [assumption|]; apply names_bind;
     [reflexivity | apply W]).
Qed.

Lemma inside_quarantine (fuel : nat) (c : str) :
  plain c = true -> c <> OLD_DIR ->
  stays_inside (dpp_cleanup.quarantine fuel c).
Proof.
  intros Hc Hne w W. rewrite (quarantine_run fuel c w W Hc).
  destruct (quarantine_target (fs w) fuel c) as [dst|] eqn:T;
    [|split; [assumption | discriminate]].
  destruct (quarantine_destination (fs w) fuel c dst W Hc T)
    as (n' & Hn & -> & Hfree & _).
  set (w1 := {| fs := fs w; stdout := _ |}).
  change (fs w) with (fs w1).
  rewrite (move_to_quarantine w1 c n') by assumption.
  cbn [w1 fs stdout].
  destruct (lookup c (here (fs w))) as [y|];
    [|split; [assumption | discriminate]].
  destruct (lookup OLD_DIR (here (fs w))) as [[b0 | od]|];
    try (split; [assumption | discriminate]).
  cbn [fst snd fs]. split; [|discriminate].
  apply well_formed_with_here; [assumption|].
  apply names_bind; [reflexivity|]. apply names_remove. apply W.
Qed.

Lemma inside_rename_one (fuel : nat) (old new : str) :
  plain old = true -> plain new = true ->
  stays_inside (dpp_cleanup.rename_one fuel old new).
Proof.
  intros Ho Hn. unfold dpp_cleanup.rename_one.
  destruct (str_eqb old new); [apply inside_ret|].
  apply inside_bind; [apply inside_print | intros _].
  apply inside_get. intros fsys W.
  destruct (os_path_exists fsys new); [|now apply inside_os_rename].
  destruct (splitext new) as [base ext] eqn:E.
  destruct (next_free (os_path_exists fsys) base ext fuel 2) as [cand|] eqn:Nf;
    [|apply inside_halt; discriminate].
  destruct (next_free_spec _ _ _ _ _ _ Nf) as (_ & j & _ & ->).
  apply inside_bind; [apply inside_print | intros _].
  apply inside_os_rename; [assumption | now apply (candidate_plain new)].
Qed.

(** Discharges the steps that only print, return or stop. *)
Ltac inside_steps :=
  repeat first
    [ apply inside_print
    | apply inside_ret
    | apply inside_print_pairs
    | apply inside_halt; discriminate
    | apply inside_bind; [|intros ?]
    | apply inside_for_each; intros ? _
    | match goal with
      | |- stays_inside (match ?x with _ => _ end) => destruct x
      | |- stays_inside (if ?x then _ else _) => destruct x
      end ].

Lemma fix_main_inside (U : runtime) (fuel : nat) (dry : bool) :
  runtime_laws U -> stays_inside (fix_dpp_filenames.main U fuel dry).
Proof.
  intros L w W.
  set (G := fun r : result unit * world =>
             well_formed (fs (snd r)) /\ fst r <> Stop OutsideModel).
  change (G (fix_dpp_filenames.main U fuel dry w)).
  unfold fix_dpp_filenames.main.
  unfold bind at 1. unfold get_fs at 1.
  unfold bind at 1. unfold print at 1. cbn [fs stdout].
  unfold bind at 1. rewrite os_listdir_cwd.
  set (w1 := {| fs := fs w; stdout := _ |}).
  assert (well_formed (fs w1)) as W1 by exact W.
  destruct (mem DASHBOARD_FILE _); cbn [negb].
  2:{ match goal with |- G (?m ?w0) =>
        assert (stays_inside m) as S; [inside_steps | exact (S w0 W1)] end. }
  destruct (fix_dpp_filenames.build_rename_map U (fs w) fuel _ [])
    as [rename_map|] eqn:B; [|split; [assumption | discriminate]].
  pose proof (fun k v => fix_plan_facts U (fs w) fuel rename_map k v L W B) as Facts.
  match goal with |- G (?m ?w0) =>
    assert (stays_inside m) as S; [|exact (S w0 W1)] end.
  apply inside_bind; [inside_steps | intros _].
  apply inside_bind; [apply inside_read_text; reflexivity | intros html].
  cbv zeta.
  apply inside_bind; [inside_steps | intros _].
  destruct dry; [inside_steps|].
  apply inside_bind.
  { unfold fix_dpp_filenames.perform_renames. apply inside_for_each.
    intros [k v] Hin. destruct (Facts k v Hin) as (Pk & Pv & _).
    apply inside_bind; [apply inside_print | intros _].
    now apply inside_os_rename. }
  intros _. apply inside_bind; [|intros _; inside_steps].
  destruct (find_dpp_urls_block U html) as [[[start end_] body]|];
    [apply inside_update_dashboard | apply inside_ret].
Qed.

Lemma cleanup_main_inside (U : runtime) (fuel : nat) (dry : bool) :
  runtime_laws U -> stays_inside (dpp_cleanup.main U fuel dry).
Proof.
  intros L w W.
  set (G := fun r : result unit * world =>
             well_formed (fs (snd r)) /\ fst r <> Stop OutsideModel).
  change (G (dpp_cleanup.main U fuel dry w)).
  unfold dpp_cleanup.main.
  unfold bind at 1. unfold get_fs at 1.
  unfold bind at 1. unfold print at 1. cbn [fs stdout].
  unfold bind at 1. rewrite os_listdir_cwd.
  set (w1 := {| fs := fs w; stdout := _ |}).
  assert (well_formed (fs w1)) as W1 by exact W.
  set (html_files := html_files_of U (fs w) (map fst (here (fs w)))).
  destruct (mem DASHBOARD_FILE html_files); cbn [negb].
  2:{ match goal with |- G (?m ?w0) =>
        assert (stays_inside m) as S; [inside_steps | exact (S w0 W1)] end. }
  cbv zeta.
  pose proof (cleanup_plan_facts U (fs w)) as Facts. fold html_files in Facts.
  set (rename_map := dpp_cleanup.build_rename_map U (targets_of html_files)) in *.
  set (conflicts := dpp_cleanup.conflicts_of (fs w) rename_map).
  assert (forall c, In c conflicts -> plain c = true /\ c <> OLD_DIR) as Hconf.
  { intros c Hc. unfold conflicts, dpp_cleanup.conflicts_of in Hc.
    apply filter_In in Hc as [Hc _]. apply in_map_iff in Hc as ([k v] & <- & Hin).
    destruct (Facts k v L W Hin) as (_ & P & A & _).
    split; [exact P | now apply starts_alnum_not_old_dir]. }
  match goal with |- G (?m ?w0) =>
    assert (stays_inside m) as S; [|exact (S w0 W1)] end.
  apply inside_bind; [inside_steps | intros _].
  apply inside_bind.
  { destruct (negb dry && match conflicts with [] => false | _ :: _ => true end);
      [|apply inside_ret].
    apply inside_bind; [apply inside_makedirs | intros _].
    apply inside_for_each. intros c Hc. destruct (Hconf c Hc).
    now apply inside_quarantine. }
  intros _.
  apply inside_bind; [inside_steps | intros _].
  apply inside_bind; [apply inside_read_text; reflexivity | intros html].
  apply inside_get. intros fsys1 _.
  apply inside_bind; [inside_steps | intros _].
  destruct dry; [inside_steps|].
  apply inside_bind.
  { unfold dpp_cleanup.perform_renames. apply inside_for_each.
    intros [k v] Hin. destruct (Facts k v L W Hin) as (Pk & Pv & _).
    now apply inside_rename_one. }
  intros _. apply inside_bind; [|intros _; inside_steps].
  destruct (find_dpp_urls_block U html) as [[[start end_] body]|];
    [apply inside_update_dashboard | apply inside_ret].
Qed.

Lemma auto_fix_main_inside (U : runtime) :
  stays_inside (auto_fix_dashboard_mapping.main U).
Proof.
  intros w W.
  set (G := fun r : result unit * world =>
             well_formed (fs (snd r)) /\ fst r <> Stop OutsideModel).
  change (G (auto_fix_dashboard_mapping.main U w)).
  destruct (lookup DASHBOARD_FILE (here (fs w))) as [[b | d]|] eqn:Ld.
  - destruct (decode_utf8 U b) as [html|] eqn:Hdec.
    + destruct (auto_fix_run U w b html W Ld Hdec) as (out & ->).
      unfold G. cbn [fst snd fs]. split; [|now destruct (snd (rewritten U html))].
      apply well_formed_with_here; [assumption|]. cbv zeta.
      assert (forallb plain (map fst
                (match lookup (DASHBOARD_FILE ++ BACKUP_SUFFIX) (here (fs w)) with
                 | Some _ => here (fs w)
                 | None => bind_entry (DASHBOARD_FILE ++ BACKUP_SUFFIX) (File b)
                             (here (fs w))
                 end)) = true) as H1.
      { destruct (lookup (DASHBOARD_FILE ++ BACKUP_SUFFIX) (here (fs w)));
          [apply W | apply names_bind; [reflexivity | apply W]]. }
      destruct (snd (rewritten U html)); [|exact H1].
      now apply names_bind.
    + unfold auto_fix_dashboard_mapping.main, bind at 1. unfold get_fs at 1.
      rewrite (exists_plain _ _ W plain_dashboard), Ld. cbn [negb].
      unfold bind at 1. unfold read_text, bind at 1.
      rewrite (read_bytes_plain w _ W plain_dashboard), Ld, Hdec.
      split; [assumption | discriminate].
  - unfold auto_fix_dashboard_mapping.main, bind at 1. unfold get_fs at 1.
    rewrite (exists_plain _ _ W plain_dashboard), Ld. cbn [negb].
    unfold bind at 1. unfold read_text, bind at 1.
    rewrite (read_bytes_plain w _ W plain_dashboard), Ld.
    split; [assumption | discriminate].
  - unfold auto_fix_dashboard_mapping.main, bind at 1. unfold get_fs at 1.
    rewrite (exists_plain _ _ W plain_dashboard), Ld. cbn [negb].
    split; [assumption | discriminate].
Qed.

(** X30.  The three scripts work inside the working directory.  On a
    directory whose entries have plain names, every path a run hands to
    [os.rename], [open], [shutil.copy2], [shutil.move] or [os.makedirs]
    is the name of an entry of the working directory or a name inside
    [OLD_FILES]: no run addresses a path outside the directory tree (it
    never ends in [OutsideModel]), and the entries it leaves behind have
    plain names again. *)
Theorem runs_stay_inside (U : runtime) (fuel : nat) (dry : bool) (w : world) :
  runtime_laws U -> well_formed (fs w) ->
  (well_formed (fs (snd (fix_dpp_filenames.main U fuel dry w))) /\
   fst (fix_dpp_filenames.main U fuel dry w) <> Stop OutsideModel) /\
  (well_formed (fs (snd (dpp_cleanup.main U fuel dry w))) /\
   fst (dpp_cleanup.main U fuel dry w) <> Stop OutsideModel) /\
  (well_formed (fs (snd (auto_fix_dashboard_mapping.main U w))) /\
   fst (auto_fix_dashboard_mapping.main U w) <> Stop OutsideModel).
Proof.
  intros L W. split; [|split].
  - now apply fix_main_inside.
  - now apply cleanup_main_inside.
  - now apply auto_fix_main_inside.
Qed.

Lemma runs_stay_inside_witness :
  fst (dpp_cleanup.main py_latin 5 false (world_of conflict_fs))
  <> Stop OutsideModel.
Proof.
  refine (proj2 (proj1 (proj2 (runs_stay_inside py_latin 5 false
            (world_of conflict_fs) py_latin_laws _)))).
  constructor; reflexivity.
Defined.
